(** * Score-analysis dashboard: threshold classification, hierarchical
      aggregation, goal lines and total-score synthesis

    A shallow embedding of the statistical core of the repository:
    - [Stats]         the guards [safe_divide], [safe_mean], [safe_std] and the
                      pandas reductions they wrap (quadrant_analyzer.py);
    - [Quadrant]      [QuadrantAnalyzer]: 4-, 9- and 16-region classification
                      (quadrant_analyzer.py);
    - [Cascade]       [calculate_county_statistics] and
                      [determine_subject_combination]
                      (cascade_statistics_analyzer.py);
    - [GoalLine]      [analyze_score_line_completion] and
                      [_calculate_group_line_stats] (goal_completion_analyzer.py);
    - [DataProcessor] [calculate_total_score] (data_processor.py).

    Scores are rationals.  A float64 cell is an [option Q], [None] standing
    for NaN; comparisons with NaN are false, as in pandas.  Comparisons,
    counts, minima, maxima, sorting and the guards are those of the code.
    Sums, means, quotients and roundings are computed here without the
    rounding of float64 and without the wrap-around of int64; what the
    properties say of them either is untouched by rounding (an order, a
    sign, a bound that rounding keeps), or leaves a margin for it, or is
    said of scores that float64 and int64 add exactly. *)

From Stdlib Require Import String QArith ZArith List Bool Lia Qround.
From Stdlib Require Import DecimalString Permutation Sorted Lqa Qabs.
Import ListNotations.

Open Scope Q_scope.

(** ** Outcomes of a Python call *)

Inductive outcome (A : Type) : Type :=
| Returned (a : A)          (* a value is returned *)
| ReturnedNone              (* the function returns None *)
| Raised (exn : string).    (* an exception propagates *)

Arguments Returned {A} a.
Arguments ReturnedNone {A}.
Arguments Raised {A} exn.

(** A call whose exception, or None, ends the caller as well. *)
Definition bind {A B : Type} (o : outcome A) (f : A -> outcome B) : outcome B :=
  match o with
  | Returned a => f a
  | ReturnedNone => ReturnedNone
  | Raised exn => Raised exn
  end.

Notation "x <- o ;; k" := (bind o (fun x => k))
  (at level 61, o at next level, right associativity).

(** ** Python's stable sort

    [sorted(l, key=..., reverse=...)] and [list.sort] are stable: elements
    with equal keys keep their order.  [ahead y x] says that [y], met
    later in the list than [x], must nevertheless come before it. *)

Fixpoint insert_stable {A : Type} (ahead : A -> A -> bool) (x : A)
    (l : list A) : list A :=
  match l with
  | [] => [x]
  | y :: t => if ahead y x then y :: insert_stable ahead x t else x :: l
  end.

Definition sort_stable {A : Type} (ahead : A -> A -> bool) (l : list A)
    : list A :=
  fold_right (insert_stable ahead) [] l.

(** [needle in hay] on strings, [not l] on lists. *)
Definition contains (needle hay : string) : bool :=
  match String.index 0 needle hay with Some _ => true | None => false end.

Definition is_empty {A : Type} (l : list A) : bool :=
  match l with [] => true | _ => false end.

Definition mem (s : string) (l : list string) : bool :=
  existsb (String.eqb s) l.

(** ** pandas [groupby]

    [frame.groupby(col)] with its defaults: rows whose key is NaN are
    dropped, the groups come in sorted key order, and each group keeps its
    rows in their original order. *)

Fixpoint present_keys {A : Type} (key : A -> option string) (rows : list A)
    : list string :=
  match rows with
  | [] => []
  | r :: t =>
      match key r with
      | Some k => k :: present_keys key t
      | None => present_keys key t
      end
  end.

Definition has_key {A : Type} (key : A -> option string) (k : string) (r : A)
    : bool :=
  match key r with Some k' => String.eqb k' k | None => false end.

Definition group_keys {A : Type} (key : A -> option string) (rows : list A)
    : list string :=
  sort_stable String.ltb (nodup string_dec (present_keys key rows)).

Definition groupby {A : Type} (key : A -> option string) (rows : list A)
    : list (string * list A) :=
  map (fun k => (k, filter (has_key key k) rows)) (group_keys key rows).

(** ** Numeric kit *)

Module Stats.

(** A float64 column. *)
Definition series := list (option Q).

(** A statistic: a number, the square root of a number (a standard
    deviation is kept as the root of its variance), or NaN. *)
Inductive fval : Type :=
| Num (q : Q)
| Root (v : Q)
| NaN.

Definition notna (c : option Q) : bool :=
  match c with Some _ => true | None => false end.

Definition isna (c : option Q) : bool := negb (notna c).

Fixpoint valid (s : series) : list Q :=
  match s with
  | [] => []
  | Some q :: t => q :: valid t
  | None :: t => valid t
  end.

Definition Qsum (xs : list Q) : Q := fold_right Qplus 0 xs.

Definition Qlen {A : Type} (xs : list A) : Q := inject_Z (Z.of_nat (length xs)).

Definition Qgtb (x y : Q) : bool := negb (Qle_bool x y).

Definition average (xs : list Q) : Q := Qsum xs / Qlen xs.

(** Sample variance, ddof = 1. *)
Definition variance (xs : list Q) : Q :=
  let m := average xs in
  Qsum (map (fun x => (x - m) * (x - m)) xs) / (Qlen xs - 1).

(** [Series.mean()]: NaN cells are skipped; NaN when nothing is left. *)
Definition mean (s : series) : fval :=
  match valid s with
  | [] => NaN
  | xs => Num (average xs)
  end.

(** [Series.std()]: ddof = 1, NaN cells are skipped; NaN with fewer than
    two values. *)
Definition std (s : series) : fval :=
  let xs := valid s in
  if (length xs <? 2)%nat then NaN else Root (variance xs).

Definition Qmax (x y : Q) : Q := if Qle_bool x y then y else x.
Definition Qmin (x y : Q) : Q := if Qle_bool x y then x else y.

(** [Series.max()] and [Series.min()]. *)
Definition smax (s : series) : fval :=
  match valid s with
  | [] => NaN
  | x :: xs => Num (fold_left Qmax xs x)
  end.

Definition smin (s : series) : fval :=
  match valid s with
  | [] => NaN
  | x :: xs => Num (fold_left Qmin xs x)
  end.

(** Round half to even, as [numpy.rint]. *)
Definition rint (x : Q) : Z :=
  let f := Qfloor x in
  match Qcompare (x - inject_Z f) (1 # 2) with
  | Lt => f
  | Gt => (f + 1)%Z
  | Eq => if Z.even f then f else (f + 1)%Z
  end.

(** [rint] of the square root of [x]. *)
Definition rint_root (x : Q) : Z :=
  let k := Z.sqrt (Qfloor x) in
  let half := inject_Z k + (1 # 2) in
  match Qcompare x (half * half) with
  | Lt => k
  | Gt => (k + 1)%Z
  | Eq => if Z.even k then k else (k + 1)%Z
  end.

(** [.round(2)]: [rint(x * 100) / 100]. *)
Definition round2 (x : Q) : Q := inject_Z (rint (x * 100)) / 100.

Definition round2_f (f : fval) : fval :=
  match f with
  | Num q => Num (round2 q)
  | Root v => Num (inject_Z (rint_root (v * 10000)) / 100)
  | NaN => NaN
  end.

(** [safe_divide(numerator, denominator, default=0)]; the denominators
    passed in are lengths, never NaN. *)
Definition safe_divide (numerator denominator default : Q) : Q :=
  if Qeq_bool denominator 0 then default else numerator / denominator.

(** [series.empty or series.isna().all()] *)
Definition empty_or_all_na (s : series) : bool :=
  match s with
  | [] => true
  | _ => forallb isna s
  end.

Definition safe_mean (s : series) : fval :=
  if empty_or_all_na s then Num 0 else mean s.

Definition safe_std (s : series) : fval :=
  if empty_or_all_na s || (length s <? 2)%nat then Num 0 else std s.

End Stats.

(** ** QuadrantAnalyzer *)

Module Quadrant.
Import Stats.

Open Scope string_scope.

(** A row of the DataFrame: its index label and the cells of
    [subject_column] and [total_column]. *)
Record row : Type := mkRow {
  index : nat;
  subject : option Q;
  total : option Q
}.

(** A custom metric: [{"name", "subject_threshold", "total_threshold"}]. *)
Record metric : Type := mkMetric {
  name : string;
  subject_threshold : Q;
  total_threshold : Q
}.

Inductive analysis_kind : Type := Basic | Custom | Advanced.

Record QuadrantAnalyzer : Type := mkAnalyzer {
  df : list row;
  analysis_type : analysis_kind;
  custom_metrics : list metric;
  basic_subject_threshold : Q;
  basic_total_threshold : Q
}.

(** Keys of [quadrant_stats]: strings for the 4- and 9-region grids,
    integers for the basic quadrants and the 16-region grid. *)
Inductive key : Type :=
| KStr (s : string)
| KInt (n : nat).

Record region_stats : Type := mkStats {
  count : nat;
  percentage : Q;
  subject_mean : fval;
  subject_std : fval;
  total_mean : fval;
  total_std : fval;
  students : list row;
  label : option string;
  color : option string;
  metric_name : option string;
  region_no : option nat       (* "quadrant" or "region_id" *)
}.

Definition stats_dict := list (key * region_stats).

(** [df.dropna(subset=[subject_column, total_column])] *)
Definition dropna (d : list row) : list row :=
  filter (fun r => notna (subject r) && notna (total r)) d.

(** Elementwise [column - threshold], [series > t], [series <= t]. *)
Definition minus (c : option Q) (t : Q) : option Q :=
  option_map (fun v => v - t) c.

Definition gt (c : option Q) (t : Q) : bool :=
  match c with Some v => Qgtb v t | None => false end.

Definition le (c : option Q) (t : Q) : bool :=
  match c with Some v => Qle_bool v t | None => false end.

Definition str_of_nat (n : nat) : string :=
  NilEmpty.string_of_uint (Nat.to_uint n).

(** A region before its statistics are computed. *)
Record region_def : Type := mkRegion {
  rd_id : nat;
  rd_mask : row -> bool;
  rd_label : string;
  rd_color : string
}.

Definition subject_col (rs : list row) : series := map subject rs.
Definition total_col (rs : list row) : series := map total rs.

(** [_get_region_color] *)
Definition base_colors (metric_name : string) : list (nat * string) :=
  if contains "保底" metric_name then
    [(1%nat, "#2E8B57"); (2%nat, "#32CD32"); (3%nat, "#D3D3D3"); (4%nat, "#87CEEB")]
  else if contains "本科" metric_name then
    [(1%nat, "#006400"); (2%nat, "#90EE90"); (3%nat, "#D3D3D3"); (4%nat, "#FFD700")]
  else if contains "重点" metric_name then
    [(1%nat, "#FF6347"); (2%nat, "#FFA07A"); (3%nat, "#D3D3D3"); (4%nat, "#FF8C00")]
  else if contains "特控" metric_name then
    [(1%nat, "#FF1493"); (2%nat, "#FF69B4"); (3%nat, "#D3D3D3"); (4%nat, "#DDA0DD")]
  else
    [(1%nat, "#4169E1"); (2%nat, "#1E90FF"); (3%nat, "#D3D3D3"); (4%nat, "#87CEEB")].

Definition _get_region_color (metric_name : string) (quadrant : nat) : string :=
  match find (fun p => Nat.eqb (fst p) quadrant) (base_colors metric_name) with
  | Some (_, c) => c
  | None => "#808080"
  end.

(** The four quadrant masks over [subject_diff] and [total_diff]. *)
Definition quadrant_mask (subject_th total_th : Q) (q : nat) (r : row) : bool :=
  let subject_diff := minus (subject r) subject_th in
  let total_diff := minus (total r) total_th in
  match q with
  | 1%nat => gt subject_diff 0 && gt total_diff 0
  | 2%nat => le subject_diff 0 && gt total_diff 0
  | 3%nat => le subject_diff 0 && le total_diff 0
  | _ => gt subject_diff 0 && le total_diff 0
  end.

(** The statistics loop of [analyze_single_metric_grid],
    [analyze_triple_metric_grid] and [analyze_basic_quadrants]: the
    subject column goes through [safe_mean]/[safe_std], the total column
    through the raw reductions. *)
Definition guarded_stats (clean : list row) (mask : row -> bool)
    (lbl col mname : option string) (no : option nat) : region_stats :=
  let students := filter mask clean in
  let some := negb (is_empty students) in
  {| count := length students;
     percentage := safe_divide (Qlen students) (Qlen clean) 0 * 100;
     subject_mean := if some then safe_mean (subject_col students) else Num 0;
     subject_std := if some then safe_std (subject_col students) else Num 0;
     total_mean := if some then mean (total_col students) else Num 0;
     total_std := if some then std (total_col students) else Num 0;
     students := students;
     label := lbl;
     color := col;
     metric_name := mname;
     region_no := no |}.

(** The statistics loop of [analyze_dual_metric_grid]: a plain division
    and raw reductions on both columns. *)
Definition raw_stats (clean : list row) (total_students : nat)
    (rd : region_def) : region_stats :=
  let students := filter (rd_mask rd) clean in
  let some := negb (is_empty students) in
  {| count := length students;
     percentage := Qlen students / inject_Z (Z.of_nat total_students) * 100;
     subject_mean := if some then mean (subject_col students) else Num 0;
     subject_std := if some then std (subject_col students) else Num 0;
     total_mean := if some then mean (total_col students) else Num 0;
     total_std := if some then std (total_col students) else Num 0;
     students := students;
     label := Some (rd_label rd);
     color := Some (rd_color rd);
     metric_name := None;
     region_no := Some (rd_id rd) |}.

Definition single_quadrants (m : metric) : list region_def :=
  let metric_name := name m in
  let mask := quadrant_mask (subject_threshold m) (total_threshold m) in
  [ mkRegion 1 (mask 1%nat) (metric_name ++ " - 双达标")
      (_get_region_color metric_name 1);
    mkRegion 2 (mask 2%nat) (metric_name ++ " - 总分达标")
      (_get_region_color metric_name 2);
    mkRegion 3 (mask 3%nat) (metric_name ++ " - 双未达标")
      (_get_region_color metric_name 3);
    mkRegion 4 (mask 4%nat) (metric_name ++ " - 单科达标")
      (_get_region_color metric_name 4) ].

Definition analyze_single_metric_grid (a : QuadrantAnalyzer) (m : metric)
    : outcome stats_dict :=
  let clean_df := dropna (df a) in
  if is_empty clean_df then ReturnedNone
  else
    Returned
      (map (fun rd =>
              (KStr (name m ++ "_Q" ++ str_of_nat (rd_id rd)),
               guarded_stats clean_df (rd_mask rd) (Some (rd_label rd))
                 (Some (rd_color rd)) (Some (name m)) (Some (rd_id rd))))
           (single_quadrants m)).

(** The three bands of one axis of the 9-region grid. *)
Definition above_high (c : option Q) (high : Q) : bool := gt c high.
Definition between (c : option Q) (low high : Q) : bool := gt c low && le c high.
Definition below_low (c : option Q) (low : Q) : bool := le c low.

(** "确保metric1是较低的分数线": swap on the subject threshold only. *)
Definition order_pair (metric1 metric2 : metric) : metric * metric :=
  if Qgtb (subject_threshold metric1) (subject_threshold metric2)
  then (metric2, metric1) else (metric1, metric2).

Definition dual_regions (metric1 metric2 : metric) : list region_def :=
  let n1 := name metric1 in
  let n2 := name metric2 in
  let subject_low := subject_threshold metric1 in
  let total_low := total_threshold metric1 in
  let subject_high := subject_threshold metric2 in
  let total_high := total_threshold metric2 in
  let s_hi r := above_high (subject r) subject_high in
  let s_mid r := between (subject r) subject_low subject_high in
  let s_lo r := below_low (subject r) subject_low in
  let t_hi r := above_high (total r) total_high in
  let t_mid r := between (total r) total_low total_high in
  let t_lo r := below_low (total r) total_low in
  [ mkRegion 1 (fun r => s_hi r && t_hi r) ("双" ++ n2 ++ "水平") "#FF1493";
    mkRegion 2 (fun r => s_hi r && t_mid r)
      ("单科" ++ n2 ++ "，总分" ++ n1) "#FF69B4";
    mkRegion 3 (fun r => s_mid r && t_hi r)
      ("单科" ++ n1 ++ "，总分" ++ n2) "#FFA07A";
    mkRegion 4 (fun r => s_mid r && t_mid r) ("双" ++ n1 ++ "水平") "#006400";
    mkRegion 5 (fun r => s_lo r && t_hi r)
      ("单科未达" ++ n1 ++ "，总分" ++ n2) "#32CD32";
    mkRegion 6 (fun r => s_lo r && t_mid r)
      ("单科未达" ++ n1 ++ "，总分" ++ n1) "#90EE90";
    mkRegion 7 (fun r => s_lo r && t_lo r) ("双未达" ++ n1) "#D3D3D3";
    mkRegion 8 (fun r => s_mid r && t_lo r)
      ("单科" ++ n1 ++ "，总分未达" ++ n1) "#87CEEB";
    mkRegion 9 (fun r => s_hi r && t_lo r)
      ("单科" ++ n2 ++ "，总分未达" ++ n1) "#DDA0DD" ].

Definition analyze_dual_metric_grid (a : QuadrantAnalyzer)
    (metric1 metric2 : metric) : outcome stats_dict :=
  let '(metric1, metric2) := order_pair metric1 metric2 in
  let clean_df := dropna (df a) in
  let total_students := length clean_df in
  (* [len(students) / total_students] is evaluated for the first region *)
  if Nat.eqb total_students 0 then Raised "ZeroDivisionError"
  else
    Returned
      (map (fun rd =>
              (KStr ("grid_R" ++ str_of_nat (rd_id rd)),
               raw_stats clean_df total_students rd))
           (dual_regions metric1 metric2)).

(** The four bands of one axis of the 16-region grid. *)
Definition triple_regions (high_metric mid_metric low_metric : metric)
    : list region_def :=
  let nh := name high_metric in
  let nm := name mid_metric in
  let nl := name low_metric in
  let subject_high := subject_threshold high_metric in
  let total_high := total_threshold high_metric in
  let subject_mid := subject_threshold mid_metric in
  let total_mid := total_threshold mid_metric in
  let subject_low := subject_threshold low_metric in
  let total_low := total_threshold low_metric in
  let s_hi r := above_high (subject r) subject_high in
  let s_mh r := between (subject r) subject_mid subject_high in
  let s_lm r := between (subject r) subject_low subject_mid in
  let s_lo r := below_low (subject r) subject_low in
  let t_hi r := above_high (total r) total_high in
  let t_mh r := between (total r) total_mid total_high in
  let t_lm r := between (total r) total_low total_mid in
  let t_lo r := below_low (total r) total_low in
  [ mkRegion 1 (fun r => s_hi r && t_hi r) ("双" ++ nh) "#FF1493";
    mkRegion 2 (fun r => s_hi r && t_mh r)
      ("单科" ++ nh ++ "，总分" ++ nm) "#FF69B4";
    mkRegion 3 (fun r => s_hi r && t_lm r)
      ("单科" ++ nh ++ "，总分" ++ nl) "#FFA07A";
    mkRegion 4 (fun r => s_hi r && t_lo r)
      ("单科" ++ nh ++ "，总分未达" ++ nl) "#FFD700";
    mkRegion 5 (fun r => s_mh r && t_hi r)
      ("单科" ++ nm ++ "，总分" ++ nh) "#006400";
    mkRegion 6 (fun r => s_mh r && t_mh r) ("双" ++ nm) "#32CD32";
    mkRegion 7 (fun r => s_mh r && t_lm r)
      ("单科" ++ nm ++ "，总分" ++ nl) "#90EE90";
    mkRegion 8 (fun r => s_mh r && t_lo r)
      ("单科" ++ nm ++ "，总分未达" ++ nl) "#87CEEB";
    mkRegion 9 (fun r => s_lm r && t_hi r)
      ("单科" ++ nl ++ "，总分" ++ nh) "#4169E1";
    mkRegion 10 (fun r => s_lm r && t_mh r)
      ("单科" ++ nl ++ "，总分" ++ nm) "#1E90FF";
    mkRegion 11 (fun r => s_lm r && t_lm r) ("双" ++ nl) "#DDA0DD";
    mkRegion 12 (fun r => s_lm r && t_lo r)
      ("单科" ++ nl ++ "，总分未达" ++ nl) "#FF6347";
    mkRegion 13 (fun r => s_lo r && t_hi r)
      ("单科未达" ++ nl ++ "，总分" ++ nh) "#FFA500";
    mkRegion 14 (fun r => s_lo r && t_mh r)
      ("单科未达" ++ nl ++ "，总分" ++ nm) "#FF8C00";
    mkRegion 15 (fun r => s_lo r && t_lm r)
      ("单科未达" ++ nl ++ "，总分" ++ nl) "#8B4513";
    mkRegion 16 (fun r => s_lo r && t_lo r) ("双未达" ++ nl) "#D3D3D3" ].

Definition analyze_triple_metric_grid (a : QuadrantAnalyzer)
    (high_metric mid_metric low_metric : metric) : outcome stats_dict :=
  let clean_df := dropna (df a) in
  Returned
    (map (fun rd =>
            (KInt (rd_id rd),
             guarded_stats clean_df (rd_mask rd) (Some (rd_label rd))
               (Some (rd_color rd)) None None))
         (triple_regions high_metric mid_metric low_metric)).

(** [key=lambda x: max(x["subject_threshold"], x["total_threshold"])] *)
Definition level_of (m : metric) : Q :=
  Qmax (subject_threshold m) (total_threshold m).

(** [sorted(self.custom_metrics, key=..., reverse=True)] *)
Definition sorted_metrics (ms : list metric) : list metric :=
  sort_stable (fun y x => Qgtb (level_of y) (level_of x)) ms.

Definition analyze_multi_metric_quadrants (a : QuadrantAnalyzer)
    : outcome stats_dict :=
  if is_empty (custom_metrics a) then ReturnedNone
  else
    match sorted_metrics (custom_metrics a) with
    | [m0; m1; m2] => analyze_triple_metric_grid a m0 m1 m2
    | primary_metric :: secondary_metric :: _ =>
        analyze_dual_metric_grid a primary_metric secondary_metric
    | _ => Raised "IndexError"
    end.

Definition analyze_basic_quadrants (a : QuadrantAnalyzer) : outcome stats_dict :=
  let clean_df := dropna (df a) in
  let mask := quadrant_mask (basic_subject_threshold a) (basic_total_threshold a) in
  Returned
    (map (fun q => (KInt q, guarded_stats clean_df (mask q) None None None None))
         [1%nat; 2%nat; 3%nat; 4%nat]).

Definition analyze_custom_quadrants (a : QuadrantAnalyzer) : outcome stats_dict :=
  match custom_metrics a with
  | [] => analyze_basic_quadrants a
  | [m] => analyze_single_metric_grid a m
  | [m1; m2] => analyze_dual_metric_grid a m1 m2
  | _ => analyze_multi_metric_quadrants a
  end.

Definition analyze_quadrants (a : QuadrantAnalyzer) : outcome stats_dict :=
  match analysis_type a, custom_metrics a with
  | Custom, _ :: _ => analyze_custom_quadrants a
  | _, _ => analyze_basic_quadrants a
  end.

(** [get_preset_metrics] *)
Definition get_preset_metrics : list metric :=
  [ mkMetric "保底线" 60 300;
    mkMetric "本科线" 75 375;
    mkMetric "重点线" 80 425;
    mkMetric "特控线" 85 475 ].

(** *** Vocabulary of the properties *)

Definition sum_counts (d : stats_dict) : nat :=
  fold_right (fun p acc => (count (snd p) + acc)%nat) 0%nat d.

(** [r] is one of the students of the region stored under [k]. *)
Definition member (r : row) (d : stats_dict) (k : key) : Prop :=
  exists st, In (k, st) d /\ In r (students st).

(** The regions of [d] partition the rows of [clean]. *)
Definition partitions (clean : list row) (d : stats_dict) : Prop :=
  sum_counts d = length clean /\
  (forall k st, In (k, st) d ->
     count st = length (students st) /\ incl (students st) clean) /\
  (forall r, In r clean ->
     exists k, member r d k /\ forall k', member r d k' -> k' = k).

(** The metrics are ordered the same way on both axes. *)
Definition co_monotone (ms : list metric) : Prop :=
  forall m m', In m ms -> In m' ms ->
    (subject_threshold m <= subject_threshold m' <->
     total_threshold m <= total_threshold m').

(** *** Example inputs *)

(** Two metrics that cross: the one with the lower subject line has the
    higher total line. *)
Definition crossing_metrics : list metric :=
  [ mkMetric "A" 60 475; mkMetric "B" 85 300 ].

Definition crossing_analyzer : QuadrantAnalyzer :=
  mkAnalyzer [mkRow 0 (Some 70) (Some 400)] Custom crossing_metrics 0 0.

Definition lone_analyzer : QuadrantAnalyzer :=
  mkAnalyzer [mkRow 0 (Some 80) (Some 400)] Custom [] 0 0.

Definition lone_single : stats_dict :=
  match analyze_single_metric_grid lone_analyzer (mkMetric "line" 70 280) with
  | Returned d => d
  | _ => []
  end.

Definition lone_dual : stats_dict :=
  match analyze_dual_metric_grid lone_analyzer
          (mkMetric "low" 60 300) (mkMetric "high" 85 475) with
  | Returned d => d
  | _ => []
  end.

(** The student on whom the choice of the two metrics shows. *)
Definition preset_analyzer : QuadrantAnalyzer :=
  mkAnalyzer [mkRow 0 (Some 70) (Some 400)] Custom get_preset_metrics 0 0.

End Quadrant.


(** ** CascadeStatisticsAnalyzer *)

Module Cascade.
Import Stats.

Open Scope string_scope.

(** A cell of a score column once it is numeric ([pd.to_numeric] with
    [errors="coerce"] has turned text into NaN). *)
Inductive cell : Type :=
| Fin (q : Q)
| PosInf
| NegInf
| Nan.

(** A row: the cell of the county column (None for NaN) and the cells of
    the other columns by name. *)
Record record : Type := mkRecord {
  county : option string;
  cells : list (string * cell)
}.

Record CascadeAnalyzer : Type := mkCascade {
  data : list record;
  columns : list string;
  county_found : bool          (* "county" in self.admin_columns *)
}.

Fixpoint lookup {V : Type} (k : string) (l : list (string * V)) : option V :=
  match l with
  | [] => None
  | (k', v) :: t => if String.eqb k' k then Some v else lookup k t
  end.

Definition cell_of (category : string) (r : record) : cell :=
  match lookup category (cells r) with Some c => c | None => Nan end.

(** [category_data]: the county key with the value that survives
    [notna] and [np.isfinite]. *)
Fixpoint clean (category : string) (rows : list record)
    : list (option string * Q) :=
  match rows with
  | [] => []
  | r :: t =>
      match cell_of category r with
      | Fin q => (county r, q) :: clean category t
      | _ => clean category t
      end
  end.

(** One line of the county table (类别, 区县, 均值, 均值排名, 离均率, 标准差,
    最大值, 最小值, 样本数). *)
Record county_row : Type := mkCountyRow {
  cr_category : string;
  cr_county : string;
  cr_mean : Q;
  cr_rank : nat;
  cr_deviation : Q;
  cr_std : fval;
  cr_max : fval;
  cr_min : fval;
  cr_count : nat
}.

(** [Series.rank(ascending=False, method="min")]: the values are put in
    descending order and each value takes the position, from 1, of the
    first value of its tie group. *)
Fixpoint first_position (x : Q) (sorted : list Q) : nat :=
  match sorted with
  | [] => 0
  | y :: t => if Qeq_bool y x then 0 else S (first_position x t)
  end.

Definition rank_min_desc (values : list Q) : list nat :=
  let sorted := sort_stable Qgtb values in
  map (fun x => S (first_position x sorted)) values.

(** The aggregation of one group, each figure rounded to two places. *)
Record agg : Type := mkAgg {
  a_key : string;
  a_mean : Q;
  a_std : fval;
  a_min : fval;
  a_max : fval;
  a_count : nat
}.

Definition aggregate (g : string * list (option string * Q)) : agg :=
  let vs := map snd (snd g) in
  let s := map Some vs in
  {| a_key := fst g;
     a_mean := round2 (average vs);
     a_std := round2_f (std s);
     a_min := round2_f (smin s);
     a_max := round2_f (smax s);
     a_count := length vs |}.

(** 离均率 of one group mean against [overall_mean]. *)
Definition deviation_rate (overall_mean : fval) (group_mean : Q) : Q :=
  match overall_mean with
  | Num m =>
      if Qeq_bool m 0 then 0
      else round2 ((group_mean - m) / m * 100)
  | _ => 0
  end.

(** The body of the loop of [calculate_county_statistics] for one
    category whose column exists. *)
Definition county_table (category : string) (rows : list record)
    : list county_row :=
  let category_data := clean category rows in
  if is_empty category_data then []
  else
    let county_stats := map aggregate (groupby fst category_data) in
    let ranks := rank_min_desc (map a_mean county_stats) in
    let overall_mean := mean (map (fun p => Some (snd p)) category_data) in
    map (fun ar =>
           {| cr_category := category;
              cr_county := a_key (fst ar);
              cr_mean := a_mean (fst ar);
              cr_rank := snd ar;
              cr_deviation := deviation_rate overall_mean (a_mean (fst ar));
              cr_std := a_std (fst ar);
              cr_max := a_max (fst ar);
              cr_min := a_min (fst ar);
              cr_count := a_count (fst ar) |})
        (combine county_stats ranks).

Definition calculate_county_statistics (a : CascadeAnalyzer)
    (categories : list string) : list county_row :=
  if is_empty categories then []
  else if negb (county_found a) then []
  else
    flat_map (fun category =>
                if mem category (columns a)
                then county_table category (data a)
                else [])
             categories.

(** *** Vocabulary of the properties *)

(** The cleaned values of the rows of one county. *)
Definition values_of_county (c : string) (category_data : list (option string * Q))
    : list Q :=
  map snd (filter (has_key fst c) category_data).

(** The mean of all cleaned values of the category. *)
Definition overall (category : string) (rows : list record) : Q :=
  average (map snd (clean category rows)).


(** How many lines of the table have a larger mean. *)
Definition larger_means (table : list county_row) (r : county_row) : nat :=
  length (filter (fun r' => Qgtb (cr_mean r') (cr_mean r)) table).

(** *** determine_subject_combination *)

(** A cell of the raw frame: [apply(..., axis=1)] hands the rows over as
    they are, so a cell is a number (NaN and the infinities included) or
    text, as in a column of grades. *)
Inductive raw_cell : Type :=
| Number (c : cell)
| Text (s : string).

(** The row is a [pd.Series]: column name to cell. *)
Definition srow := list (string * raw_cell).

Definition subject_mapping : list (string * list string) :=
  [ ("物", ["物理"; "物理分数"]);
    ("历", ["历史"; "历史分数"]);
    ("化", ["化学"; "化学分数"; "化学原分"; "化学等级"; "化学赋分"]);
    ("生", ["生物"; "生物分数"; "生物原分"; "生物等级"; "生物赋分"]);
    ("政", ["政治"; "政治分数"; "政治原分"; "政治等级"; "政治赋分"]);
    ("地", ["地理"; "地理分数"; "地理原分"; "地理等级"; "地理赋分"]) ].

Definition columns_of (subject_code : string) : list string :=
  match lookup subject_code subject_mapping with
  | Some cols => cols
  | None => []
  end.

(** [pd.notna(score) and score > 0] on a number. *)
Definition positive_number (c : cell) : bool :=
  match c with
  | Fin q => Qgtb q 0
  | PosInf => true
  | NegInf => false
  | Nan => false
  end.

(** [pd.notna(score) and score > 0]: text is not NaN, and comparing it
    with 0 raises TypeError. *)
Definition positive (score : raw_cell) : outcome bool :=
  match score with
  | Number c => Returned (positive_number c)
  | Text _ => Raised "TypeError"
  end.

(** The inner loop that sets [has_subject], with its [break]. *)
Fixpoint has_subject (row : srow) (columns : list string) : outcome bool :=
  match columns with
  | [] => Returned false
  | col :: rest =>
      match lookup col row with
      | None => has_subject row rest
      | Some score =>
          b <- positive score ;;
          if b then Returned true else has_subject row rest
      end
  end.

(** The loops that compute [first_score] and [second_score]: the largest
    score within 0..100 among the columns of a subject, from 0; text is
    not NaN, and [0 <= score] raises TypeError on it. *)
Fixpoint best_score (row : srow) (columns : list string) (best : Q)
    : outcome Q :=
  match columns with
  | [] => Returned best
  | col :: rest =>
      match lookup col row with
      | Some (Text _) => Raised "TypeError"
      | Some (Number (Fin score)) =>
          best_score row rest
            (if Qle_bool 0 score && Qle_bool score 100
             then Qmax best score else best)
      | _ => best_score row rest best
      end
  end.

Definition is_first_choice (subject_code : string) : bool :=
  mem subject_code ["物"; "历"].

(** One turn of the loop over [subject_mapping]; the state is
    [(first_choice, second_choices)]. *)
Definition visit (row : srow) (st : option string * list string)
    (entry : string * list string)
    : outcome (option string * list string) :=
  let (first_choice, second_choices) := st in
  let (subject_code, columns) := entry in
  found <- has_subject row columns ;;
  if found then
    if is_first_choice subject_code then
      match first_choice with
      | None => Returned (Some subject_code, second_choices)
      | Some fc =>
          first_score <- best_score row (columns_of fc) 0 ;;
          second_score <- best_score row columns 0 ;;
          if Qgtb second_score first_score
          then Returned (Some subject_code, second_choices)
          else Returned (Some fc, second_choices)
      end
    else Returned (first_choice, (second_choices ++ [subject_code])%list)
  else Returned st.

(** The loop over [subject_mapping]. *)
Fixpoint visit_all (row : srow) (entries : list (string * list string))
    (st : option string * list string)
    : outcome (option string * list string) :=
  match entries with
  | [] => Returned st
  | entry :: rest => st' <- visit row st entry ;; visit_all row rest st'
  end.

Definition all_second_subjects : list string := ["化"; "生"; "政"; "地"].

(** The padding loop, with its [break]. *)
Fixpoint pad (second_choices : list string) (candidates : list string)
    : list string :=
  match candidates with
  | [] => second_choices
  | subject_code :: rest =>
      if mem subject_code second_choices then pad second_choices rest
      else
        let second_choices := (second_choices ++ [subject_code])%list in
        if (2 <=? length second_choices)%nat then second_choices
        else pad second_choices rest
  end.

Definition standard_order (x : string) : nat :=
  match lookup x [("物", 0%nat); ("历", 1%nat); ("化", 2%nat); ("生", 3%nat);
                  ("政", 4%nat); ("地", 5%nat)] with
  | Some n => n
  | None => 99%nat
  end.

(** What follows the loop: the padding, the cut to two and the join. *)
Definition finish_combination (st : option string * list string) : string :=
  let (first_choice, second_choices) := st in
  match first_choice with
  | None => "未确定"
  | Some first_choice =>
      let second_choices :=
        if (length second_choices <? 2)%nat
        then pad second_choices all_second_subjects
        else second_choices in
      if (2 <=? length second_choices)%nat then
        let combination := first_choice :: firstn 2 second_choices in
        String.concat ""
          (sort_stable (fun y x => (standard_order y <? standard_order x)%nat)
             combination)
      else "未确定"
  end.

Definition determine_subject_combination (row : srow) : outcome string :=
  st <- visit_all row subject_mapping (None, []) ;;
  Returned (finish_combination st).

(** *** The same loops on a row of numbers

    On a row that holds no text in the columns of [subject_mapping]
    nothing can raise, and the loops are plain functions of the numbers
    of the row. *)

Definition nrow := list (string * cell).

(** The numbers of a row; text, which these columns are then free of,
    reads as NaN. *)
Definition numbers (row : srow) : nrow :=
  map (fun p => (fst p, match snd p with Number c => c | Text _ => Nan end)) row.

Definition has_score (row : nrow) (cols : list string) : bool :=
  existsb (fun col =>
             match lookup col row with
             | Some score => positive_number score
             | None => false
             end) cols.

Definition best_of (row : nrow) (cols : list string) : Q :=
  fold_left (fun best col =>
               match lookup col row with
               | Some (Fin score) =>
                   if Qle_bool 0 score && Qle_bool score 100
                   then Qmax best score else best
               | _ => best
               end) cols 0.

Definition visit_numbers (row : nrow) (st : option string * list string)
    (entry : string * list string) : option string * list string :=
  let (first_choice, second_choices) := st in
  let (subject_code, cols) := entry in
  if has_score row cols then
    if is_first_choice subject_code then
      match first_choice with
      | None => (Some subject_code, second_choices)
      | Some fc =>
          let first_score := best_of row (columns_of fc) in
          let second_score := best_of row cols in
          if Qgtb second_score first_score
          then (Some subject_code, second_choices)
          else (Some fc, second_choices)
      end
    else (first_choice, (second_choices ++ [subject_code])%list)
  else st.

Definition combination_of_numbers (row : nrow) : string :=
  finish_combination (fold_left (visit_numbers row) subject_mapping (None, [])).

(** *** Vocabulary of the properties *)

(** Every column that [subject_mapping] names. *)
Definition mapped_columns : list string := flat_map snd subject_mapping.

(** Some column of [subject_mapping] holds text in the row. *)
Definition has_text (row : srow) : bool :=
  existsb (fun col =>
             match lookup col row with
             | Some (Text _) => true
             | _ => false
             end) mapped_columns.

(** No column of the list holds text in the row. *)
Definition free_of_text (row : srow) (cols : list string) : Prop :=
  forall col s, In col cols -> lookup col row <> Some (Text s).

(** The subject has a valid score: some column of it holds a number
    above 0. *)
Definition scored (row : nrow) (subject_code : string) : bool :=
  has_score row (columns_of subject_code).

(** The first-choice subject: the one that is scored, and with both
    scored 历 only when its best score within 0..100 is the larger. *)
Definition first_choice_of (row : nrow) : option string :=
  match scored row "物", scored row "历" with
  | false, false => None
  | true, false => Some "物"
  | false, true => Some "历"
  | true, true =>
      if Qgtb (best_of row (columns_of "历")) (best_of row (columns_of "物"))
      then Some "历" else Some "物"
  end.

(** The two electives: those that are scored, then the others, each in
    the order 化, 生, 政, 地; the first two are kept. *)
Definition electives_of (row : nrow) : list string :=
  firstn 2
    (filter (scored row) all_second_subjects ++
     filter (fun s => negb (scored row s)) all_second_subjects)%list.

(** The category by the rule: the first choice, then the two electives in
    the order 化, 生, 政, 地. *)
Definition combination_by_rule (row : nrow) : string :=
  match first_choice_of row with
  | None => "未确定"
  | Some first =>
      first ++
      String.concat ""
        (filter (fun s => mem s (electives_of row)) all_second_subjects)
  end.

(** *** Example inputs *)

(** Three counties whose means are 90, 90 and 80. *)
Definition tied_counties : list record :=
  [ mkRecord (Some "甲") [("总分", Fin 90)];
    mkRecord (Some "乙") [("总分", Fin 85)];
    mkRecord (Some "乙") [("总分", Fin 95)];
    mkRecord (Some "丙") [("总分", Fin 80)] ].

(** One county of mean 4/3 and one of mean 4; the overall mean is 2. *)
Definition uneven_counties : list record :=
  [ mkRecord (Some "A") [("score", Fin 1)];
    mkRecord (Some "A") [("score", Fin 1)];
    mkRecord (Some "A") [("score", Fin 2)];
    mkRecord (Some "B") [("score", Fin 4)] ].


(** The row of the example: 物理 80, 化学 70, 生物 65, the rest null. *)
Definition physics_row : srow :=
  [ ("物理", Number (Fin 80)); ("化学", Number (Fin 70));
    ("生物", Number (Fin 65)); ("政治", Number Nan); ("地理", Number Nan) ].

(** A row where 物理 is above 100. *)
Definition outlier_row : srow :=
  [ ("物理", Number (Fin 120)); ("历史", Number (Fin 50));
    ("化学", Number (Fin 70)); ("生物", Number (Fin 65));
    ("政治", Number Nan); ("地理", Number Nan) ].

(** The row of the example with a grade beside the scores. *)
Definition graded_row : srow :=
  [ ("姓名", Text "张三"); ("物理", Number (Fin 80)); ("化学", Number Nan);
    ("化学等级", Text "A"); ("生物", Number (Fin 65)) ].

End Cascade.

(** ** GoalCompletionAnalyzer *)

Module GoalLine.
Import Stats.

Open Scope string_scope.

(** A cell of the target column: a number, a missing value, or text. *)
Inductive cell : Type :=
| Number (q : Q)
| Missing
| Text (s : string).

Inductive level : Type := County | School | Class.

(** A row: the cell of the target column and the cells of the three
    hierarchy columns (None for NaN). *)
Record row : Type := mkRow {
  target : cell;
  county : option string;
  school : option string;
  class : option string
}.

Definition level_key (l : level) (r : row) : option string :=
  match l with
  | County => county r
  | School => school r
  | Class => class r
  end.

Definition level_eqb (a b : level) : bool :=
  match a, b with
  | County, County | School, School | Class, Class => true
  | _, _ => false
  end.

(** A line score as Python holds it: an [int] or a [float]. *)
Inductive number : Type :=
| Int (z : Z)
| Float (q : Q).

Definition value (n : number) : Q :=
  match n with
  | Int z => inject_Z z
  | Float q => q
  end.

Record line_info : Type := mkLine {
  line_name : string;
  min_score : number
}.

Record GoalCompletionAnalyzer : Type := mkGoal {
  df : list row;
  score_line_config : list (string * line_info);
  hierarchy_cols : list level     (* levels found by find_hierarchy_columns *)
}.

Definition get_default_score_lines : list (string * line_info) :=
  [ ("undergraduate", mkLine "本科线" (Int 450));
    ("special_control", mkLine "特控线" (Int 520));
    ("high_score", mkLine "高分线" (Int 600)) ].

Fixpoint lookup {V : Type} (k : string) (l : list (string * V)) : option V :=
  match l with
  | [] => None
  | (k', v) :: t => if String.eqb k' k then Some v else lookup k t
  end.

(** [dropna] on the target column, then
    [pd.notnull(x) and isinstance(x, (int, float))]. *)
Definition is_number (r : row) : bool :=
  match target r with Number _ => true | _ => false end.

Definition clean (d : list row) : list row := filter is_number d.

(** [value >= target_score], elementwise. *)
Definition reaches (target_score : Q) (r : row) : bool :=
  match target r with
  | Number v => Qle_bool target_score v
  | _ => false
  end.

Definition target_col (rs : list row) : series :=
  map (fun r => match target r with Number v => Some v | _ => None end) rs.

Definition fminus (f : fval) (q : Q) : fval :=
  match f with Num x => Num (x - q) | _ => NaN end.

Definition fpercent_of (f : fval) (q : Q) : fval :=
  match f with Num x => Num (x / q * 100) | _ => NaN end.

Record basic_stats : Type := mkBasic {
  b_line_type : string;
  b_line_name : string;
  line_score : Q;
  total_students : nat;
  reached_students : nat;
  reach_rate : Q;
  avg_score : fval;
  max_score : fval;
  min_score_reached : fval;
  std_score : fval;
  score_gap_to_line : fval;
  score_gap_pct : fval
}.

Record group_stats : Type := mkGroup {
  g_total_count : nat;
  g_reached_count : nat;
  g_reach_rate : Q;
  g_avg_score : fval;
  g_max_score : fval;
  g_min_score : fval;
  g_score_gap_to_line : fval;
  g_score_gap_pct : fval
}.

Definition _calculate_group_line_stats (group : list row) (target_score : Q)
    : group_stats :=
  let total_count := length group in
  let reached_count := length (filter (reaches target_score) group) in
  let reach_rate :=
    if (0 <? total_count)%nat
    then inject_Z (Z.of_nat reached_count) / inject_Z (Z.of_nat total_count) * 100
    else 0 in
  let reached_group := filter (reaches target_score) group in
  if (0 <? length reached_group)%nat then
    let reached_avg_score := mean (target_col reached_group) in
    {| g_total_count := total_count;
       g_reached_count := reached_count;
       g_reach_rate := reach_rate;
       g_avg_score := reached_avg_score;
       g_max_score := smax (target_col reached_group);
       g_min_score := smin (target_col reached_group);
       g_score_gap_to_line := fminus reached_avg_score target_score;
       g_score_gap_pct :=
         if Qeq_bool target_score 0 then Num 0
         else fpercent_of (fminus reached_avg_score target_score) target_score |}
  else
    {| g_total_count := total_count;
       g_reached_count := reached_count;
       g_reach_rate := reach_rate;
       g_avg_score := Num 0;
       g_max_score := Num 0;
       g_min_score := Num 0;
       g_score_gap_to_line := Num (- target_score);
       g_score_gap_pct := Num (-100) |}.

Record completion : Type := mkCompletion {
  basic : basic_stats;
  hierarchy_stats : list (level * list (string * group_stats));
  completed_students_data : option (list row);
  uncompleted_students_data : option (list row)
}.

(** [frame.to_dict("records") if len(frame) <= 100 else None] *)
Definition records_if_small (frame : list row) : option (list row) :=
  if (length frame <=? 100)%nat then Some frame else None.

(** [int(x)]: truncation towards zero. *)
Definition truncate (x : Q) : Z := Z.quot (Qnum x) (Z.pos (Qden x)).

(** [_analyze_score_distribution], as far as it decides whether the
    analysis returns: the exception it raises, if any.  The bounds of the
    score intervals go to [range], which takes integers only: [start] is
    [int(scores.min())] when [target_score - 50] is below it, and
    [target_score - 50] otherwise, a [float] when the line score is one. *)
Definition _analyze_score_distribution (clean_df : list row)
    (target_score : number) : option string :=
  match smin (target_col clean_df) with
  | Num lowest =>
      match target_score with
      | Int _ => None
      | Float q =>
          if Qgtb (inject_Z (truncate lowest)) (q - 50) then None
          else Some "TypeError"
      end
  | _ => Some "ValueError"
  end.

(** [analyze_score_line_completion] with the target column given; of the
    result, the name list and the figures of the score distribution are
    left out.  A level is stored as its groups, one for each key; for a
    level of which no row holds a key, where pandas stores the dict of an
    empty frame, the list is empty. *)
Definition analyze_score_line_completion (a : GoalCompletionAnalyzer)
    (line_type : string) (analysis_levels : option (list level))
    : outcome completion :=
  match lookup line_type (score_line_config a) with
  | None => ReturnedNone
  | Some line =>
      let target_score := value (min_score line) in
      let clean_df := clean (df a) in
      let total_students := length clean_df in
      if Nat.eqb total_students 0 then ReturnedNone
      else
        let completed_students := filter (reaches target_score) clean_df in
        let completion_rate :=
          Qlen completed_students / inject_Z (Z.of_nat total_students) * 100 in
        let some := (0 <? length completed_students)%nat in
        let col := target_col completed_students in
        let basic_stats :=
          {| b_line_type := line_type;
             b_line_name := line_name line;
             line_score := target_score;
             total_students := total_students;
             reached_students := length completed_students;
             reach_rate := completion_rate;
             avg_score := if some then mean col else Num 0;
             max_score := if some then smax col else Num 0;
             min_score_reached := if some then smin col else Num 0;
             std_score := if some then std col else Num 0;
             score_gap_to_line :=
               if some then fminus (mean col) target_score else Num 0;
             score_gap_pct :=
               if some && negb (Qeq_bool target_score 0)
               then fpercent_of (fminus (mean col) target_score) target_score
               else Num 0 |} in
        let analysis_levels :=
          match analysis_levels with
          | None => [County; School]
          | Some ls => ls
          end in
        let hierarchy_stats :=
          map (fun l =>
                 (l, map (fun g =>
                            (fst g, _calculate_group_line_stats (snd g) target_score))
                         (groupby (level_key l) clean_df)))
              (filter (fun l => existsb (level_eqb l) analysis_levels)
                 (hierarchy_cols a)) in
        match _analyze_score_distribution clean_df (min_score line) with
        | Some exn => Raised exn
        | None =>
            Returned
              {| basic := basic_stats;
                 hierarchy_stats := hierarchy_stats;
                 completed_students_data := records_if_small completed_students;
                 uncompleted_students_data :=
                   records_if_small
                     (filter (fun r => negb (reaches target_score r)) clean_df) |}
        end
  end.

(** *** Example inputs *)


(** One student at 400, below the 本科线 of 450. *)
Definition below_the_line : GoalCompletionAnalyzer :=
  mkGoal [mkRow (Number 400) (Some "甲") (Some "一中") None]
    get_default_score_lines [County; School; Class].

End GoalLine.

(** ** DataProcessor *)

Module DataProcessor.
Import Stats.

Open Scope string_scope.

(** A row of a frame whose columns are numeric: column name to cell. *)
Definition row := list (string * option Q).

Fixpoint lookup {V : Type} (k : string) (l : list (string * V)) : option V :=
  match l with
  | [] => None
  | (k', v) :: t => if String.eqb k' k then Some v else lookup k t
  end.

(** [row[col_name]] *)
Definition cell_of (r : row) (col_name : string) : option Q :=
  match lookup col_name r with Some c => c | None => None end.

Definition subject_keywords : list string :=
  ["语文"; "数学"; "英语"; "物理"; "化学"; "生物"; "政治"; "历史"; "地理"].

(** [any(subject in col for col in cols)] followed by
    [next(col for col in cols if subject in col)], then [row[col_name]]
    when it is not NaN. *)
Definition score_of (numeric_subject_columns : list string) (r : row)
    (subject : string) : option Q :=
  match find (contains subject) numeric_subject_columns with
  | Some col_name => cell_of r col_name
  | None => None
  end.

(** The loop over the compulsory subjects; the state is
    [(score, valid_count)]. *)
Definition add_compulsory (cols : list string) (r : row)
    (st : Q * nat) (subject : string) : Q * nat :=
  match score_of cols r subject with
  | Some v => (fst st + v, S (snd st))
  | None => st
  end.

(** The loop over 物理 and 历史 that keeps the larger score. *)
Definition pick_first (cols : list string) (r : row)
    (first_choice : option Q) (subject : string) : option Q :=
  match score_of cols r subject with
  | Some v =>
      match first_choice with
      | None => Some v
      | Some best => if Qgtb v best then Some v else Some best
      end
  | None => first_choice
  end.

(** The loop that collects the elective scores that are present. *)
Definition collect_second (cols : list string) (r : row) : list Q :=
  valid (map (score_of cols r) ["化学"; "生物"; "政治"; "地理"]).

(** One row of the 3+1+2 mode. *)
Definition new_gaokao_total (cols : list string) (r : row) : option Q :=
  let st := fold_left (add_compulsory cols r) ["语文"; "数学"; "英语"] (0, 0%nat) in
  let first_choice := fold_left (pick_first cols r) ["物理"; "历史"] None in
  let st :=
    match first_choice with
    | Some v => (fst st + v, S (snd st))
    | None => st
    end in
  let second_choices := sort_stable Qgtb (collect_second cols r) in
  let st :=
    fold_left (fun st col_score => (fst st + col_score, S (snd st)))
      (firstn 2 second_choices) st in
  if (6 <=? snd st)%nat then Some (fst st) else None.

(** [df[cols].sum(axis=1, skipna=False)] for one row. *)
Definition flat_sum (cols : list string) (r : row) : option Q :=
  fold_left (fun acc col =>
               match acc, cell_of r col with
               | Some s, Some v => Some (s + v)
               | _, _ => None
               end) cols (Some 0).

(** *** The frame and its subject columns *)

(** A cell of a column of dtype object. *)
Inductive object_cell : Type :=
| Float (v : option Q)      (* a number, NaN or None *)
| Str (s : string).         (* text *)

(** A column as pandas holds it: of a numeric dtype, or of dtype object. *)
Inductive column_data : Type :=
| numeric_column (cells : list (option Q))
| object_column (cells : list object_cell).

(** A frame: the length of its index and its columns in order. *)
Record frame : Type := {
  n_rows : nat;
  columns : list (string * column_data)
}.

(** [df.empty]: an axis of length 0. *)
Definition empty (df : frame) : bool :=
  (n_rows df =? 0)%nat || is_empty (columns df).

Definition is_numeric_dtype (c : column_data) : bool :=
  match c with numeric_column _ => true | object_column _ => false end.

Section ToNumeric.

(** What [pd.to_numeric] reads in a text: a number, or nothing. *)
Variable parse : string -> option Q.

(** [pd.to_numeric(df[col], errors="coerce")] *)
Definition to_numeric (c : column_data) : list (option Q) :=
  match c with
  | numeric_column cells => cells
  | object_column cells =>
      map (fun x => match x with Float v => v | Str s => parse s end) cells
  end.

(** [[col for col in df.columns if any(keyword in str(col) ...)]], each
    with its data. *)
Definition subject_columns (df : frame) : list (string * column_data) :=
  filter (fun c => existsb (fun keyword => contains keyword (fst c))
                     subject_keywords) (columns df).

(** The loop that keeps the subject columns of a numeric dtype and
    those that hold a number once converted. *)
Definition numeric_subject_columns (df : frame) : list string :=
  map fst
    (filter (fun c => is_numeric_dtype (snd c)
                      || negb (forallb isna (to_numeric (snd c))))
       (subject_columns df)).

(** [df.iterrows()] after the conversion loop, on the subject columns:
    the only cells that are read. *)
Definition row_at (df : frame) (i : nat) : row :=
  map (fun c => (fst c, nth i (to_numeric (snd c)) None)) (subject_columns df).

Definition iterrows (df : frame) : list row :=
  map (row_at df) (seq 0 (n_rows df)).

(** [calculate_total_score]: the new column 新高考总分, or nothing when
    the frame is returned without it. *)
Definition calculate_total_score (df : frame) (exam_mode : string)
    : outcome (option (list (option Q))) :=
  if empty df then Raised "ValueError"
  else if is_empty (subject_columns df) then Returned None
  else
    let cols := numeric_subject_columns df in
    if is_empty cols then Returned None
    else if String.eqb exam_mode "new_gaokao" then
      Returned (Some (map (new_gaokao_total cols) (iterrows df)))
    else
      Returned (Some (map (flat_sum cols) (iterrows df))).

End ToNumeric.

(** *** Vocabulary of the properties *)





(** A score that float64 and int64 arithmetic adds as it is: a multiple
    of a quarter point between 0 and 10000. *)
Definition exact_score (v : Q) : Prop :=
  exists z : Z, (0 <= z <= 40000)%Z /\ v == inject_Z z / 4.

(** The numbers of the row in these columns are such scores. *)
Definition exact_row (cols : list string) (r : row) : Prop :=
  forall col v, In col cols -> cell_of r col = Some v -> exact_score v.

(** *** Example inputs *)

(** What [pd.to_numeric] reads in the texts of the examples: the number
    of a text of digits, nothing in a name. *)
Definition digits (s : string) : option Q :=
  match NilEmpty.uint_of_string s with
  | Some u => Some (inject_Z (Z.of_uint u))
  | None => None
  end.

(** A student with seven scores, and one with six scores of which only
    one is an elective; 地理 was read as text. *)
Definition exam_frame : frame :=
  {| n_rows := 2;
     columns :=
       [ ("姓名", object_column [Str "张三"; Str "李四"]);
         ("语文", numeric_column [Some 100; Some 100]);
         ("数学", numeric_column [Some 110; Some 110]);
         ("英语", numeric_column [Some 120; Some 120]);
         ("物理", numeric_column [Some 80; Some 80]);
         ("历史", numeric_column [None; Some 85]);
         ("化学", numeric_column [Some 70; Some 70]);
         ("生物", numeric_column [Some 60; None]);
         ("政治", object_column [Str "90"; Float None]);
         ("地理", object_column [Str "缺考"; Float None]) ] |}.


End DataProcessor.

(** ** QuadrantAnalyzer: the metric list and the advanced analysis *)

Module QuadrantMore.
Import Stats Quadrant.

Open Scope string_scope.

(** The analyzer with another metric list and analysis type. *)
Definition with_metrics (a : QuadrantAnalyzer) (ms : list metric)
    (kind : analysis_kind) : QuadrantAnalyzer :=
  mkAnalyzer (df a) kind ms (basic_subject_threshold a) (basic_total_threshold a).

Definition add_custom_metric (a : QuadrantAnalyzer) (name : string)
    (subject_threshold total_threshold : Q) : QuadrantAnalyzer :=
  with_metrics a
    (custom_metrics a ++ [mkMetric name subject_threshold total_threshold])%list
    Custom.

(** [list.pop(index)] for an index within the list. *)
Definition pop {A : Type} (index : nat) (l : list A) : list A :=
  (firstn index l ++ skipn (S index) l)%list.

(** [remove_custom_metric]: the guard [0 <= index < len(...)] keeps
    negative and too large indices out. *)
Definition remove_custom_metric (a : QuadrantAnalyzer) (index : Z)
    : QuadrantAnalyzer :=
  if ((0 <=? index)%Z && (index <? Z.of_nat (length (custom_metrics a)))%Z)%bool
  then with_metrics a (pop (Z.to_nat index) (custom_metrics a)) (analysis_type a)
  else a.

Definition clear_custom_metrics (a : QuadrantAnalyzer) : QuadrantAnalyzer :=
  with_metrics a [] (analysis_type a).

Definition set_custom_metrics (a : QuadrantAnalyzer) (metrics_list : list metric)
    : QuadrantAnalyzer :=
  with_metrics a metrics_list (if is_empty metrics_list then Basic else Custom).

Definition set_basic_thresholds (a : QuadrantAnalyzer)
    (subject_threshold total_threshold : Q) : QuadrantAnalyzer :=
  mkAnalyzer (df a) Basic (custom_metrics a) subject_threshold total_threshold.

(** The analyzer once [set_advanced_thresholds] has given it the 本科 and
    特控 lines. *)
Record AdvancedAnalyzer : Type := mkAdvanced {
  base : QuadrantAnalyzer;
  subject_undergraduate : Q;
  total_undergraduate : Q;
  subject_special_control : Q;
  total_special_control : Q
}.

Definition set_advanced_thresholds (a : QuadrantAnalyzer)
    (subject_basic total_basic subject_undergraduate total_undergraduate
     subject_special_control total_special_control : Q) : AdvancedAnalyzer :=
  mkAdvanced (mkAnalyzer (df a) Advanced (custom_metrics a) subject_basic total_basic)
    subject_undergraduate total_undergraduate
    subject_special_control total_special_control.

(** [zones_mask], [zone_labels] and [zone_colors]. *)
Definition advanced_zones (x : AdvancedAnalyzer) : list region_def :=
  let subject_above_undergraduate r := gt (subject r) (subject_undergraduate x) in
  let subject_above_special r := gt (subject r) (subject_special_control x) in
  let total_above_undergraduate r := gt (total r) (total_undergraduate x) in
  let total_above_special r := gt (total r) (total_special_control x) in
  [ mkRegion 1
      (fun r => subject_above_special r && total_above_special r)
      "单科达特控，总分达特控" "#FF1493";
    mkRegion 2
      (fun r => subject_above_special r && total_above_undergraduate r
                && negb (total_above_special r))
      "单科达特控，总分达本科" "#FF69B4";
    mkRegion 3
      (fun r => subject_above_undergraduate r && negb (subject_above_special r)
                && total_above_special r)
      "单科达本科，总分达特控" "#FFA07A";
    mkRegion 4
      (fun r => subject_above_undergraduate r && total_above_undergraduate r
                && negb (subject_above_special r) && negb (total_above_special r))
      "单科达本科，总分达本科" "#006400";
    mkRegion 5
      (fun r => negb (subject_above_undergraduate r) && total_above_special r)
      "单科不达本科，总分达特控" "#32CD32";
    mkRegion 6
      (fun r => negb (subject_above_undergraduate r) && total_above_undergraduate r
                && negb (total_above_special r))
      "单科不达本科，总分达本科" "#90EE90";
    mkRegion 7
      (fun r => negb (subject_above_undergraduate r)
                && negb (total_above_undergraduate r))
      "单科不达本科，总分不达本科" "#D3D3D3";
    mkRegion 8
      (fun r => subject_above_undergraduate r && negb (subject_above_special r)
                && negb (total_above_undergraduate r))
      "单科达本科，总分不达本科" "#87CEEB";
    mkRegion 9
      (fun r => subject_above_special r && negb (total_above_undergraduate r))
      "单科达特控，总分不达本科" "#DDA0DD" ].

Definition analyze_advanced_quadrants (x : AdvancedAnalyzer) : outcome stats_dict :=
  match analysis_type (base x) with
  | Advanced =>
      let clean_df := dropna (df (base x)) in
      Returned
        (map (fun rd =>
                (KInt (rd_id rd),
                 guarded_stats clean_df (rd_mask rd) (Some (rd_label rd))
                   (Some (rd_color rd)) None None))
             (advanced_zones x))
  | _ => analyze_basic_quadrants (base x)
  end.

(** *** Vocabulary of the properties *)

Definition sum_percentages (d : stats_dict) : Q :=
  Qsum (map (fun p => percentage (snd p)) d).

(** The keys of a classification: they depend on the metrics only, by
    their number and, for one metric, its name. *)
Definition region_keys (ms : list metric) : list key :=
  match ms with
  | [] => map KInt (seq 1 4)
  | [m] => map (fun q => KStr (name m ++ "_Q" ++ str_of_nat q)) (seq 1 4)
  | [_; _; _] => map KInt (seq 1 16)
  | _ => map (fun q => KStr ("grid_R" ++ str_of_nat q)) (seq 1 9)
  end.

(** *** Example inputs *)

(** Two students, one just above the lower lines. *)
Definition two_students : QuadrantAnalyzer :=
  mkAnalyzer [mkRow 0 (Some 72) (Some 290); mkRow 1 (Some 90) (Some 400)]
    Custom [] 0 0.

End QuadrantMore.

(** ** CascadeStatisticsAnalyzer: administrative columns and options *)

Module CascadeMore.
Import Stats Cascade.

Open Scope string_scope.

(** [admin_columns]: the columns found for 'county', 'school' and
    'class'. *)
Record admin_columns : Type := mkAdmin {
  county_column : option string;
  school_column : option string;
  class_column : option string
}.

Definition exclude_keywords : list string := ["排"; "名"; "组合"; "统计"; "分析"].

Definition is_none {A : Type} (o : option A) : bool :=
  match o with Some _ => false | None => true end.

(** The first loop: the names 区县, 学校 and 行政班 themselves. *)
Definition exact_match (columns : list string) : admin_columns :=
  {| county_column := if mem "区县" columns then Some "区县" else None;
     school_column := if mem "学校" columns then Some "学校" else None;
     class_column := if mem "行政班" columns then Some "行政班" else None |}.

(** One turn of the second loop, with its if / elif / elif. *)
Definition fuzzy_step (found : admin_columns) (col : string) : admin_columns :=
  if is_none (county_column found) && contains "区县" col then
    if negb (existsb (fun keyword => contains keyword col) exclude_keywords)
    then mkAdmin (Some col) (school_column found) (class_column found)
    else found
  else if is_none (school_column found) && contains "学校" col
          && negb (contains "行政班" col) then
    mkAdmin (county_column found) (Some col) (class_column found)
  else if is_none (class_column found) && contains "行政班" col then
    mkAdmin (county_column found) (school_column found) (Some col)
  else found.

Definition found_count (found : admin_columns) : nat :=
  ((if is_none (county_column found) then 0 else 1)
   + (if is_none (school_column found) then 0 else 1)
   + (if is_none (class_column found) then 0 else 1))%nat.

(** [_get_administrative_columns] over the column names, which
    [__init__] has stripped of blanks and line breaks (so that
    [str(col).strip()] is the name itself). *)
Definition _get_administrative_columns (columns : list string) : admin_columns :=
  let found := exact_match columns in
  if (found_count found <? 3)%nat then fold_left fuzzy_step columns found
  else found.

(** [get_county_options]: label and value of each county, sorted. *)
Definition get_county_options (a : CascadeAnalyzer) : list (string * string) :=
  if county_found a
  then map (fun c => (c, c)) (group_keys county (data a))
  else [].

(** *** Vocabulary of the properties *)

Definition has_county (p : option string * Q) : bool :=
  match fst p with Some _ => true | None => false end.

Definition sum_of_counts (table : list county_row) : nat :=
  fold_right (fun r acc => (cr_count r + acc)%nat) 0%nat table.

(** The test of the fuzzy match of the county column. *)
Definition county_like (col : string) : bool :=
  contains "区县" col
  && negb (existsb (fun keyword => contains keyword col) exclude_keywords).

(** What the second loop can put into 'school' and 'class'. *)
Definition well_found (columns : list string) (found : admin_columns) : Prop :=
  (forall c, school_column found = Some c ->
     In c columns /\ contains "学校" c = true /\
     (c = "学校" \/ contains "行政班" c = false)) /\
  (forall c, class_column found = Some c ->
     In c columns /\ contains "行政班" c = true).

End CascadeMore.

(** ** GoalCompletionAnalyzer: columns, comparison of lines, subjects *)

Module GoalLineMore.
Import Stats GoalLine.

Open Scope string_scope.

(** *** find_hierarchy_columns *)

Record hierarchy_map : Type := mkHierarchy {
  h_county : option string;
  h_school : option string;
  h_class : option string
}.

(** The third loop: 行政班 ends it, 班级 is kept only when nothing was
    kept before. *)
Fixpoint class_loop (columns : list string) (found : option string)
    : option string :=
  match columns with
  | [] => found
  | col :: rest =>
      if contains "行政班" col then Some col
      else if contains "班级" col
              && match found with None => true | Some _ => false end
      then class_loop rest (Some col)
      else class_loop rest found
  end.

(** [find_hierarchy_columns] over the column names of the frame; each
    of the first two loops stops at the first column that contains the
    word. *)
Definition find_hierarchy_columns (columns : list string) : hierarchy_map :=
  {| h_county := find (contains "区县") columns;
     h_school := find (contains "学校") columns;
     h_class := class_loop columns None |}.

(** *** compare_multiple_score_lines *)

(** The value under a key of the [basic_stats] dict. *)
Inductive field : Type :=
| FText (s : string)
| FCount (n : nat)
| FNumber (q : Q)
| FStat (f : fval)
| FOther.                     (* target_column, reached_students_list *)

(** The keys of [basic_stats], as [analyze_score_line_completion] builds
    it. *)
Definition items (stats : basic_stats) : list (string * field) :=
  [ ("line_type", FText (b_line_type stats));
    ("line_name", FText (b_line_name stats));
    ("line_score", FNumber (line_score stats));
    ("target_column", FOther);
    ("total_students", FCount (total_students stats));
    ("reached_students", FCount (reached_students stats));
    ("reach_rate", FNumber (reach_rate stats));
    ("avg_score", FStat (avg_score stats));
    ("max_score", FStat (max_score stats));
    ("min_score", FStat (min_score_reached stats));
    ("std_score", FStat (std_score stats));
    ("score_gap_to_line", FStat (score_gap_to_line stats));
    ("score_gap_pct", FStat (score_gap_pct stats));
    ("reached_students_list", FOther) ].


(** [d[k] = v] on a dict kept in insertion order. *)
Definition set_item {V : Type} (k : string) (v : V) (d : list (string * V))
    : list (string * V) :=
  if existsb (fun p => String.eqb (fst p) k) d
  then map (fun p => if String.eqb (fst p) k then (k, v) else p) d
  else (d ++ [(k, v)])%list.



Definition maximum (xs : list Q) : Q :=
  match xs with [] => 0 | x :: t => fold_left Qmax t x end.

Definition minimum (xs : list Q) : Q :=
  match xs with [] => 0 | x :: t => fold_left Qmin t x end.




(** *** analyze_subject_goal_completion *)

(** The frame by columns, each a float64 column. *)
Definition frame := list (string * series).

Record subject_result : Type := mkSubject {
  s_line_score : Q;
  s_total_students : nat;
  s_reached_students : nat;
  s_reach_rate : Q;
  s_avg_score : fval;
  s_std_score : fval
}.

Record overall_stats : Type := mkOverall {
  total_subjects : nat;
  avg_reach_rate : Q;
  o_highest_reach_rate : Q;
  o_lowest_reach_rate : Q;
  subject_ranking : list (string * subject_result)
}.

Record subject_completion : Type := mkSubjects {
  subjects : list (string * subject_result);
  overall_of : option overall_stats
}.

(** One turn of the loop over [subject_goals]. *)
Definition subject_step (df : frame)
    (subject_results : list (string * subject_result))
    (goal : string * Q) : list (string * subject_result) :=
  let (subject, target_score) := goal in
  match lookup subject df with
  | None => subject_results
  | Some column =>
      let subject_data := valid column in
      if (0 <? length subject_data)%nat then
        let reached_count :=
          length (filter (fun v => Qle_bool target_score v) subject_data) in
        set_item subject
          {| s_line_score := target_score;
             s_total_students := length subject_data;
             s_reached_students := reached_count;
             s_reach_rate :=
               inject_Z (Z.of_nat reached_count) / Qlen subject_data * 100;
             s_avg_score := mean column;
             s_std_score := std column |}
          subject_results
      else subject_results
  end.

Definition analyze_subject_goal_completion (df : frame)
    (subject_goals : list (string * Q)) : subject_completion :=
  let subject_results := fold_left (subject_step df) subject_goals [] in
  if is_empty subject_results
  then {| subjects := subject_results; overall_of := None |}
  else
    let rates := map (fun p => s_reach_rate (snd p)) subject_results in
    {| subjects := subject_results;
       overall_of :=
         Some {| total_subjects := length subject_results;
                 avg_reach_rate := average rates;
                 o_highest_reach_rate := maximum rates;
                 o_lowest_reach_rate := minimum rates;
                 subject_ranking :=
                   sort_stable
                     (fun y x => Qgtb (s_reach_rate (snd y)) (s_reach_rate (snd x)))
                     subject_results |} |}.

(** *** Vocabulary of the properties *)


Definition keyed (l : level) (r : row) : bool :=
  match level_key l r with Some _ => true | None => false end.

Definition sum_reached (groups : list (string * group_stats)) : nat :=
  fold_right (fun g acc => (g_reached_count (snd g) + acc)%nat) 0%nat groups.

Definition sum_total (groups : list (string * group_stats)) : nat :=
  fold_right (fun g acc => (g_total_count (snd g) + acc)%nat) 0%nat groups.

(** *** Example inputs *)

(** Two students and the three default lines. *)
Definition two_on_default_lines : GoalCompletionAnalyzer :=
  mkGoal [ mkRow (Number 430) (Some "甲") (Some "一中") None;
           mkRow (Number 610) (Some "甲") None None ]
    get_default_score_lines [County; School; Class].


Definition two_subjects : frame :=
  [ ("语文", [Some 90; Some 110; None]); ("数学", [Some 70; Some 130; Some 100]) ].

End GoalLineMore.

(** ** DataProcessor: outliers by the interquartile range *)

Module DataProcessorMore.
Import Stats DataProcessor.

Open Scope string_scope.

(** [df[col]] *)
Definition column (col : string) (df : list row) : series :=
  map (fun r => cell_of r col) df.

(** [Series.quantile(p)]: NaN cells are skipped, the values are put in
    ascending order and the value at position [(n - 1) * p] is taken,
    between two neighbours in proportion (linear interpolation); NaN
    when there is no value. *)
Definition quantile (p : Q) (s : series) : fval :=
  let xs := sort_stable (fun y x => Qgtb x y) (valid s) in
  match xs with
  | [] => NaN
  | _ =>
      let h := (Qlen xs - 1) * p in
      let i := Z.to_nat (Qfloor h) in
      let below := nth i xs 0 in
      let above := nth (S i) xs below in
      Num (below + (h - inject_Z (Qfloor h)) * (above - below))
  end.

(** [(df[col] >= lower_bound) & (df[col] <= upper_bound)] for one row;
    a NaN cell fails both comparisons. *)
Definition within (col : string) (lower_bound upper_bound : Q) (r : row) : bool :=
  match cell_of r col with
  | Some v => Qle_bool lower_bound v && Qle_bool v upper_bound
  | None => false
  end.

(** One turn of the loop of [_remove_outliers_iqr]; with NaN bounds no
    row passes. *)
Definition iqr_step (df : list row) (col : string) : list row :=
  match quantile (1 # 4) (column col df), quantile (3 # 4) (column col df) with
  | Num Q1, Num Q3 =>
      let IQR := Q3 - Q1 in
      let lower_bound := Q1 - (3 # 2) * IQR in
      let upper_bound := Q3 + (3 # 2) * IQR in
      filter (within col lower_bound upper_bound) df
  | _, _ => []
  end.

(** [_remove_outliers_iqr], with the numeric columns of the frame. *)
Definition _remove_outliers_iqr (numeric_cols : list string) (df : list row)
    : list row :=
  fold_left iqr_step numeric_cols df.

(** *** Outliers by z-score *)





(** *** Min-max standardization *)

(** A column of the frame: numbers under a numeric dtype, or text. *)
Inductive table_column : Type :=
| numbers (s : series)
| texts (l : list string).

(** The frame by columns. *)
Definition table := list (string * table_column).







(** *** Vocabulary of the properties *)


(** *** Example inputs *)

(** Three students; the second has no 数学 score. *)
Definition three_students : list row :=
  [ [("语文", Some 100); ("数学", Some 110)];
    [("语文", Some 100); ("数学", None)];
    [("语文", Some 100); ("数学", Some 110)] ].



End DataProcessorMore.

(** ** CascadeStatisticsAnalyzer: the categories on offer *)

Module CascadeCategories.

Open Scope string_scope.

Definition basic_names : list string :=
  ["语文"; "数学"; "英语"; "日语"; "俄语"; "法语"; "德语"; "物理"; "化学"; "生物";
   "政治"; "地理"; "历史"; "新高考总分"].

Definition exclude_patterns : list string :=
  ["排"; "等级"; "区县"; "学校"; "行政班"; "姓名"; "选科组合"; "班排"; "级排";
   "市排"; "省排"].

(** The test of the loop over the columns. *)
Definition is_category (col_str : string) : bool :=
  ((contains "分数" col_str || contains "原分" col_str || contains "赋分" col_str)
   || mem col_str basic_names)
  && negb (existsb (fun pattern => contains pattern col_str) exclude_patterns).

Definition category_order : list (string * nat) :=
  [ ("语文分数", 1); ("语文", 1); ("数学分数", 2); ("数学", 2);
    ("英语分数", 3); ("英语", 3); ("日语分数", 4); ("日语", 4);
    ("俄语分数", 5); ("俄语", 5); ("法语分数", 6); ("法语", 6);
    ("德语分数", 7); ("德语", 7); ("物理分数", 8); ("物理", 8);
    ("化学原分", 9); ("化学分数", 9); ("化学赋分", 10);
    ("生物原分", 11); ("生物分数", 11); ("生物赋分", 12);
    ("政治原分", 13); ("政治分数", 13); ("政治赋分", 14);
    ("地理原分", 15); ("地理分数", 15); ("地理赋分", 16);
    ("历史分数", 17); ("历史", 17);
    ("新高考原始总分分数", 18); ("新高考原始总分", 18);
    ("新高考语数英总分分数", 19); ("新高考语数英总分", 19);
    ("新高考3+1总分分数", 20); ("新高考3+1总分", 20);
    ("新高考总分分数", 21); ("新高考总分", 21) ]%nat.

(** [sort_key]: the order of the first key found in the name, or 999. *)
Definition sort_key (col_name : string) : nat :=
  match find (fun entry => contains (fst entry) col_name) category_order with
  | Some entry => snd entry
  | None => 999%nat
  end.

(** [_get_available_categories] over the column names. *)
Definition _get_available_categories (columns : list string) : list string :=
  sort_stable (fun y x => (sort_key y <? sort_key x)%nat)
    (filter is_category columns).

End CascadeCategories.

(** * Properties *)

(** ** The stable sort *)

Section StableSort.

Context {A : Type}.
Variable ahead : A -> A -> bool.

Lemma insert_stable_perm (x : A) (l : list A) :
  Permutation (insert_stable ahead x l) (x :: l).
Proof.
  induction l as [|y t IH]; simpl.
  - apply Permutation_refl.
  - destruct (ahead y x).
    + eapply Permutation_trans.
      * apply perm_skip, IH.
      * apply perm_swap.
    + apply Permutation_refl.
Qed.

Lemma sort_stable_perm (l : list A) : Permutation (sort_stable ahead l) l.
Proof.
  induction l as [|x t IH]; simpl.
  - apply perm_nil.
  - eapply Permutation_trans.
    + apply insert_stable_perm.
    + apply perm_skip, IH.
Qed.

Lemma sort_stable_length (l : list A) :
  length (sort_stable ahead l) = length l.
Proof. apply Permutation_length, sort_stable_perm. Qed.

Lemma sort_stable_In (x : A) (l : list A) :
  In x (sort_stable ahead l) <-> In x l.
Proof.
  split; apply Permutation_in.
  - apply sort_stable_perm.
  - apply Permutation_sym, sort_stable_perm.
Qed.

End StableSort.

(** Sorting on a rational key, largest first. *)
Section SortDescending.

Context {A : Type}.
Variable key : A -> Q.

Let ahead (y x : A) : bool := Stats.Qgtb (key y) (key x).

Lemma Qgtb_lt (x y : Q) : Stats.Qgtb x y = true <-> y < x.
Proof.
  unfold Stats.Qgtb. rewrite negb_true_iff.
  split; intro H.
  - apply Qnot_le_lt. intro L. apply Qle_bool_iff in L. congruence.
  - destruct (Qle_bool x y) eqn:E; [|reflexivity].
    apply Qle_bool_iff in E. exfalso. apply (Qlt_not_le _ _ H E).
Qed.

Lemma Qgtb_le (x y : Q) : Stats.Qgtb x y = false <-> x <= y.
Proof.
  unfold Stats.Qgtb. rewrite negb_false_iff. apply Qle_bool_iff.
Qed.

Lemma insert_desc_sorted (x : A) (l : list A) :
  StronglySorted (fun a b => key b <= key a) l ->
  StronglySorted (fun a b => key b <= key a) (insert_stable ahead x l).
Proof.
  induction l as [|y t IH]; intro S; simpl.
  - constructor; [constructor | constructor].
  - inversion S as [|? ? St Hy]; subst.
    unfold ahead at 1. destruct (Stats.Qgtb (key y) (key x)) eqn:E.
    + constructor; [apply IH, St|].
      apply Qgtb_lt in E.
      rewrite Forall_forall. intros z Hz.
      apply (Permutation_in _ (insert_stable_perm ahead x t)) in Hz.
      destruct Hz as [<-|Hz].
      * apply Qlt_le_weak, E.
      * rewrite Forall_forall in Hy. apply Hy, Hz.
    + apply Qgtb_le in E.
      constructor; [exact S|].
      constructor; [exact E|].
      rewrite Forall_forall in Hy |- *. intros z Hz.
      eapply Qle_trans; [apply Hy, Hz | exact E].
Qed.

Lemma sort_desc_sorted (l : list A) :
  StronglySorted (fun a b => key b <= key a) (sort_stable ahead l).
Proof.
  induction l as [|x t IH]; simpl.
  - constructor.
  - apply insert_desc_sorted, IH.
Qed.

End SortDescending.

(** ** Threshold classification *)

Lemma Qle_bool_false (x y : Q) : Qle_bool x y = false -> y < x.
Proof.
  intro H. apply Qnot_le_lt. intro L. apply Qle_bool_iff in L. congruence.
Qed.

Ltac q_facts :=
  repeat match goal with
  | H : Qle_bool _ _ = true |- _ => apply Qle_bool_iff in H
  | H : Qle_bool _ _ = false |- _ => apply Qle_bool_false in H
  end.

Section QuadrantProperties.
Import Stats Quadrant.

Open Scope string_scope.

Lemma dropna_In (d : list row) (r : row) :
  In r (dropna d) -> exists s t, subject r = Some s /\ total r = Some t.
Proof.
  unfold dropna. rewrite filter_In. intros [_ H].
  apply andb_true_iff in H. destruct H as [Hs Ht].
  destruct (subject r) as [s|]; [|discriminate].
  destruct (total r) as [t|]; [|discriminate].
  eauto.
Qed.

(** A family of masks, one per item of [items], of which exactly one
    holds on every row of [clean]. *)
Section Family.

Context {X : Type}.
Variables (items : list X) (mask : X -> row -> bool).
Variables (keyfn : X -> key) (mk : X -> region_stats).
Variable clean : list row.

Hypothesis mk_students : forall x, students (mk x) = filter (mask x) clean.
Hypothesis mk_count : forall x, count (mk x) = length (students (mk x)).
Hypothesis one_hit :
  forall r, In r clean ->
    exists x, filter (fun x => mask x r) items = [x].

Let d : stats_dict := map (fun x => (keyfn x, mk x)) items.

Lemma hits_count (ys : list X) (rs : list row) :
  fold_right (fun x acc => (length (filter (mask x) rs) + acc)%nat) 0%nat ys
  = fold_right (fun r acc => (length (filter (fun x => mask x r) ys) + acc)%nat)
      0%nat rs.
Proof.
  induction rs as [|r t IH]; simpl.
  - induction ys as [|y ys IHy]; simpl; [reflexivity | exact IHy].
  - rewrite <- IH. clear IH.
    induction ys as [|y ys IHy]; simpl; [reflexivity|].
    destruct (mask y r); simpl; rewrite IHy; lia.
Qed.

Lemma family_sum : sum_counts d = length clean.
Proof.
  unfold sum_counts, d.
  transitivity
    (fold_right (fun x acc => (length (filter (mask x) clean) + acc)%nat)
       0%nat items).
  - clear one_hit. induction items as [|y ys IHy]; simpl; [reflexivity|].
    rewrite IHy, mk_count, mk_students. reflexivity.
  - rewrite hits_count.
    assert (H : forall rs, incl rs clean ->
      fold_right (fun r acc =>
        (length (filter (fun x => mask x r) items) + acc)%nat) 0%nat rs
      = length rs).
    { induction rs as [|r t IH]; intro I; simpl; [reflexivity|].
      destruct (one_hit r) as [x Hx]; [apply I; left; reflexivity|].
      rewrite Hx, IH; [reflexivity|].
      intros z Hz. apply I. right. exact Hz. }
    apply H, incl_refl.
Qed.

Lemma family_partitions : partitions clean d.
Proof.
  split; [apply family_sum|]. split.
  - intros k st Hin. unfold d in Hin. apply in_map_iff in Hin.
    destruct Hin as [x [E _]]. inversion E; subst.
    split; [apply mk_count|].
    rewrite mk_students. intros z Hz. apply filter_In in Hz. apply Hz.
  - intros r Hr. destruct (one_hit r Hr) as [x Hx].
    assert (Hm : In x items /\ mask x r = true).
    { apply (proj1 (filter_In (fun x => mask x r) x items)).
      rewrite Hx. left. reflexivity. }
    exists (keyfn x). split.
    + exists (mk x). split.
      * unfold d. apply in_map_iff. exists x. split; [reflexivity | apply Hm].
      * rewrite mk_students. apply filter_In. split; [exact Hr | apply Hm].
    + intros k' [st [Hin Hst]]. unfold d in Hin. apply in_map_iff in Hin.
      destruct Hin as [y [E Hy]]. inversion E; subst.
      rewrite mk_students in Hst. apply filter_In in Hst.
      assert (Hy' : In y (filter (fun x => mask x r) items)).
      { apply filter_In. split; [exact Hy | apply Hst]. }
      rewrite Hx in Hy'. destruct Hy' as [->|[]]. reflexivity.
Qed.

End Family.

(** One mask out of a list holds when exactly one of its truth values
    is [true]. *)
Lemma one_hit_of_count {X : Type} (f : X -> bool) (l : list X) :
  length (filter (fun b : bool => b) (map f l)) = 1%nat ->
  exists x, filter f l = [x].
Proof.
  intro H.
  assert (E : length (filter f l) = length (filter (fun b : bool => b) (map f l))).
  { clear H. induction l as [|y t IH]; simpl; [reflexivity|].
    destruct (f y); simpl; rewrite IH; reflexivity. }
  rewrite <- E in H.
  destruct (filter f l) as [|x [|z u]]; simpl in H; try discriminate.
  exists x. reflexivity.
Qed.

Lemma single_one_hit (m : metric) (r : row) (s t : Q) :
  subject r = Some s -> total r = Some t ->
  exists rd, filter (fun rd => rd_mask rd r) (single_quadrants m) = [rd].
Proof.
  intros Hs Ht. apply one_hit_of_count.
  unfold single_quadrants. cbn [map rd_mask].
  unfold quadrant_mask, minus, gt, le, Qgtb. rewrite Hs, Ht. cbn [option_map].
  destruct (Qle_bool (s - subject_threshold m) 0),
           (Qle_bool (t - total_threshold m) 0); reflexivity.
Qed.

(** On one axis exactly one band holds, when the cut points are in order. *)
Lemma bands3 (c : option Q) (v low high : Q) :
  c = Some v -> low <= high ->
  (above_high c high = true /\ between c low high = false /\
   below_low c low = false) \/
  (above_high c high = false /\ between c low high = true /\
   below_low c low = false) \/
  (above_high c high = false /\ between c low high = false /\
   below_low c low = true).
Proof.
  intros -> L. unfold above_high, between, below_low, gt, le, Qgtb.
  destruct (Qle_bool v low) eqn:E1, (Qle_bool v high) eqn:E2; cbn [negb andb];
    try tauto; exfalso; q_facts; lra.
Qed.

Lemma bands4 (c : option Q) (v low mid high : Q) :
  c = Some v -> low <= mid -> mid <= high ->
  (above_high c high = true /\ between c mid high = false /\
   between c low mid = false /\ below_low c low = false) \/
  (above_high c high = false /\ between c mid high = true /\
   between c low mid = false /\ below_low c low = false) \/
  (above_high c high = false /\ between c mid high = false /\
   between c low mid = true /\ below_low c low = false) \/
  (above_high c high = false /\ between c mid high = false /\
   between c low mid = false /\ below_low c low = true).
Proof.
  intros -> L1 L2. unfold above_high, between, below_low, gt, le, Qgtb.
  destruct (Qle_bool v low) eqn:E1, (Qle_bool v mid) eqn:E2,
           (Qle_bool v high) eqn:E3; cbn [negb andb];
    try tauto; exfalso; q_facts; lra.
Qed.

Lemma dual_one_hit (lo hi : metric) (r : row) (s t : Q) :
  subject_threshold lo <= subject_threshold hi ->
  total_threshold lo <= total_threshold hi ->
  subject r = Some s -> total r = Some t ->
  exists rd, filter (fun rd => rd_mask rd r) (dual_regions lo hi) = [rd].
Proof.
  intros Ls Lt Hs Ht. apply one_hit_of_count.
  unfold dual_regions. cbn [map rd_mask].
  destruct (bands3 _ _ _ _ Hs Ls) as [(A & B & C)|[(A & B & C)|(A & B & C)]];
  destruct (bands3 _ _ _ _ Ht Lt) as [(D & E & F)|[(D & E & F)|(D & E & F)]];
    rewrite A, B, C, D, E, F; reflexivity.
Qed.

Lemma triple_one_hit (h m l : metric) (r : row) (s t : Q) :
  subject_threshold l <= subject_threshold m ->
  subject_threshold m <= subject_threshold h ->
  total_threshold l <= total_threshold m ->
  total_threshold m <= total_threshold h ->
  subject r = Some s -> total r = Some t ->
  exists rd, filter (fun rd => rd_mask rd r) (triple_regions h m l) = [rd].
Proof.
  intros L1 L2 L3 L4 Hs Ht. apply one_hit_of_count.
  unfold triple_regions. cbn [map rd_mask].
  destruct (bands4 _ _ _ _ _ Hs L1 L2)
    as [(A & B & C & D)|[(A & B & C & D)|[(A & B & C & D)|(A & B & C & D)]]];
  destruct (bands4 _ _ _ _ _ Ht L3 L4)
    as [(E & F & G & H)|[(E & F & G & H)|[(E & F & G & H)|(E & F & G & H)]]];
    rewrite A, B, C, D, E, F, G, H; reflexivity.
Qed.

(** Under [co_monotone], the order of the levels is the order of both
    thresholds. *)
Lemma level_order (x y : metric) :
  (subject_threshold x <= subject_threshold y <->
   total_threshold x <= total_threshold y) ->
  (subject_threshold y <= subject_threshold x <->
   total_threshold y <= total_threshold x) ->
  level_of y <= level_of x ->
  subject_threshold y <= subject_threshold x /\
  total_threshold y <= total_threshold x.
Proof.
  unfold level_of, Qmax. intros [A1 A2] [B1 B2] L.
  destruct (Qlt_le_dec (subject_threshold x) (subject_threshold y)) as [S|S].
  - exfalso.
    assert (T : total_threshold x < total_threshold y).
    { apply Qnot_le_lt. intro T. apply B2 in T. lra. }
    destruct (Qle_bool (subject_threshold y) (total_threshold y)) eqn:E1,
             (Qle_bool (subject_threshold x) (total_threshold x)) eqn:E2;
      q_facts; lra.
  - split; [exact S | apply B1, S].
Qed.

Lemma order_pair_ordered (m1 m2 lo hi : metric) :
  order_pair m1 m2 = (lo, hi) ->
  subject_threshold lo <= subject_threshold hi /\
  ((lo = m1 /\ hi = m2) \/ (lo = m2 /\ hi = m1)).
Proof.
  unfold order_pair.
  destruct (Qgtb (subject_threshold m1) (subject_threshold m2)) eqn:E;
    intro H; inversion H; subst.
  - apply Qgtb_lt in E. split; [lra | right; split; reflexivity].
  - apply Qgtb_le in E. split; [lra | left; split; reflexivity].
Qed.

Lemma single_partitions (a : QuadrantAnalyzer) (m : metric) (d : stats_dict) :
  analyze_single_metric_grid a m = Returned d ->
  partitions (dropna (df a)) d.
Proof.
  unfold analyze_single_metric_grid.
  destruct (is_empty (dropna (df a))); [discriminate|].
  intro H. inversion H; subst; clear H.
  apply (family_partitions (single_quadrants m) rd_mask
           (fun rd => KStr (name m ++ "_Q" ++ str_of_nat (rd_id rd)))
           (fun rd => guarded_stats (dropna (df a)) (rd_mask rd)
                        (Some (rd_label rd)) (Some (rd_color rd))
                        (Some (name m)) (Some (rd_id rd)))).
  - reflexivity.
  - reflexivity.
  - intros r Hr. destruct (dropna_In _ _ Hr) as (s & t & Hs & Ht).
    apply (single_one_hit m r s t Hs Ht).
Qed.

Lemma basic_partitions (a : QuadrantAnalyzer) (d : stats_dict) :
  analyze_basic_quadrants a = Returned d ->
  partitions (dropna (df a)) d.
Proof.
  unfold analyze_basic_quadrants. intro H. inversion H; subst; clear H.
  apply (family_partitions [1%nat; 2%nat; 3%nat; 4%nat]
           (quadrant_mask (basic_subject_threshold a) (basic_total_threshold a))
           KInt
           (fun q => guarded_stats (dropna (df a))
                       (quadrant_mask (basic_subject_threshold a)
                          (basic_total_threshold a) q)
                       None None None None)).
  - reflexivity.
  - reflexivity.
  - intros r Hr. destruct (dropna_In _ _ Hr) as (s & t & Hs & Ht).
    apply one_hit_of_count. cbn [map].
    unfold quadrant_mask, minus, gt, le, Qgtb. rewrite Hs, Ht. cbn [option_map].
    destruct (Qle_bool (s - basic_subject_threshold a) 0),
             (Qle_bool (t - basic_total_threshold a) 0); reflexivity.
Qed.

Lemma dual_partitions (a : QuadrantAnalyzer) (m1 m2 : metric) (d : stats_dict) :
  (subject_threshold m1 <= subject_threshold m2 <->
   total_threshold m1 <= total_threshold m2) ->
  (subject_threshold m2 <= subject_threshold m1 <->
   total_threshold m2 <= total_threshold m1) ->
  analyze_dual_metric_grid a m1 m2 = Returned d ->
  partitions (dropna (df a)) d.
Proof.
  intros C1 C2. unfold analyze_dual_metric_grid.
  destruct (order_pair m1 m2) as [lo hi] eqn:O.
  destruct (Nat.eqb (length (dropna (df a))) 0); [discriminate|].
  intro H. inversion H; subst; clear H.
  destruct (order_pair_ordered _ _ _ _ O) as [Ls Hw].
  assert (Lt : total_threshold lo <= total_threshold hi).
  { destruct Hw as [[-> ->]|[-> ->]]; [apply C1, Ls | apply C2, Ls]. }
  apply (family_partitions (dual_regions lo hi) rd_mask
           (fun rd => KStr ("grid_R" ++ str_of_nat (rd_id rd)))
           (raw_stats (dropna (df a)) (length (dropna (df a))))).
  - reflexivity.
  - reflexivity.
  - intros r Hr. destruct (dropna_In _ _ Hr) as (s & t & Hs & Ht).
    apply (dual_one_hit lo hi r s t Ls Lt Hs Ht).
Qed.

Lemma triple_partitions (a : QuadrantAnalyzer) (h m l : metric) (d : stats_dict) :
  subject_threshold l <= subject_threshold m ->
  subject_threshold m <= subject_threshold h ->
  total_threshold l <= total_threshold m ->
  total_threshold m <= total_threshold h ->
  analyze_triple_metric_grid a h m l = Returned d ->
  partitions (dropna (df a)) d.
Proof.
  intros L1 L2 L3 L4. unfold analyze_triple_metric_grid.
  intro H. inversion H; subst; clear H.
  apply (family_partitions (triple_regions h m l) rd_mask
           (fun rd => KInt (rd_id rd))
           (fun rd => guarded_stats (dropna (df a)) (rd_mask rd)
                        (Some (rd_label rd)) (Some (rd_color rd)) None None)).
  - reflexivity.
  - reflexivity.
  - intros r Hr. destruct (dropna_In _ _ Hr) as (s & t & Hs & Ht).
    apply (triple_one_hit h m l r s t L1 L2 L3 L4 Hs Ht).
Qed.

Lemma dual_returns (a : QuadrantAnalyzer) (m1 m2 : metric) :
  dropna (df a) <> [] -> exists d, analyze_dual_metric_grid a m1 m2 = Returned d.
Proof.
  intro N. unfold analyze_dual_metric_grid.
  destruct (order_pair m1 m2) as [lo hi].
  destruct (dropna (df a)) as [|r t]; [contradiction|].
  cbn [length Nat.eqb]. eexists. reflexivity.
Qed.

Lemma sorted_metrics_facts (ms : list metric) :
  length (sorted_metrics ms) = length ms /\
  (forall m, In m (sorted_metrics ms) -> In m ms) /\
  StronglySorted (fun x y => level_of y <= level_of x) (sorted_metrics ms).
Proof.
  unfold sorted_metrics. split; [apply sort_stable_length|]. split.
  - intros m H. apply sort_stable_In in H. exact H.
  - apply (sort_desc_sorted level_of).
Qed.

(** C1 (as amended): when the metrics are ordered the same way on both
    axes, every classification that returns a result partitions the rows
    that survive the NaN filter: the region counts add up to the number of
    those rows, each region's count is the size of its member set, the
    members are rows of the filtered table, and every filtered row is a
    member of exactly one region.  This covers no metric (the basic
    quadrants), one, two, three and more than three metrics; and a result
    is returned whenever some row survives the filter. *)
Theorem C1_partition_when_co_monotone (a : QuadrantAnalyzer) :
  co_monotone (custom_metrics a) ->
  (dropna (df a) <> [] -> exists d, analyze_custom_quadrants a = Returned d) /\
  (forall d, analyze_custom_quadrants a = Returned d ->
     partitions (dropna (df a)) d).
Proof.
  intro Co. unfold analyze_custom_quadrants.
  destruct (custom_metrics a) as [|m1 [|m2 [|m3 rest]]] eqn:Ms.
  - split.
    + intros _. eexists. reflexivity.
    + apply basic_partitions.
  - split.
    + intro N. unfold analyze_single_metric_grid.
      destruct (dropna (df a)); [contradiction|]. eexists. reflexivity.
    + apply single_partitions.
  - split.
    + apply dual_returns.
    + intro d. apply dual_partitions; apply Co; simpl; auto.
  - unfold analyze_multi_metric_quadrants. rewrite Ms. cbn [is_empty].
    destruct (sorted_metrics_facts (m1 :: m2 :: m3 :: rest)) as (Len & Inc & Srt).
    destruct (sorted_metrics (m1 :: m2 :: m3 :: rest))
      as [|x0 [|x1 [|x2 [|x3 more]]]] eqn:Sm;
      try (simpl in Len; discriminate).
    + (* three metrics: the 16-region grid *)
      assert (I0 : In x0 (m1 :: m2 :: m3 :: rest)) by (apply Inc; simpl; auto).
      assert (I1 : In x1 (m1 :: m2 :: m3 :: rest)) by (apply Inc; simpl; auto).
      assert (I2 : In x2 (m1 :: m2 :: m3 :: rest)) by (apply Inc; simpl; auto).
      inversion Srt as [|? ? Srt1 F0]; subst.
      inversion Srt1 as [|? ? Srt2 F1]; subst.
      inversion F0 as [|? ? L01 _]; subst.
      inversion F1 as [|? ? L12 _]; subst.
      destruct (level_order x0 x1 (Co _ _ I0 I1) (Co _ _ I1 I0) L01) as [S01 T01].
      destruct (level_order x1 x2 (Co _ _ I1 I2) (Co _ _ I2 I1) L12) as [S12 T12].
      split.
      * intros _. eexists. reflexivity.
      * intro d. apply triple_partitions; assumption.
    + (* more than three: the 9-region grid of the first two *)
      assert (I0 : In x0 (m1 :: m2 :: m3 :: rest)) by (apply Inc; simpl; auto).
      assert (I1 : In x1 (m1 :: m2 :: m3 :: rest)) by (apply Inc; simpl; auto).
      split.
      * apply dual_returns.
      * intro d. apply dual_partitions; apply Co; assumption.
Qed.

(** The hypothesis of C1 holds of the four preset lines, whose table of
    one student is classified into one region. *)
Lemma C1_partition_witness :
  let a := mkAnalyzer [mkRow 0 (Some 70) (Some 400)] Custom
             get_preset_metrics 0 0 in
  co_monotone (custom_metrics a) /\
  (dropna (df a) <> [] -> exists d, analyze_custom_quadrants a = Returned d) /\
  (forall d, analyze_custom_quadrants a = Returned d ->
     partitions (dropna (df a)) d).
Proof.
  intro a.
  assert (Co : co_monotone (custom_metrics a)).
  { intros m m' Hm Hm'. simpl in Hm, Hm'.
    repeat (destruct Hm as [<-|Hm]; [|]); try contradiction;
    repeat (destruct Hm' as [<-|Hm']; [|]); try contradiction;
    simpl; split; intro H; try lra. }
  split; [exact Co|]. exact (C1_partition_when_co_monotone a Co).
Defined.

(** C1 (as stated) fails: with the crossing metrics the single valid row
    is a member of two regions of the 9-region grid, grid_R3 and grid_R8,
    and the region counts add up to 2 while one row survives the filter. *)
Lemma C1_counterexample :
  exists d,
    analyze_custom_quadrants crossing_analyzer = Returned d /\
    length (dropna (df crossing_analyzer)) = 1%nat /\
    sum_counts d = 2%nat /\
    member (mkRow 0 (Some 70) (Some 400)) d (KStr "grid_R3") /\
    member (mkRow 0 (Some 70) (Some 400)) d (KStr "grid_R8") /\
    ~ partitions (dropna (df crossing_analyzer)) d.
Proof.
  eexists. split; [reflexivity|].
  split; [reflexivity|]. split; [reflexivity|].
  assert (M3 : member (mkRow 0 (Some 70) (Some 400))
                 (match analyze_custom_quadrants crossing_analyzer with
                  | Returned d => d | _ => [] end) (KStr "grid_R3")).
  { eexists. split.
    - cbn. do 2 right. left. reflexivity.
    - cbn. left. reflexivity. }
  split; [exact M3|]. split.
  - eexists. split.
    + cbn. do 7 right. left. reflexivity.
    + cbn. left. reflexivity.
  - intros [S _]. cbv in S. discriminate.
Qed.

Lemma append_inv_head (s a b : string) : s ++ a = s ++ b -> a = b.
Proof.
  induction s as [|c s IH]; simpl; intro H; [exact H|].
  injection H as H. apply IH, H.
Qed.

(** The entry of a quadrant in the one-metric result. *)
Lemma single_entry (a : QuadrantAnalyzer) (m : metric) (d : stats_dict)
    (q : nat) (st : region_stats) :
  analyze_single_metric_grid a m = Returned d ->
  (1 <= q <= 4)%nat ->
  In (KStr (name m ++ "_Q" ++ str_of_nat q), st) d ->
  students st
    = filter (quadrant_mask (subject_threshold m) (total_threshold m) q)
        (dropna (df a)) /\
  count st = length (students st).
Proof.
  unfold analyze_single_metric_grid.
  destruct (is_empty (dropna (df a))); [discriminate|].
  intro H. set (l := map _ _) in H. injection H as <-. unfold l. clear l.
  intros Hq Hin. apply in_map_iff in Hin. destruct Hin as (rd & E & Hrd).
  injection E as Ek <-. apply append_inv_head in Ek.
  unfold single_quadrants in Hrd. cbn [rd_id] in *.
  assert (Q : q = 1%nat \/ q = 2%nat \/ q = 3%nat \/ q = 4%nat) by lia.
  destruct Hrd as [<-|[<-|[<-|[<-|[]]]]];
    destruct Q as [->|[->|[->| ->]]]; cbn in Ek; try discriminate;
    split; reflexivity.
Qed.

(** Which rows a quadrant of the one-metric result holds. *)
Lemma single_member (a : QuadrantAnalyzer) (m : metric) (d : stats_dict)
    (q : nat) (r : row) :
  analyze_single_metric_grid a m = Returned d ->
  (1 <= q <= 4)%nat ->
  In r (dropna (df a)) ->
  (member r d (KStr (name m ++ "_Q" ++ str_of_nat q)) <->
   quadrant_mask (subject_threshold m) (total_threshold m) q r = true).
Proof.
  intros Hd Hq Hr. split.
  - intros (st & Hin & Hst).
    destruct (single_entry a m d q st Hd Hq Hin) as [E _].
    rewrite E in Hst. apply filter_In in Hst. apply Hst.
  - intro M.
    assert (X : exists st, In (KStr (name m ++ "_Q" ++ str_of_nat q), st) d).
    { unfold analyze_single_metric_grid in Hd.
      destruct (is_empty (dropna (df a))); [discriminate|].
      set (l := map _ _) in Hd. injection Hd as <-. unfold l. clear l.
      assert (Q : q = 1%nat \/ q = 2%nat \/ q = 3%nat \/ q = 4%nat) by lia.
      unfold single_quadrants. cbn [map rd_id].
      destruct Q as [->|[->|[->| ->]]]; eexists;
        [left | right; left | do 2 right; left | do 3 right; left]; reflexivity. }
    destruct X as [st Hin]. exists st. split; [exact Hin|].
    destruct (single_entry a m d q st Hd Hq Hin) as [E _].
    rewrite E. apply filter_In. split; assumption.
Qed.

(** The masks of the four quadrants: a threshold is reached by a score
    strictly above it. *)
Lemma quadrant_mask_strict (subject_th total_th : Q) (r : row) (s t : Q) :
  subject r = Some s -> total r = Some t ->
  (quadrant_mask subject_th total_th 1 r = true <->
   subject_th < s /\ total_th < t) /\
  (quadrant_mask subject_th total_th 2 r = true <->
   s <= subject_th /\ total_th < t) /\
  (quadrant_mask subject_th total_th 3 r = true <->
   s <= subject_th /\ t <= total_th) /\
  (quadrant_mask subject_th total_th 4 r = true <->
   subject_th < s /\ t <= total_th).
Proof.
  intros Hs Ht. unfold quadrant_mask, minus, gt, le. rewrite Hs, Ht.
  cbn [option_map].
  split; [|split; [|split]]; rewrite andb_true_iff;
    rewrite ?Qgtb_lt, ?Qle_bool_iff; split; intros [A B]; split; lra.
Qed.

(** C2: with one metric, reach is decided by strict [>] on both axes.  A
    row whose subject score equals the subject threshold and whose total
    equals the total threshold is a member of the region "双未达标" (neither
    reached), stored under "<name>_Q3", and of no other region.  And every
    row with both scores is a member of "<name>_Q1" exactly when both
    scores are strictly above their thresholds, of "<name>_Q2" exactly
    when only the total is, of "<name>_Q4" exactly when only the subject
    score is, and of "<name>_Q3" exactly when neither is. *)
Theorem C2_equal_to_threshold_is_not_reached
    (a : QuadrantAnalyzer) (m : metric) (r : row) (s t : Q) :
  custom_metrics a = [m] ->
  In r (df a) ->
  subject r = Some s -> total r = Some t ->
  s == subject_threshold m -> t == total_threshold m ->
  exists d st,
    analyze_custom_quadrants a = Returned d /\
    In (KStr (name m ++ "_Q3"), st) d /\
    label st = Some (name m ++ " - 双未达标") /\
    In r (students st) /\
    (forall k, member r d k -> k = KStr (name m ++ "_Q3")) /\
    (forall r' s' t',
       In r' (df a) -> subject r' = Some s' -> total r' = Some t' ->
       (member r' d (KStr (name m ++ "_Q1")) <->
        subject_threshold m < s' /\ total_threshold m < t') /\
       (member r' d (KStr (name m ++ "_Q2")) <->
        s' <= subject_threshold m /\ total_threshold m < t') /\
       (member r' d (KStr (name m ++ "_Q3")) <->
        s' <= subject_threshold m /\ t' <= total_threshold m) /\
       (member r' d (KStr (name m ++ "_Q4")) <->
        subject_threshold m < s' /\ t' <= total_threshold m)).
Proof.
  intros Ms Hin Hs Ht Es Et.
  assert (Hc : In r (dropna (df a))).
  { unfold dropna. apply filter_In. split; [exact Hin|].
    rewrite Hs, Ht. reflexivity. }
  assert (R : exists d, analyze_single_metric_grid a m = Returned d).
  { unfold analyze_single_metric_grid.
    destruct (dropna (df a)); [contradiction|]. eexists. reflexivity. }
  destruct R as [d Hd].
  assert (M3 : exists st, In (KStr (name m ++ "_Q3"), st) d /\
                 label st = Some (name m ++ " - 双未达标") /\
                 In r (students st)).
  { unfold analyze_single_metric_grid in Hd.
    destruct (is_empty (dropna (df a))); [discriminate|].
    inversion Hd; subst; clear Hd.
    eexists. split; [|split].
    - unfold single_quadrants. cbn [map rd_id]. do 2 right. left. reflexivity.
    - reflexivity.
    - cbn [students guarded_stats rd_mask]. apply filter_In. split; [exact Hc|].
      unfold quadrant_mask, minus, le. rewrite Hs, Ht. cbn [option_map].
      apply andb_true_iff. split; apply Qle_bool_iff; lra. }
  destruct M3 as (st & I3 & L3 & R3).
  unfold analyze_custom_quadrants. rewrite Ms.
  exists d, st. repeat (split; [assumption|]). split.
  - intros k Hk.
    destruct (single_partitions a m d Hd) as (_ & _ & U).
    destruct (U r Hc) as (k0 & _ & Uk).
    rewrite (Uk k Hk). symmetry. apply Uk. exists st. split; assumption.
  - intros r' s' t' Hin' Hs' Ht'.
    assert (Hc' : In r' (dropna (df a))).
    { unfold dropna. apply filter_In. split; [exact Hin'|].
      rewrite Hs', Ht'. reflexivity. }
    destruct (quadrant_mask_strict (subject_threshold m) (total_threshold m)
                r' s' t' Hs' Ht') as (Q1 & Q2 & Q3 & Q4).
    split; [|split; [|split]].
    + rewrite <- Q1. apply (single_member a m d 1 r' Hd); [lia | exact Hc'].
    + rewrite <- Q2. apply (single_member a m d 2 r' Hd); [lia | exact Hc'].
    + rewrite <- Q3. apply (single_member a m d 3 r' Hd); [lia | exact Hc'].
    + rewrite <- Q4. apply (single_member a m d 4 r' Hd); [lia | exact Hc'].
Qed.

Lemma C2_equal_to_threshold_witness :
  let m := mkMetric "line" 70 280 in
  let r := mkRow 0 (Some 70) (Some 280) in
  let r' := mkRow 1 (Some 75) (Some 300) in
  let a := mkAnalyzer [r; r'] Custom [m] 0 0 in
  exists d st,
    analyze_custom_quadrants a = Returned d /\
    In (KStr "line_Q3", st) d /\
    label st = Some "line - 双未达标" /\
    In r (students st) /\
    (forall k, member r d k -> k = KStr "line_Q3") /\
    member r' d (KStr "line_Q1") /\
    ~ member r' d (KStr "line_Q3").
Proof.
  intros m r r' a.
  destruct (C2_equal_to_threshold_is_not_reached a m r 70 280)
    as (d & st & H1 & H2 & H3 & H4 & H5 & H6).
  - reflexivity.
  - simpl. left. reflexivity.
  - reflexivity.
  - reflexivity.
  - simpl. reflexivity.
  - simpl. reflexivity.
  - exists d, st. repeat (split; [assumption|]).
    destruct (H6 r' 75 300) as (Q1 & _ & Q3 & _).
    + simpl. right. left. reflexivity.
    + reflexivity.
    + reflexivity.
    + split.
      * apply Q1. simpl. split; reflexivity.
      * intro M. apply Q3 in M. simpl in M. destruct M as [M _].
        revert M. apply Qlt_not_le. reflexivity.
Defined.

Lemma single_member_cells (clean : list row) (mask : row -> bool) :
  (forall r, In r clean -> exists s t, subject r = Some s /\ total r = Some t) ->
  length (filter mask clean) = 1%nat ->
  exists r s t, filter mask clean = [r] /\ subject r = Some s /\ total r = Some t.
Proof.
  intros Hc Hl.
  destruct (filter mask clean) as [|r [|z u]] eqn:E; simpl in Hl; try discriminate.
  assert (Hr : In r clean).
  { assert (H : In r (filter mask clean)) by (rewrite E; left; reflexivity).
    apply filter_In in H. apply H. }
  destruct (Hc r Hr) as (s & t & Hs & Ht).
  exists r, s, t. repeat split; assumption.
Qed.

(** C10: a region with exactly one member has a NaN [total_std] in the
    one-metric classification, where its [subject_std], which goes through
    [safe_std], is 0; in the 9-region grid both [subject_std] and
    [total_std] of such a region are NaN. *)
Theorem C10_single_row_region_std
    (a : QuadrantAnalyzer) (d : stats_dict) (k : key) (st : region_stats) :
  In (k, st) d -> count st = 1%nat ->
  (forall m, analyze_single_metric_grid a m = Returned d ->
     total_std st = NaN /\ subject_std st = Num 0) /\
  (forall m1 m2, analyze_dual_metric_grid a m1 m2 = Returned d ->
     subject_std st = NaN /\ total_std st = NaN).
Proof.
  intros Hin Hc. split.
  - intros m Hd. unfold analyze_single_metric_grid in Hd.
    destruct (is_empty (dropna (df a))); [discriminate|].
    set (l := map _ _) in Hd. injection Hd as <-. unfold l in Hin. clear l.
    apply in_map_iff in Hin. destruct Hin as (rd & E & _).
    injection E as _ <-.
    cbn [count guarded_stats] in Hc.
    destruct (single_member_cells _ (rd_mask rd) (dropna_In (df a)) Hc)
      as (r & s & t & Ef & Hs & Ht).
    cbn [total_std subject_std guarded_stats]. rewrite Ef.
    cbn [is_empty negb subject_col total_col map]. rewrite Hs, Ht.
    split; reflexivity.
  - intros m1 m2 Hd. unfold analyze_dual_metric_grid in Hd.
    destruct (order_pair m1 m2) as [lo hi].
    destruct (Nat.eqb (length (dropna (df a))) 0); [discriminate|].
    set (l := map _ _) in Hd. injection Hd as <-. unfold l in Hin. clear l.
    apply in_map_iff in Hin. destruct Hin as (rd & E & _).
    injection E as _ <-.
    cbn [count raw_stats] in Hc.
    destruct (single_member_cells _ (rd_mask rd) (dropna_In (df a)) Hc)
      as (r & s & t & Ef & Hs & Ht).
    cbn [total_std subject_std raw_stats]. rewrite Ef.
    cbn [is_empty negb subject_col total_col map]. rewrite Hs, Ht.
    split; reflexivity.
Qed.

Lemma C10_single_row_region_witness :
  (exists st, In (KStr "line_Q1", st) lone_single /\ count st = 1%nat /\
     total_std st = NaN /\ subject_std st = Num 0) /\
  (exists st, In (KStr "grid_R4", st) lone_dual /\ count st = 1%nat /\
     subject_std st = NaN /\ total_std st = NaN).
Proof.
  split.
  - eexists. split; [left; reflexivity|]. split; [reflexivity|].
    refine (proj1 (C10_single_row_region_std lone_analyzer lone_single
                     (KStr "line_Q1") _ _ _) (mkMetric "line" 70 280) _).
    + left. reflexivity.
    + reflexivity.
    + reflexivity.
  - eexists. split; [do 3 right; left; reflexivity|]. split; [reflexivity|].
    refine (proj2 (C10_single_row_region_std lone_analyzer lone_dual
                     (KStr "grid_R4") _ _ _)
              (mkMetric "low" 60 300) (mkMetric "high" 85 475) _).
    + do 3 right. left. reflexivity.
    + reflexivity.
    + reflexivity.
Defined.

(** C8 (what the code does): with the four preset lines the grid is built
    from the two highest, 特控线 and 重点线, not from the highest and the
    lowest, 特控线 and 保底线; a student at 70/400 is then below both lines
    ("双未达重点线", grid_R7), while the grid of the highest and the lowest
    line puts him between them ("双保底线水平", grid_R4). *)
Theorem C8_more_than_three_takes_two_highest :
  map name (sorted_metrics get_preset_metrics)
    = ["特控线"; "重点线"; "本科线"; "保底线"] /\
  analyze_custom_quadrants preset_analyzer
    = analyze_dual_metric_grid preset_analyzer
        (mkMetric "特控线" 85 475) (mkMetric "重点线" 80 425) /\
  (exists d st,
     analyze_custom_quadrants preset_analyzer = Returned d /\
     In (KStr "grid_R7", st) d /\
     label st = Some "双未达重点线" /\
     students st = [mkRow 0 (Some 70) (Some 400)]) /\
  (exists d st,
     analyze_dual_metric_grid preset_analyzer
       (mkMetric "特控线" 85 475) (mkMetric "保底线" 60 300) = Returned d /\
     In (KStr "grid_R4", st) d /\
     label st = Some "双保底线水平" /\
     students st = [mkRow 0 (Some 70) (Some 400)]).
Proof.
  split; [reflexivity|]. split; [reflexivity|]. split.
  - eexists. eexists. split; [reflexivity|].
    split; [do 6 right; left; reflexivity|]. split; reflexivity.
  - eexists. eexists. split; [reflexivity|].
    split; [do 3 right; left; reflexivity|]. split; reflexivity.
Qed.

(** Whatever the metrics, beyond three of them the grid is the one of the
    first two in descending order of [max(subject, total)]. *)
Lemma multi_takes_first_two (a : QuadrantAnalyzer) :
  (3 < length (custom_metrics a))%nat ->
  exists m0 m1 others,
    sorted_metrics (custom_metrics a) = m0 :: m1 :: others /\
    analyze_custom_quadrants a = analyze_dual_metric_grid a m0 m1.
Proof.
  intro L. unfold analyze_custom_quadrants, analyze_multi_metric_quadrants.
  destruct (sorted_metrics_facts (custom_metrics a)) as (Len & _ & _).
  destruct (custom_metrics a) as [|m1 [|m2 [|m3 [|m4 rest]]]] eqn:Ms;
    try (simpl in L; lia).
  cbn [is_empty].
  destruct (sorted_metrics (m1 :: m2 :: m3 :: m4 :: rest))
    as [|x0 [|x1 [|x2 [|x3 more]]]] eqn:Sm; try (simpl in Len; discriminate).
  exists x0, x1, (x2 :: x3 :: more). split; reflexivity.
Qed.

End QuadrantProperties.

(** ** Hierarchical aggregation *)

Section GroupBy.

Context {A : Type}.
Variable key : A -> option string.

Lemma present_keys_In (k : string) (rows : list A) :
  In k (present_keys key rows) <-> exists r, In r rows /\ key r = Some k.
Proof.
  induction rows as [|r t IH]; simpl.
  - split; [contradiction | intros (r & [] & _)].
  - destruct (key r) as [k'|] eqn:E; simpl; rewrite IH; split.
    + intros [->|(r' & Hr & Hk)]; [exists r; auto | exists r'; auto].
    + intros (r' & [->|Hr] & Hk); [left; congruence | right; exists r'; auto].
    + intros (r' & Hr & Hk). exists r'; auto.
    + intros (r' & [->|Hr] & Hk); [congruence | exists r'; auto].
Qed.

Lemma group_keys_In (k : string) (rows : list A) :
  In k (group_keys key rows) <-> exists r, In r rows /\ key r = Some k.
Proof.
  unfold group_keys. rewrite sort_stable_In, nodup_In. apply present_keys_In.
Qed.

Lemma has_key_true (k : string) (r : A) :
  has_key key k r = true <-> key r = Some k.
Proof.
  unfold has_key. destruct (key r) as [k'|].
  - rewrite String.eqb_eq. split; congruence.
  - split; discriminate.
Qed.

(** The groups are the keys that occur, each with the rows of that key. *)
Lemma groupby_In (k : string) (g : list A) (rows : list A) :
  In (k, g) (groupby key rows) <->
  (exists r, In r rows /\ key r = Some k) /\ g = filter (has_key key k) rows.
Proof.
  unfold groupby. rewrite in_map_iff. split.
  - intros (k' & E & Hk). inversion E; subst.
    split; [apply group_keys_In, Hk | reflexivity].
  - intros [Hk ->]. exists k. split; [reflexivity | apply group_keys_In, Hk].
Qed.

End GroupBy.

Lemma filter_length_perm {A : Type} (f : A -> bool) (l l' : list A) :
  Permutation l l' -> length (filter f l) = length (filter f l').
Proof.
  induction 1 as [|x l l' _ IH|x y l|l l' l'' _ IH1 _ IH2]; simpl.
  - reflexivity.
  - destruct (f x); simpl; rewrite IH; reflexivity.
  - destruct (f x), (f y); reflexivity.
  - rewrite IH1. exact IH2.
Qed.

Lemma filter_map_length {A B : Type} (g : A -> B) (f : B -> bool) (l : list A) :
  length (filter f (map g l)) = length (filter (fun a => f (g a)) l).
Proof.
  induction l as [|x t IH]; simpl; [reflexivity|].
  destruct (f (g x)); simpl; rewrite IH; reflexivity.
Qed.

Lemma combine_map_self {A B : Type} (g : A -> B) (l : list A) :
  combine l (map g l) = map (fun a => (a, g a)) l.
Proof.
  induction l as [|x t IH]; simpl; [reflexivity | rewrite IH; reflexivity].
Qed.

Section CascadeRank.
Import Stats Cascade.

(** In a list in descending order, the first position of a value is the
    number of values strictly greater. *)
Lemma first_position_sorted (x : Q) (l : list Q) :
  StronglySorted (fun a b => b <= a) l ->
  (exists y, In y l /\ y == x) ->
  first_position x l = length (filter (fun y => Qgtb y x) l).
Proof.
  induction l as [|y t IH]; intros S (z & Hz & Ez).
  - contradiction.
  - inversion S as [|? ? St Hy]; subst. rewrite Forall_forall in Hy.
    simpl. destruct (Qeq_bool y x) eqn:E.
    + apply Qeq_bool_iff in E.
      assert (G : Qgtb y x = false) by (apply Qgtb_le; lra).
      rewrite G.
      assert (F : filter (fun y0 => Qgtb y0 x) t = []).
      { clear IH St S Hz. induction t as [|w u IHu]; simpl; [reflexivity|].
        assert (W : Qgtb w x = false).
        { apply Qgtb_le. specialize (Hy w (or_introl eq_refl)). lra. }
        rewrite W. apply IHu. intros v Hv. apply Hy. right. exact Hv. }
      rewrite F. reflexivity.
    + apply Qeq_bool_neq in E.
      destruct Hz as [->|Hz]; [contradiction|].
      assert (G : Qgtb y x = true).
      { apply Qgtb_lt. specialize (Hy z Hz).
        destruct (Qlt_le_dec x y) as [L|L]; [exact L|].
        exfalso. apply E. lra. }
      rewrite G. simpl. f_equal. apply IH; [exact St|].
      exists z. split; assumption.
Qed.

(** [rank(ascending=False, method="min")] gives each value one more than
    the number of values strictly greater. *)
Lemma rank_min_desc_greater (values : list Q) :
  rank_min_desc values
  = map (fun x => S (length (filter (fun y => Qgtb y x) values))) values.
Proof.
  unfold rank_min_desc. apply map_ext_in. intros x Hx. f_equal.
  rewrite (first_position_sorted x (sort_stable Qgtb values)).
  - apply filter_length_perm, sort_stable_perm.
  - apply (sort_desc_sorted (fun q : Q => q)).
  - exists x. split; [apply sort_stable_In, Hx | reflexivity].
Qed.

End CascadeRank.

Section CascadeTable.
Import Stats Cascade.

Open Scope string_scope.

Lemma valid_map_Some (xs : list Q) : valid (map Some xs) = xs.
Proof.
  induction xs as [|x t IH]; simpl; [reflexivity | rewrite IH; reflexivity].
Qed.

(** The lines of the county table, one per group. *)
Lemma county_table_lines (category : string) (rows : list record) :
  clean category rows <> [] ->
  county_table category rows =
  map (fun g =>
         let ag := aggregate g in
         {| cr_category := category;
            cr_county := a_key ag;
            cr_mean := a_mean ag;
            cr_rank :=
              S (length (filter (fun y => Qgtb y (a_mean ag))
                           (map a_mean
                              (map aggregate (groupby fst (clean category rows))))));
            cr_deviation :=
              deviation_rate (Num (overall category rows)) (a_mean ag);
            cr_std := a_std ag;
            cr_max := a_max ag;
            cr_min := a_min ag;
            cr_count := a_count ag |})
      (groupby fst (clean category rows)).
Proof.
  intro N. unfold county_table, overall.
  destruct (clean category rows) as [|p cd] eqn:E; [contradiction|].
  cbn [is_empty]. rewrite rank_min_desc_greater, map_map.
  rewrite combine_map_self, map_map.
  assert (M : mean (map (fun p0 => Some (snd p0)) (p :: cd))
              = Num (average (map snd (p :: cd)))).
  { unfold mean. rewrite <- (map_map snd Some), valid_map_Some. reflexivity. }
  rewrite M. rewrite map_map. apply map_ext. intro g. cbn zeta.
  cbn [fst snd]. rewrite (map_map aggregate a_mean). reflexivity.
Qed.

Lemma county_table_empty (category : string) (rows : list record) :
  clean category rows = [] -> county_table category rows = [].
Proof. intro E. unfold county_table. rewrite E. reflexivity. Qed.

Lemma county_table_row (category : string) (rows : list record) (r : county_row) :
  In r (county_table category rows) ->
  values_of_county (cr_county r) (clean category rows) <> [] /\
  cr_mean r
    = round2 (average (values_of_county (cr_county r) (clean category rows))) /\
  cr_rank r = S (larger_means (county_table category rows) r) /\
  cr_deviation r = deviation_rate (Num (overall category rows)) (cr_mean r).
Proof.
  intro Hin.
  destruct (clean category rows) as [|p0 cd0] eqn:Ec.
  { rewrite county_table_empty in Hin by exact Ec. contradiction. }
  rewrite <- Ec in *.
  assert (N : clean category rows <> []) by (rewrite Ec; discriminate).
  unfold larger_means. rewrite (county_table_lines category rows N) in *.
  apply in_map_iff in Hin. destruct Hin as ([k g] & <- & Hg).
  apply groupby_In in Hg. destruct Hg as [(p & Hp & Hk) ->].
  cbn [cr_county cr_mean cr_rank cr_deviation aggregate a_key a_mean fst snd].
  unfold values_of_county. repeat split.
  - intro F.
    assert (Hf : In p (filter (has_key fst k) (clean category rows))).
    { apply filter_In. split; [exact Hp | apply has_key_true, Hk]. }
    destruct (filter (has_key fst k) (clean category rows)); [contradiction|].
    discriminate.
  - f_equal. rewrite filter_map_length, filter_map_length.
    rewrite filter_map_length. reflexivity.
Qed.

Lemma larger_means_ext (table : list county_row) (r r' : county_row) :
  cr_mean r == cr_mean r' -> larger_means table r = larger_means table r'.
Proof.
  intro E. unfold larger_means. f_equal. apply filter_ext. intro x.
  unfold Qgtb. f_equal. apply Qleb_comp; [reflexivity | exact E].
Qed.

Lemma larger_means_top (table : list county_row) (r : county_row) :
  (forall r', In r' table -> cr_mean r' <= cr_mean r) ->
  larger_means table r = 0%nat.
Proof.
  unfold larger_means. induction table as [|x t IH]; intro H; simpl.
  - reflexivity.
  - assert (G : Qgtb (cr_mean x) (cr_mean r) = false).
    { apply Qgtb_le. apply H. left. reflexivity. }
    rewrite G. apply IH. intros r' Hr'. apply H. right. exact Hr'.
Qed.

(** C4: in the county table the rank of a group is one more than the
    number of groups whose mean is strictly larger: the largest mean has
    rank 1, groups with equal means have the same rank, and the groups
    behind a tie skip the ranks the tie took; means 90, 90, 80 are ranked
    1, 1, 3. *)
Theorem C4_rank_is_min_rank_descending (category : string) (rows : list record) :
  (forall r, In r (county_table category rows) ->
     cr_rank r = S (larger_means (county_table category rows) r)) /\
  (forall r r', In r (county_table category rows) ->
     In r' (county_table category rows) ->
     cr_mean r == cr_mean r' -> cr_rank r = cr_rank r') /\
  (forall r, In r (county_table category rows) ->
     (forall r', In r' (county_table category rows) -> cr_mean r' <= cr_mean r) ->
     cr_rank r = 1%nat) /\
  rank_min_desc [90; 90; 80] = [1%nat; 1%nat; 3%nat].
Proof.
  assert (R : forall r, In r (county_table category rows) ->
                cr_rank r = S (larger_means (county_table category rows) r)).
  { intros r Hr. apply (county_table_row category rows r Hr). }
  split; [exact R|]. split; [|split].
  - intros r r' Hr Hr' E. rewrite (R r Hr), (R r' Hr').
    f_equal. apply larger_means_ext, E.
  - intros r Hr Top. rewrite (R r Hr). f_equal. apply larger_means_top, Top.
  - reflexivity.
Qed.

Lemma C4_rank_witness :
  map (fun r => (cr_county r, cr_rank r)) (county_table "总分" tied_counties)
    = [("丙", 3%nat); ("乙", 1%nat); ("甲", 1%nat)] /\
  forall r, In r (county_table "总分" tied_counties) ->
    cr_rank r = S (larger_means (county_table "总分" tied_counties) r).
Proof.
  split; [reflexivity|].
  exact (proj1 (C4_rank_is_min_rank_descending "总分" tied_counties)).
Defined.






End CascadeTable.

Section SubjectCombination.
Import Stats Cascade.

Open Scope string_scope.

Lemma visit_step (row : nrow) (fc : option string) (sc : list string)
    (code : string) (cols : list string) :
  visit_numbers row (fc, sc) (code, cols)
  = if has_score row cols then
      if is_first_choice code then
        match fc with
        | None => (Some code, sc)
        | Some f =>
            if Qgtb (best_of row cols) (best_of row (columns_of f))
            then (Some code, sc) else (Some f, sc)
        end
      else (fc, (sc ++ [code])%list)
    else (fc, sc).
Proof. reflexivity. Qed.

Ltac visit_next :=
  rewrite visit_step;
  cbv [is_first_choice mem existsb String.eqb Ascii.eqb Bool.eqb orb andb app];
  match goal with
  | H : has_score ?r ?c = _ |- context [has_score ?r ?c] => rewrite H
  | _ => idtac
  end.

(** What the loop over [subject_mapping] leaves in [first_choice] and
    [second_choices]. *)
Lemma fold_visit (row : nrow) :
  fold_left (visit_numbers row) subject_mapping (None, [])
  = (first_choice_of row, filter (scored row) all_second_subjects).
Proof.
  unfold first_choice_of, scored, all_second_subjects.
  unfold subject_mapping at 1. cbn [fold_left filter].
  change (columns_of "物") with ["物理"; "物理分数"].
  change (columns_of "历") with ["历史"; "历史分数"].
  change (columns_of "化")
    with ["化学"; "化学分数"; "化学原分"; "化学等级"; "化学赋分"].
  change (columns_of "生")
    with ["生物"; "生物分数"; "生物原分"; "生物等级"; "生物赋分"].
  change (columns_of "政")
    with ["政治"; "政治分数"; "政治原分"; "政治等级"; "政治赋分"].
  change (columns_of "地")
    with ["地理"; "地理分数"; "地理原分"; "地理等级"; "地理赋分"].
  destruct (has_score row ["物理"; "物理分数"]) eqn:P;
  destruct (has_score row ["历史"; "历史分数"]) eqn:H;
  destruct (has_score row ["化学"; "化学分数"; "化学原分"; "化学等级"; "化学赋分"]) eqn:C;
  destruct (has_score row ["生物"; "生物分数"; "生物原分"; "生物等级"; "生物赋分"]) eqn:B;
  destruct (has_score row ["政治"; "政治分数"; "政治原分"; "政治等级"; "政治赋分"]) eqn:Z;
  destruct (has_score row ["地理"; "地理分数"; "地理原分"; "地理等级"; "地理赋分"]) eqn:D;
    repeat visit_next;
    try reflexivity;
    change (columns_of "物") with ["物理"; "物理分数"];
    destruct (Qgtb _ _); repeat visit_next; reflexivity.
Qed.

Lemma first_choice_of_cases (row : nrow) (f : string) :
  first_choice_of row = Some f -> f = "物" \/ f = "历".
Proof.
  unfold first_choice_of.
  destruct (scored row "物"), (scored row "历"); try destruct (Qgtb _ _);
    intro H; inversion H; auto.
Qed.

(** On a row of numbers the loop computes the category of the rule. *)
Lemma combination_is_by_rule (row : nrow) :
  combination_of_numbers row = combination_by_rule row.
Proof.
  unfold combination_of_numbers, combination_by_rule, electives_of.
  rewrite fold_visit. unfold finish_combination.
  destruct (first_choice_of row) as [f|] eqn:F; [|reflexivity].
  apply first_choice_of_cases in F.
  unfold all_second_subjects. cbn [filter].
  destruct (scored row "化"), (scored row "生"), (scored row "政"),
           (scored row "地"); cbn [negb];
    destruct F as [->| ->]; reflexivity.
Qed.

(** *** Rows with text *)

Lemma lookup_numbers (col : string) (row : srow) :
  lookup col (numbers row)
  = match lookup col row with
    | Some (Number c) => Some c
    | Some (Text _) => Some Nan
    | None => None
    end.
Proof.
  unfold numbers. induction row as [|[k c] t IH]; cbn [map lookup fst snd].
  - reflexivity.
  - destruct (String.eqb k col); [destruct c; reflexivity | exact IH].
Qed.

Lemma free_of_text_cons (row : srow) (col : string) (cols : list string) :
  free_of_text row (col :: cols) ->
  (forall s, lookup col row <> Some (Text s)) /\ free_of_text row cols.
Proof.
  intro F. split.
  - intro s. apply F. left. reflexivity.
  - intros c s H. apply F. right. exact H.
Qed.

Lemma has_subject_numbers (row : srow) (cols : list string) :
  free_of_text row cols ->
  has_subject row cols = Returned (has_score (numbers row) cols).
Proof.
  unfold has_score. induction cols as [|col rest IH]; intro F.
  - reflexivity.
  - apply free_of_text_cons in F. destruct F as [F0 F].
    cbn [has_subject existsb]. rewrite lookup_numbers.
    destruct (lookup col row) as [[c|s]|].
    + cbn [positive bind]. destruct (positive_number c); cbn [orb];
        [reflexivity | apply IH, F].
    + exfalso. apply (F0 s). reflexivity.
    + cbn [orb]. apply IH, F.
Qed.

Lemma best_score_numbers (row : srow) (cols : list string) (best : Q) :
  free_of_text row cols ->
  best_score row cols best
  = Returned
      (fold_left (fun best col =>
                    match lookup col (numbers row) with
                    | Some (Fin score) =>
                        if Qle_bool 0 score && Qle_bool score 100
                        then Qmax best score else best
                    | _ => best
                    end) cols best).
Proof.
  revert best. induction cols as [|col rest IH]; intros best F.
  - reflexivity.
  - apply free_of_text_cons in F. destruct F as [F0 F].
    cbn [best_score fold_left]. rewrite lookup_numbers.
    destruct (lookup col row) as [[[q| | |]|s]|]; try (apply IH, F).
    exfalso. apply (F0 s). reflexivity.
Qed.

Lemma columns_of_mapped (code : string) : incl (columns_of code) mapped_columns.
Proof.
  unfold columns_of, mapped_columns.
  intros col H.
  assert (L : forall (m : list (string * list string)) cols,
            lookup code m = Some cols -> In col cols ->
            In col (flat_map snd m)).
  { induction m as [|[k v] t IH]; cbn [lookup flat_map snd]; [discriminate|].
    intros cols. destruct (String.eqb k code).
    - intro E. injection E as <-. intro I. apply in_or_app. left. exact I.
    - intros E I. apply in_or_app. right. apply (IH cols E I). }
  destruct (lookup code subject_mapping) as [cols|] eqn:E; [|contradiction].
  apply (L subject_mapping cols E H).
Qed.

Lemma has_text_false (row : srow) :
  has_text row = false <-> free_of_text row mapped_columns.
Proof.
  unfold has_text, free_of_text. split.
  - intros H col s I E.
    assert (T : existsb (fun col =>
                  match lookup col row with
                  | Some (Text _) => true
                  | _ => false
                  end) mapped_columns = true).
    { apply existsb_exists. exists col. split; [exact I|]. rewrite E. reflexivity. }
    congruence.
  - intro F.
    destruct (existsb _ mapped_columns) eqn:X; [|reflexivity].
    apply existsb_exists in X. destruct X as (col & I & E).
    destruct (lookup col row) as [[c|s]|] eqn:L; try discriminate.
    exfalso. apply (F col s I). exact L.
Qed.

Lemma visit_is_visit_numbers (row : srow) (st : option string * list string)
    (entry : string * list string) :
  free_of_text row mapped_columns ->
  incl (snd entry) mapped_columns ->
  visit row st entry = Returned (visit_numbers (numbers row) st entry).
Proof.
  intros F I. destruct st as [fc sc]. destruct entry as [code cols].
  cbn [snd] in I. unfold visit, visit_numbers.
  assert (Fc : free_of_text row cols).
  { intros col s H. apply F, I, H. }
  rewrite (has_subject_numbers row cols Fc). cbn [bind].
  destruct (has_score (numbers row) cols); [|reflexivity].
  destruct (is_first_choice code); [|reflexivity].
  destruct fc as [f|]; [|reflexivity].
  assert (Ff : free_of_text row (columns_of f)).
  { intros col s H. apply F. apply (columns_of_mapped f), H. }
  rewrite (best_score_numbers row (columns_of f) 0 Ff). cbn [bind].
  rewrite (best_score_numbers row cols 0 Fc). cbn [bind].
  unfold best_of. destruct (Qgtb _ _); reflexivity.
Qed.

Lemma visit_all_numbers (row : srow) (entries : list (string * list string))
    (st : option string * list string) :
  free_of_text row mapped_columns ->
  (forall entry, In entry entries -> incl (snd entry) mapped_columns) ->
  visit_all row entries st
  = Returned (fold_left (visit_numbers (numbers row)) entries st).
Proof.
  intros F. revert st. induction entries as [|e rest IH]; intros st I.
  - reflexivity.
  - cbn [visit_all fold_left].
    rewrite (visit_is_visit_numbers row st e F (I e (or_introl eq_refl))).
    cbn [bind]. apply IH. intros entry H. apply I. right. exact H.
Qed.

(** Without text in the columns of [subject_mapping] the function
    returns the category of the numbers of the row. *)
Lemma determine_of_numbers (row : srow) :
  has_text row = false ->
  determine_subject_combination row
  = Returned (combination_of_numbers (numbers row)).
Proof.
  intro H. apply has_text_false in H.
  unfold determine_subject_combination, combination_of_numbers.
  rewrite (visit_all_numbers row subject_mapping (None, []) H).
  - reflexivity.
  - intros [code cols] I col Hc. unfold mapped_columns.
    apply in_flat_map. exists (code, cols). split; [exact I | exact Hc].
Qed.

(** The only exception is the TypeError of a comparison with text. *)
Lemma has_subject_raises (row : srow) (cols : list string) (exn : string) :
  has_subject row cols = Raised exn -> exn = "TypeError".
Proof.
  induction cols as [|col rest IH]; cbn [has_subject]; [discriminate|].
  destruct (lookup col row) as [[c|s]|]; cbn [positive bind].
  - destruct (positive_number c); [discriminate | exact IH].
  - intro E. injection E as <-. reflexivity.
  - exact IH.
Qed.

Lemma best_score_raises (row : srow) (cols : list string) (best : Q)
    (exn : string) :
  best_score row cols best = Raised exn -> exn = "TypeError".
Proof.
  revert best. induction cols as [|col rest IH]; intro best;
    cbn [best_score]; [discriminate|].
  destruct (lookup col row) as [[[q| | |]|s]|]; try apply IH.
  intro E. injection E as <-. reflexivity.
Qed.

Lemma visit_raises (row : srow) (st : option string * list string)
    (entry : string * list string) (exn : string) :
  visit row st entry = Raised exn -> exn = "TypeError".
Proof.
  destruct st as [fc sc]. destruct entry as [code cols]. unfold visit.
  destruct (has_subject row cols) as [[|]| |e] eqn:Hs; cbn [bind];
    try discriminate.
  - destruct (is_first_choice code); [|discriminate].
    destruct fc as [f|]; [|discriminate].
    destruct (best_score row (columns_of f) 0) as [q1| |e1] eqn:B1; cbn [bind];
      try discriminate.
    + destruct (best_score row cols 0) as [q2| |e2] eqn:B2; cbn [bind];
        try discriminate.
      * destruct (Qgtb q2 q1); discriminate.
      * intro E. injection E as <-. apply (best_score_raises _ _ _ _ B2).
    + intro E. injection E as <-. apply (best_score_raises _ _ _ _ B1).
  - intro E. injection E as <-. apply (has_subject_raises _ _ _ Hs).
Qed.

Lemma visit_all_raises (row : srow) (entries : list (string * list string))
    (st : option string * list string) (exn : string) :
  visit_all row entries st = Raised exn -> exn = "TypeError".
Proof.
  revert st. induction entries as [|e rest IH]; intro st; cbn [visit_all];
    [discriminate|].
  destruct (visit row st e) as [st'| |e'] eqn:V; cbn [bind]; try discriminate.
  - apply IH.
  - intro E. injection E as <-. apply (visit_raises _ _ _ _ V).
Qed.

(** C6 (as amended): on a row that holds no text in the columns the
    function looks at, the category is the one of the rule
    [combination_by_rule] over the numbers of the row.  Without a scored
    first-choice subject it is "未确定".  Otherwise it is one first-choice
    subject, 物 or 历, followed by two different electives among 化, 生,
    政, 地 in that order; the first choice is the scored one, and with
    both scored it is 历 only when the best 历史 score within 0..100 is
    larger than the best 物理 score within 0..100; the electives are the
    scored ones, then the others, each in the order 化, 生, 政, 地, cut to
    two.  The example row gives "物化生".  The function raises nothing but
    TypeError, and only on a row with text in one of these columns; text
    in 物理, the first column looked at, always raises it, and so does the
    grade "A" in 化学等级 beside a missing 化学 score. *)
Theorem C6_subject_combination_rule (row : srow) :
  (has_text row = false ->
   determine_subject_combination row
     = Returned (combination_by_rule (numbers row)) /\
   (scored (numbers row) "物" = false -> scored (numbers row) "历" = false ->
    determine_subject_combination row = Returned "未确定") /\
   (scored (numbers row) "物" = true \/ scored (numbers row) "历" = true ->
    exists f e1 e2,
      determine_subject_combination row = Returned (f ++ e1 ++ e2) /\
      first_choice_of (numbers row) = Some f /\
      (f = "物" \/ f = "历") /\
      In e1 all_second_subjects /\ In e2 all_second_subjects /\
      (standard_order e1 < standard_order e2)%nat /\
      (forall s, In s [e1; e2] <-> In s (electives_of (numbers row))))) /\
  (forall exn, determine_subject_combination row = Raised exn ->
     exn = "TypeError" /\ has_text row = true) /\
  (forall s, lookup "物理" row = Some (Text s) ->
     determine_subject_combination row = Raised "TypeError") /\
  determine_subject_combination physics_row = Returned "物化生" /\
  determine_subject_combination graded_row = Raised "TypeError".
Proof.
  split; [|split; [|split; [|split; reflexivity]]].
  - intro T. rewrite (determine_of_numbers row T).
    set (nums := numbers row).
    split; [rewrite combination_is_by_rule; reflexivity|]. split.
    + intros P H. rewrite combination_is_by_rule.
      unfold combination_by_rule, first_choice_of. rewrite P, H. reflexivity.
    + intro S. rewrite combination_is_by_rule. unfold combination_by_rule.
      destruct (first_choice_of nums) as [f|] eqn:F.
      * pose proof (first_choice_of_cases nums f F) as Hf.
        unfold electives_of, all_second_subjects. cbn [filter].
        destruct (scored nums "化"), (scored nums "生"), (scored nums "政"),
                 (scored nums "地"); cbn [negb app firstn];
          exists f;
          cbv [mem existsb String.eqb Ascii.eqb Bool.eqb orb andb filter
               String.concat];
          match goal with
          | |- exists e1 e2, Returned (f ++ ?a ++ ?b) = _ /\ _ =>
              exists a, b
          end;
          (split; [reflexivity|]); (split; [reflexivity|]);
          (split; [exact Hf|]);
          (split; [simpl; tauto|]); (split; [simpl; tauto|]);
          (split; [cbv; lia|]);
          intro s; simpl; tauto.
      * exfalso. unfold first_choice_of in F.
        destruct S as [S|S]; rewrite S in F;
          [destruct (scored nums "历"); [destruct (Qgtb _ _)|]
          |destruct (scored nums "物"); [destruct (Qgtb _ _)|]]; discriminate.
  - intros exn E. split.
    + unfold determine_subject_combination in E.
      destruct (visit_all row subject_mapping (None, [])) as [st| |e] eqn:V;
        cbn [bind] in E; try discriminate.
      injection E as <-. apply (visit_all_raises _ _ _ _ V).
    + destruct (has_text row) eqn:T; [reflexivity|].
      rewrite (determine_of_numbers row T) in E. discriminate.
  - intros s L. unfold determine_subject_combination.
    unfold subject_mapping. cbn [visit_all visit has_subject].
    rewrite L. reflexivity.
Qed.

Lemma C6_subject_combination_witness :
  has_text physics_row = false /\
  scored (numbers physics_row) "物" = true /\
  exists f e1 e2,
    determine_subject_combination physics_row = Returned (f ++ e1 ++ e2) /\
    first_choice_of (numbers physics_row) = Some f /\
    (f = "物" \/ f = "历") /\
    In e1 all_second_subjects /\ In e2 all_second_subjects /\
    (standard_order e1 < standard_order e2)%nat /\
    (forall s, In s [e1; e2] <-> In s (electives_of (numbers physics_row))).
Proof.
  split; [reflexivity|]. split; [reflexivity|].
  apply (proj2 (proj2 (proj1 (C6_subject_combination_rule physics_row)
                         eq_refl))).
  left. reflexivity.
Defined.

(** C6 (as stated) fails: 物理 and 历史 both hold a valid score, 120 and
    50; the higher one is 物理, and the category is "历化生". *)
Lemma C6_counterexample :
  lookup "物理" outlier_row = Some (Number (Fin 120)) /\
  lookup "历史" outlier_row = Some (Number (Fin 50)) /\
  has_text outlier_row = false /\
  scored (numbers outlier_row) "物" = true /\
  scored (numbers outlier_row) "历" = true /\
  50 < 120 /\
  determine_subject_combination outlier_row = Returned "历化生".
Proof.
  repeat split; reflexivity.
Qed.

End SubjectCombination.

(** ** Goal lines *)

Section GoalLineProperties.
Import Stats GoalLine.

Open Scope string_scope.





Lemma group_reached_count (group : list row) (target_score : Q) :
  g_reached_count (_calculate_group_line_stats group target_score)
  = length (filter (reaches target_score) group).
Proof.
  unfold _calculate_group_line_stats.
  destruct (0 <? length (filter (reaches target_score) group))%nat; reflexivity.
Qed.


(** The statistics of the groups of one level of the result. *)
Lemma hierarchy_groups (a : GoalCompletionAnalyzer) (line_type : string)
    (levels : option (list level)) (line : line_info) (res : completion)
    (lv : level) (groups : list (string * group_stats)) :
  lookup line_type (score_line_config a) = Some line ->
  analyze_score_line_completion a line_type levels = Returned res ->
  In (lv, groups) (hierarchy_stats res) ->
  groups = map (fun g => (fst g, _calculate_group_line_stats (snd g) (value (min_score line))))
             (groupby (level_key lv) (clean (df a))).
Proof.
  intros L. unfold analyze_score_line_completion. rewrite L.
  destruct (Nat.eqb (length (clean (df a))) 0); [discriminate|].
  destruct (_analyze_score_distribution (clean (df a)) (min_score line));
    [discriminate|].
  intro H. injection H as <-. cbn [hierarchy_stats].
  intro Hin. apply in_map_iff in Hin. destruct Hin as (l & E & _).
  injection E as -> <-. reflexivity.
Qed.




(** When nobody in a group reaches the line, the group statistics are 0
    and the gap is the negated line score. *)
Lemma group_nobody_reaches (group : list row) (target_score : Q) :
  filter (reaches target_score) group = [] ->
  let gs := _calculate_group_line_stats group target_score in
  g_avg_score gs = Num 0 /\ g_max_score gs = Num 0 /\ g_min_score gs = Num 0 /\
  g_score_gap_to_line gs = Num (- target_score) /\
  g_score_gap_pct gs = Num (-100).
Proof.
  intro E. unfold _calculate_group_line_stats. rewrite E. cbn.
  repeat split; reflexivity.
Qed.

(** When nobody at all reaches the line, the overall statistics are 0,
    and so is the overall gap. *)
Lemma overall_nobody_reaches (a : GoalCompletionAnalyzer) (line_type : string)
    (levels : option (list level)) (line : line_info) (res : completion) :
  lookup line_type (score_line_config a) = Some line ->
  analyze_score_line_completion a line_type levels = Returned res ->
  filter (reaches (value (min_score line))) (clean (df a)) = [] ->
  avg_score (basic res) = Num 0 /\ max_score (basic res) = Num 0 /\
  min_score_reached (basic res) = Num 0 /\ std_score (basic res) = Num 0 /\
  score_gap_to_line (basic res) = Num 0 /\ score_gap_pct (basic res) = Num 0.
Proof.
  intros L H E. unfold analyze_score_line_completion in H. rewrite L in H.
  destruct (Nat.eqb (length (clean (df a))) 0); [discriminate|].
  destruct (_analyze_score_distribution (clean (df a)) (min_score line));
    [discriminate|].
  injection H as <-. cbn [basic avg_score max_score min_score_reached std_score
                          score_gap_to_line score_gap_pct].
  rewrite E. cbn. repeat split; reflexivity.
Qed.

(** C9 (what the code does): nobody reaches the line of 450.  Overall the
    mean, minimum and maximum are 0 and the gap to the line is 0; in the
    county group and in the school group the mean, minimum and maximum
    are 0 and the gap to the line is -450. *)
Theorem C9_gap_when_nobody_reaches :
  exists res,
    analyze_score_line_completion below_the_line "undergraduate" None
      = Returned res /\
    reached_students (basic res) = 0%nat /\
    avg_score (basic res) = Num 0 /\
    min_score_reached (basic res) = Num 0 /\
    max_score (basic res) = Num 0 /\
    score_gap_to_line (basic res) = Num 0 /\
    score_gap_to_line (basic res) <> Num (- 450) /\
    exists county_stats school_stats,
      hierarchy_stats res
        = [(County, [("甲", county_stats)]); (School, [("一中", school_stats)])] /\
      g_avg_score county_stats = Num 0 /\
      g_min_score county_stats = Num 0 /\
      g_max_score county_stats = Num 0 /\
      g_score_gap_to_line county_stats = Num (- 450) /\
      g_score_gap_to_line school_stats = Num (- 450).
Proof.
  eexists. split; [reflexivity|].
  repeat (split; [reflexivity|]).
  split; [discriminate|].
  eexists. eexists. split; [reflexivity|].
  repeat split; reflexivity.
Qed.

End GoalLineProperties.

(** ** Total-score synthesis *)

Section TotalScore.
Import Stats DataProcessor.

Open Scope string_scope.

Variables (cols : list string) (r : row).








End TotalScore.

Section TotalScoreColumn.
Import Stats DataProcessor.

Open Scope string_scope.

Variable parse : string -> option Q.





End TotalScoreColumn.

Section TotalScoreExamples.
Import Stats DataProcessor.

Open Scope string_scope.



End TotalScoreExamples.

(** ** More on the threshold classification *)

Section QuadrantMoreProperties.
Import Stats Quadrant QuadrantMore.

Open Scope string_scope.

(** Every entry of a result comes from one of the two statistics loops. *)
Lemma custom_entries (a : QuadrantAnalyzer) (d : stats_dict) :
  analyze_custom_quadrants a = Returned d ->
  forall k st, In (k, st) d ->
    (exists mask l c m n, st = guarded_stats (dropna (df a)) mask l c m n) \/
    (exists rd, st = raw_stats (dropna (df a)) (length (dropna (df a))) rd /\
                dropna (df a) <> []).
Proof.
  assert (Dual : forall m1 m2, analyze_dual_metric_grid a m1 m2 = Returned d ->
            forall k st, In (k, st) d ->
              exists rd, st = raw_stats (dropna (df a)) (length (dropna (df a))) rd /\
                         dropna (df a) <> []).
  { intros m1 m2 H k st Hin. unfold analyze_dual_metric_grid in H.
    destruct (order_pair m1 m2) as [lo hi].
    destruct (dropna (df a)) as [|r0 t0] eqn:E; [discriminate|].
    cbn [length Nat.eqb] in H.
    set (l := map _ _) in H. injection H as <-. unfold l in Hin. clear l.
    apply in_map_iff in Hin. destruct Hin as (rd & Erd & _).
    injection Erd as _ <-. exists rd. split; [reflexivity | discriminate]. }
  assert (Guard : forall (X : Type) (items : list X) (kf : X -> key)
                    (mf : X -> row -> bool) (lf cf mnf : X -> option string)
                    (nf : X -> option nat),
            d = map (fun x => (kf x, guarded_stats (dropna (df a)) (mf x)
                                       (lf x) (cf x) (mnf x) (nf x))) items ->
            forall k st, In (k, st) d ->
              exists mask l c m n, st = guarded_stats (dropna (df a)) mask l c m n).
  { intros X items kf mf lf cf mnf nf -> k st Hin.
    apply in_map_iff in Hin. destruct Hin as (x & Ex & _).
    injection Ex as _ <-. eauto 6. }
  unfold analyze_custom_quadrants.
  destruct (custom_metrics a) as [|m1 [|m2 [|m3 rest]]] eqn:Ms.
  - unfold analyze_basic_quadrants. intro H.
    set (l := map _ _) in H. injection H as <-. intros k st Hin. left.
    apply (Guard nat [1%nat; 2%nat; 3%nat; 4%nat] KInt
             (quadrant_mask (basic_subject_threshold a) (basic_total_threshold a))
             (fun _ => None) (fun _ => None) (fun _ => None) (fun _ => None)
             eq_refl k st Hin).
  - unfold analyze_single_metric_grid.
    destruct (is_empty (dropna (df a))); [discriminate|].
    intro H. set (l := map _ _) in H. injection H as <-. intros k st Hin. left.
    apply (Guard region_def (single_quadrants m1)
             (fun rd => KStr (name m1 ++ "_Q" ++ str_of_nat (rd_id rd)))
             rd_mask (fun rd => Some (rd_label rd)) (fun rd => Some (rd_color rd))
             (fun _ => Some (name m1)) (fun rd => Some (rd_id rd))
             eq_refl k st Hin).
  - intros H k st Hin. right. apply (Dual m1 m2 H k st Hin).
  - unfold analyze_multi_metric_quadrants. rewrite Ms. cbn [is_empty].
    destruct (sorted_metrics (m1 :: m2 :: m3 :: rest))
      as [|x0 [|x1 [|x2 [|x3 more]]]]; try discriminate.
    + intros H k st Hin. right. apply (Dual x0 x1 H k st Hin).
    + unfold analyze_triple_metric_grid. intro H.
      set (l := map _ _) in H. injection H as <-. intros k st Hin. left.
      apply (Guard region_def (triple_regions x0 x1 x2)
               (fun rd => KInt (rd_id rd))
               rd_mask (fun rd => Some (rd_label rd)) (fun rd => Some (rd_color rd))
               (fun _ => None) (fun _ => None) eq_refl k st Hin).
    + intros H k st Hin. right. apply (Dual x0 x1 H k st Hin).
Qed.

(** The keys of a result are those of [region_keys]. *)
Lemma custom_keys (a : QuadrantAnalyzer) (d : stats_dict) :
  analyze_custom_quadrants a = Returned d ->
  map fst d = region_keys (custom_metrics a).
Proof.
  assert (Dual : forall m1 m2, analyze_dual_metric_grid a m1 m2 = Returned d ->
            map fst d = map (fun q => KStr ("grid_R" ++ str_of_nat q)) (seq 1 9)).
  { intros m1 m2 H. unfold analyze_dual_metric_grid in H.
    destruct (order_pair m1 m2) as [lo hi].
    destruct (Nat.eqb (length (dropna (df a))) 0); [discriminate|].
    injection H as <-. reflexivity. }
  unfold analyze_custom_quadrants.
  destruct (custom_metrics a) as [|m1 [|m2 [|m3 rest]]] eqn:Ms.
  - unfold analyze_basic_quadrants. intro H. injection H as <-. reflexivity.
  - unfold analyze_single_metric_grid.
    destruct (is_empty (dropna (df a))); [discriminate|].
    intro H. injection H as <-. reflexivity.
  - apply Dual.
  - unfold analyze_multi_metric_quadrants. rewrite Ms. cbn [is_empty].
    pose proof (sort_stable_length
                  (fun y x => Qgtb (level_of y) (level_of x))
                  (m1 :: m2 :: m3 :: rest)) as Len.
    fold (sorted_metrics (m1 :: m2 :: m3 :: rest)) in Len.
    destruct (sorted_metrics (m1 :: m2 :: m3 :: rest))
      as [|x0 [|x1 [|x2 [|x3 more]]]]; try discriminate.
    + unfold analyze_triple_metric_grid. intro H. injection H as <-.
      destruct rest; [reflexivity | discriminate Len].
    + intro H. rewrite (Dual x0 x1 H).
      destruct rest; [discriminate Len | reflexivity].
Qed.

(** X1: the regions of a result are fixed by the metrics, whatever the
    rows are: 4 for no metric or one, 9 for two or for more than three,
    16 for three.  So a region without members is kept; its statistics
    are all 0, never NaN. *)
Theorem X1_empty_region_has_zero_statistics
    (a : QuadrantAnalyzer) (d : stats_dict) :
  analyze_custom_quadrants a = Returned d ->
  map fst d = region_keys (custom_metrics a) /\
  (forall k, In k (region_keys (custom_metrics a)) -> exists st, In (k, st) d) /\
  (forall k st, In (k, st) d ->
     count st = length (students st) /\
     (count st = 0%nat ->
      students st = [] /\ percentage st == 0 /\
      subject_mean st = Num 0 /\ subject_std st = Num 0 /\
      total_mean st = Num 0 /\ total_std st = Num 0)).
Proof.
  intro H. pose proof (custom_keys a d H) as K.
  split; [exact K|]. split.
  { intros k Hk. rewrite <- K in Hk. apply in_map_iff in Hk.
    destruct Hk as ([k' st] & E & Hin). cbn [fst] in E. subst k'.
    exists st. exact Hin. }
  intros k st Hin.
  destruct (custom_entries a d H k st Hin)
    as [(mask & l & c & m & n & ->)|(rd & -> & _)].
  - split; [reflexivity|]. intro C.
    cbn [count guarded_stats] in C. apply length_zero_iff_nil in C.
    cbn [students percentage subject_mean subject_std total_mean total_std
         guarded_stats]. rewrite C. cbn [is_empty negb].
    repeat split; try reflexivity.
    unfold safe_divide, Qlen. cbn [length Z.of_nat].
    destruct (Qeq_bool _ 0); [reflexivity|]. unfold Qdiv. ring.
  - split; [reflexivity|]. intro C.
    cbn [count raw_stats] in C. apply length_zero_iff_nil in C.
    cbn [students percentage subject_mean subject_std total_mean total_std
         raw_stats]. rewrite C. cbn [is_empty negb].
    repeat split; try reflexivity.
Qed.

Lemma X1_empty_region_witness :
  map fst lone_single
    = [KStr "line_Q1"; KStr "line_Q2"; KStr "line_Q3"; KStr "line_Q4"] /\
  exists st,
    In (KStr "line_Q2", st) lone_single /\ count st = 0%nat /\
    students st = [] /\ percentage st == 0 /\
    subject_mean st = Num 0 /\ subject_std st = Num 0 /\
    total_mean st = Num 0 /\ total_std st = Num 0.
Proof.
  pose proof (X1_empty_region_has_zero_statistics
                (mkAnalyzer [mkRow 0 (Some 80) (Some 400)] Custom
                   [mkMetric "line" 70 280] 0 0)
                lone_single eq_refl) as (K & P & Z).
  split; [exact K|].
  destruct (P (KStr "line_Q2")) as [st Hin]; [right; left; reflexivity|].
  exists st. split; [exact Hin|].
  assert (C : count st = 0%nat).
  { destruct Hin as [E|[E|[E|[E|[]]]]]; try discriminate E.
    injection E as <-. reflexivity. }
  split; [exact C|]. apply (proj2 (Z _ st Hin) C).
Defined.

(** Under [co_monotone] every returned classification is a partition. *)
Lemma custom_partitions (a : QuadrantAnalyzer) (d : stats_dict) :
  co_monotone (custom_metrics a) ->
  analyze_custom_quadrants a = Returned d ->
  partitions (dropna (df a)) d.
Proof.
  intro Co. unfold analyze_custom_quadrants.
  destruct (custom_metrics a) as [|m1 [|m2 [|m3 rest]]] eqn:Ms.
  - apply basic_partitions.
  - apply single_partitions.
  - apply dual_partitions; apply Co; simpl; auto.
  - unfold analyze_multi_metric_quadrants. rewrite Ms. cbn [is_empty].
    destruct (sorted_metrics_facts (m1 :: m2 :: m3 :: rest)) as (Len & Inc & Srt).
    destruct (sorted_metrics (m1 :: m2 :: m3 :: rest))
      as [|x0 [|x1 [|x2 [|x3 more]]]] eqn:Sm;
      try (simpl in Len; discriminate).
    + assert (I0 : In x0 (m1 :: m2 :: m3 :: rest)) by (apply Inc; simpl; auto).
      assert (I1 : In x1 (m1 :: m2 :: m3 :: rest)) by (apply Inc; simpl; auto).
      assert (I2 : In x2 (m1 :: m2 :: m3 :: rest)) by (apply Inc; simpl; auto).
      inversion Srt as [|? ? Srt1 F0]; subst.
      inversion Srt1 as [|? ? Srt2 F1]; subst.
      inversion F0 as [|? ? L01 _]; subst.
      inversion F1 as [|? ? L12 _]; subst.
      destruct (level_order x0 x1 (Co _ _ I0 I1) (Co _ _ I1 I0) L01) as [S01 T01].
      destruct (level_order x1 x2 (Co _ _ I1 I2) (Co _ _ I2 I1) L12) as [S12 T12].
      apply triple_partitions; assumption.
    + assert (I0 : In x0 (m1 :: m2 :: m3 :: rest)) by (apply Inc; simpl; auto).
      assert (I1 : In x1 (m1 :: m2 :: m3 :: rest)) by (apply Inc; simpl; auto).
      apply dual_partitions; apply Co; assumption.
Qed.

Lemma Qlen_nonzero {A : Type} (l : list A) : l <> [] -> ~ Qlen l == 0.
Proof.
  destruct l as [|x t]; [contradiction|]. intros _.
  unfold Qlen. cbn [length]. rewrite Nat2Z.inj_succ.
  unfold Qeq. simpl. lia.
Qed.

(** The percentage of an entry, when some row survives the filter. *)
Lemma entry_percentage (a : QuadrantAnalyzer) (d : stats_dict) (k : key)
    (st : region_stats) :
  analyze_custom_quadrants a = Returned d -> In (k, st) d ->
  dropna (df a) <> [] ->
  percentage st == inject_Z (Z.of_nat (count st)) / Qlen (dropna (df a)) * 100.
Proof.
  intros H Hin N.
  destruct (custom_entries a d H k st Hin)
    as [(mask & l & c & m & n & ->)|(rd & -> & _)].
  - cbn [percentage count guarded_stats]. unfold safe_divide.
    destruct (Qeq_bool (Qlen (dropna (df a))) 0) eqn:E.
    + apply Qeq_bool_iff in E. exfalso. apply (Qlen_nonzero _ N E).
    + reflexivity.
  - reflexivity.
Qed.

Lemma sum_percentages_formula (d : stats_dict) (n : Q) :
  (forall k st, In (k, st) d ->
     percentage st == inject_Z (Z.of_nat (count st)) / n * 100) ->
  sum_percentages d == inject_Z (Z.of_nat (sum_counts d)) / n * 100.
Proof.
  unfold sum_percentages, sum_counts.
  induction d as [|[k st] t IH]; intro H; simpl.
  - unfold Qdiv. ring.
  - rewrite (H k st (or_introl eq_refl)), IH.
    + rewrite Nat2Z.inj_add, inject_Z_plus. unfold Qdiv. ring.
    + intros k' st' Hin. apply (H k' st'). right. exact Hin.
Qed.

(** X2: when the metrics are ordered the same way on both axes and some
    row survives the NaN filter, the percentages of the regions of a
    result add up to 100, within the rounding of float64 (a millionth
    of a point is far more than sixteen rounded quotients can be off),
    and the counts add up to the number of rows that survive. *)
Theorem X2_percentages_add_up_to_100 (a : QuadrantAnalyzer) (d : stats_dict) :
  co_monotone (custom_metrics a) ->
  dropna (df a) <> [] ->
  analyze_custom_quadrants a = Returned d ->
  Qabs (sum_percentages d - 100) <= 1 # 1000000 /\
  sum_counts d = length (dropna (df a)).
Proof.
  intros Co N H.
  assert (E : sum_percentages d == 100).
  { rewrite (sum_percentages_formula d (Qlen (dropna (df a)))).
    - destruct (custom_partitions a d Co H) as (S & _). rewrite S.
      fold (Qlen (dropna (df a))). field. apply Qlen_nonzero, N.
    - intros k st Hin. apply (entry_percentage a d k st H Hin N). }
  split.
  - rewrite E. setoid_replace (100 - 100) with 0 by ring. discriminate.
  - apply (custom_partitions a d Co H).
Qed.

Lemma X2_percentages_witness :
  exists d,
    analyze_custom_quadrants preset_analyzer = Returned d /\
    Qabs (sum_percentages d - 100) <= 1 # 1000000 /\
    sum_counts d = 1%nat.
Proof.
  eexists. split; [reflexivity|].
  apply (X2_percentages_add_up_to_100 preset_analyzer).
  - intros m m' Hm Hm'. simpl in Hm, Hm'.
    repeat (destruct Hm as [<-|Hm]; [|]); try contradiction;
    repeat (destruct Hm' as [<-|Hm']; [|]); try contradiction;
    simpl; split; intro H; try lra.
  - discriminate.
  - reflexivity.
Defined.

Lemma filter_length_le {A : Type} (f g : A -> bool) (l : list A) :
  (forall x, In x l -> f x = true -> g x = true) ->
  (length (filter f l) <= length (filter g l))%nat /\
  incl (filter f l) (filter g l).
Proof.
  intro H. split.
  - induction l as [|x t IH]; simpl; [lia|].
    assert (IH' := IH (fun y Hy => H y (or_intror Hy))).
    destruct (f x) eqn:F.
    + rewrite (H x (or_introl eq_refl) F). simpl. lia.
    + destruct (g x); simpl; lia.
  - intros x Hx. apply filter_In in Hx. destruct Hx as [Hx Fx].
    apply filter_In. split; [exact Hx | apply H; assumption].
Qed.

(** X3: raising the lines of the one-metric classification can only
    shrink the region that reaches both lines, and only grow the region
    that reaches neither. *)
Theorem X3_higher_lines_fewer_reach
    (a : QuadrantAnalyzer) (m m' : metric) (d d' : stats_dict)
    (both both' neither neither' : region_stats) :
  subject_threshold m <= subject_threshold m' ->
  total_threshold m <= total_threshold m' ->
  analyze_single_metric_grid a m = Returned d ->
  analyze_single_metric_grid a m' = Returned d' ->
  In (KStr (name m ++ "_Q1"), both) d ->
  In (KStr (name m' ++ "_Q1"), both') d' ->
  In (KStr (name m ++ "_Q3"), neither) d ->
  In (KStr (name m' ++ "_Q3"), neither') d' ->
  (count both' <= count both)%nat /\ incl (students both') (students both) /\
  (count neither <= count neither')%nat /\
  incl (students neither) (students neither').
Proof.
  intros Ls Lt H H' B B' N N'.
  destruct (single_entry a m d 1 both H ltac:(lia) B) as [Sb Cb].
  destruct (single_entry a m' d' 1 both' H' ltac:(lia) B') as [Sb' Cb'].
  destruct (single_entry a m d 3 neither H ltac:(lia) N) as [Sn Cn].
  destruct (single_entry a m' d' 3 neither' H' ltac:(lia) N') as [Sn' Cn'].
  rewrite Cb, Cb', Cn, Cn', Sb, Sb', Sn, Sn'.
  assert (Up : forall r, In r (dropna (df a)) ->
             quadrant_mask (subject_threshold m') (total_threshold m') 1 r = true ->
             quadrant_mask (subject_threshold m) (total_threshold m) 1 r = true).
  { intros r Hr. destruct (dropna_In _ _ Hr) as (s & t & Hs & Ht).
    unfold quadrant_mask, minus, gt, Qgtb. rewrite Hs, Ht. cbn [option_map].
    rewrite !andb_true_iff, !negb_true_iff. intros [A1 A2].
    apply Qle_bool_false in A1, A2.
    split; (destruct (Qle_bool _ 0) eqn:E; [|reflexivity]);
      apply Qle_bool_iff in E; lra. }
  assert (Down : forall r, In r (dropna (df a)) ->
             quadrant_mask (subject_threshold m) (total_threshold m) 3 r = true ->
             quadrant_mask (subject_threshold m') (total_threshold m') 3 r = true).
  { intros r Hr. destruct (dropna_In _ _ Hr) as (s & t & Hs & Ht).
    unfold quadrant_mask, minus, le. rewrite Hs, Ht. cbn [option_map].
    rewrite !andb_true_iff, !Qle_bool_iff. intros [A1 A2]. split; lra. }
  destruct (filter_length_le _ _ _ Up) as [U1 U2].
  destruct (filter_length_le _ _ _ Down) as [D1 D2].
  repeat split; assumption.
Qed.

Lemma X3_higher_lines_witness :
  exists both both' neither neither',
    (count both' <= count both)%nat /\ incl (students both') (students both) /\
    (count neither <= count neither')%nat /\
    incl (students neither) (students neither').
Proof.
  do 4 eexists.
  apply (X3_higher_lines_fewer_reach two_students
           (mkMetric "low" 70 280) (mkMetric "high" 80 300) _ _ _ _ _ _
           ltac:(simpl; lra) ltac:(simpl; lra) eq_refl eq_refl);
    [left | left | do 2 right; left | do 2 right; left]; reflexivity.
Defined.

(** X4: the 9-region grid does not depend on the order in which its two
    metrics are given, as long as their subject thresholds differ. *)
Theorem X4_dual_grid_ignores_metric_order
    (a : QuadrantAnalyzer) (m1 m2 : metric) :
  ~ subject_threshold m1 == subject_threshold m2 ->
  analyze_dual_metric_grid a m1 m2 = analyze_dual_metric_grid a m2 m1.
Proof.
  intro N. unfold analyze_dual_metric_grid.
  assert (E : order_pair m1 m2 = order_pair m2 m1).
  { unfold order_pair.
    destruct (Qgtb (subject_threshold m1) (subject_threshold m2)) eqn:E1,
             (Qgtb (subject_threshold m2) (subject_threshold m1)) eqn:E2;
      try reflexivity; exfalso.
    - apply Qgtb_lt in E1, E2. lra.
    - apply Qgtb_le in E1, E2. apply N. lra. }
  rewrite E. reflexivity.
Qed.

Lemma X4_dual_grid_witness :
  analyze_dual_metric_grid two_students (mkMetric "low" 70 280) (mkMetric "high" 80 300)
  = analyze_dual_metric_grid two_students (mkMetric "high" 80 300) (mkMetric "low" 70 280).
Proof.
  apply X4_dual_grid_ignores_metric_order. simpl. intro H. discriminate.
Defined.

Lemma advanced_one_hit (x : AdvancedAnalyzer) (r : row) (s t : Q) :
  subject_undergraduate x <= subject_special_control x ->
  total_undergraduate x <= total_special_control x ->
  subject r = Some s -> total r = Some t ->
  exists rd, filter (fun rd => rd_mask rd r) (advanced_zones x) = [rd].
Proof.
  intros Ls Lt Hs Ht. apply one_hit_of_count.
  unfold advanced_zones. cbn [map rd_mask].
  unfold gt, Qgtb. rewrite Hs, Ht.
  destruct (Qle_bool s (subject_undergraduate x)) eqn:E1,
           (Qle_bool s (subject_special_control x)) eqn:E2,
           (Qle_bool t (total_undergraduate x)) eqn:E3,
           (Qle_bool t (total_special_control x)) eqn:E4;
    cbn [negb andb]; try reflexivity; exfalso; q_facts; lra.
Qed.

(** X5: when the 特控 lines are not below the 本科 lines, the advanced
    analysis partitions the rows that survive the NaN filter: the counts of
    its zones add up to the number of those rows and every such row is in
    exactly one zone. *)
Theorem X5_advanced_zones_partition (x : AdvancedAnalyzer) (d : stats_dict) :
  subject_undergraduate x <= subject_special_control x ->
  total_undergraduate x <= total_special_control x ->
  analyze_advanced_quadrants x = Returned d ->
  partitions (dropna (df (base x))) d.
Proof.
  intros Ls Lt. unfold analyze_advanced_quadrants.
  destruct (analysis_type (base x)); try apply basic_partitions.
  intro H. set (l := map _ _) in H. injection H as <-. unfold l. clear l.
  apply (family_partitions (advanced_zones x) rd_mask
           (fun rd => KInt (rd_id rd))
           (fun rd => guarded_stats (dropna (df (base x))) (rd_mask rd)
                        (Some (rd_label rd)) (Some (rd_color rd)) None None)).
  - reflexivity.
  - reflexivity.
  - intros r Hr. destruct (dropna_In _ _ Hr) as (s & t & Hs & Ht).
    apply (advanced_one_hit x r s t Ls Lt Hs Ht).
Qed.

Lemma X5_advanced_zones_witness :
  exists d,
    analyze_advanced_quadrants
      (set_advanced_thresholds two_students 60 300 75 375 85 475) = Returned d /\
    partitions (dropna (df two_students)) d.
Proof.
  eexists. split; [reflexivity|].
  apply (X5_advanced_zones_partition
           (set_advanced_thresholds two_students 60 300 75 375 85 475)).
  - simpl. lra.
  - simpl. lra.
  - reflexivity.
Defined.

Lemma pop_length {A : Type} (i : nat) (l : list A) :
  (i < length l)%nat -> length (pop i l) = (length l - 1)%nat.
Proof.
  intro H. unfold pop. rewrite length_app, length_firstn, length_skipn. lia.
Qed.

Lemma pop_nth {A : Type} (i j : nat) (l : list A) :
  (i < length l)%nat ->
  nth_error (pop i l) j
  = if (j <? i)%nat then nth_error l j else nth_error l (S j).
Proof.
  intro H. unfold pop. destruct (j <? i)%nat eqn:E.
  - apply Nat.ltb_lt in E.
    rewrite nth_error_app1 by (rewrite length_firstn; lia).
    rewrite nth_error_firstn. apply Nat.ltb_lt in E. rewrite E. reflexivity.
  - apply Nat.ltb_ge in E.
    rewrite nth_error_app2 by (rewrite length_firstn; lia).
    rewrite length_firstn, nth_error_skipn. f_equal. lia.
Qed.

(** X6: [remove_custom_metric] leaves the analyzer as it is for a
    negative index and for an index past the end; for an index within the
    list it removes exactly the metric at that index, the others keeping
    their order; removing at the old length undoes [add_custom_metric]. *)
Theorem X6_remove_custom_metric (a : QuadrantAnalyzer) (index : Z) :
  ((index < 0)%Z \/ (Z.of_nat (length (custom_metrics a)) <= index)%Z ->
   remove_custom_metric a index = a) /\
  ((0 <= index < Z.of_nat (length (custom_metrics a)))%Z ->
   length (custom_metrics (remove_custom_metric a index))
     = (length (custom_metrics a) - 1)%nat /\
   forall j,
     nth_error (custom_metrics (remove_custom_metric a index)) j
     = if (j <? Z.to_nat index)%nat then nth_error (custom_metrics a) j
       else nth_error (custom_metrics a) (S j)) /\
  (forall name s t,
     custom_metrics
       (remove_custom_metric (add_custom_metric a name s t)
          (Z.of_nat (length (custom_metrics a))))
     = custom_metrics a).
Proof.
  split; [|split].
  - intro H. unfold remove_custom_metric.
    destruct (0 <=? index)%Z eqn:E1; [|reflexivity].
    destruct (index <? Z.of_nat (length (custom_metrics a)))%Z eqn:E2;
      [|reflexivity].
    apply Z.leb_le in E1. apply Z.ltb_lt in E2. lia.
  - intros [H1 H2]. unfold remove_custom_metric.
    apply Z.leb_le in H1 as E1. apply Z.ltb_lt in H2 as E2. rewrite E1, E2.
    cbn [andb custom_metrics with_metrics].
    split; [apply pop_length | intro j; apply pop_nth]; lia.
  - intros name s t. unfold remove_custom_metric, add_custom_metric.
    cbn [custom_metrics with_metrics]. rewrite length_app. cbn [length].
    assert (E1 : (0 <=? Z.of_nat (length (custom_metrics a)))%Z = true)
      by (apply Z.leb_le; lia).
    assert (E2 : (Z.of_nat (length (custom_metrics a))
                  <? Z.of_nat (length (custom_metrics a) + 1))%Z = true)
      by (apply Z.ltb_lt; lia).
    rewrite E1, E2. cbn [andb custom_metrics with_metrics].
    rewrite Nat2Z.id. unfold pop.
    rewrite firstn_app, Nat.sub_diag, firstn_all. cbn [firstn].
    rewrite app_nil_r, skipn_app, skipn_all2 by lia.
    replace (S (length (custom_metrics a)) - length (custom_metrics a))%nat
      with 1%nat by lia.
    cbn [skipn]. rewrite app_nil_r. reflexivity.
Qed.

Lemma X6_remove_custom_metric_witness :
  remove_custom_metric preset_analyzer (-1) = preset_analyzer /\
  map name (custom_metrics (remove_custom_metric preset_analyzer 1))
    = ["保底线"; "重点线"; "特控线"] /\
  length (custom_metrics (remove_custom_metric preset_analyzer 1)) = 3%nat.
Proof.
  split; [|split].
  - apply (proj1 (X6_remove_custom_metric preset_analyzer (-1))). left. lia.
  - reflexivity.
  - apply (proj1 (proj2 (X6_remove_custom_metric preset_analyzer 1))).
    simpl. lia.
Defined.

End QuadrantMoreProperties.

Section CascadeMoreProperties.
Import Stats Cascade CascadeMore.

Open Scope string_scope.

Lemma clean_In_record (category : string) (rows : list record)
    (p : option string * Q) :
  In p (clean category rows) ->
  exists r, In r rows /\ county r = fst p /\ cell_of category r = Fin (snd p).
Proof.
  induction rows as [|r t IH]; simpl; [contradiction|].
  destruct (cell_of category r) as [q| | |] eqn:E.
  - intros [<-|H].
    + exists r. simpl. auto.
    + destruct (IH H) as (r' & Hr & Hk). exists r'. auto.
  - intro H. destruct (IH H) as (r' & Hr & Hk). exists r'. auto.
  - intro H. destruct (IH H) as (r' & Hr & Hk). exists r'. auto.
  - intro H. destruct (IH H) as (r' & Hr & Hk). exists r'. auto.
Qed.

Lemma group_keys_NoDup {A : Type} (key : A -> option string) (rows : list A) :
  NoDup (group_keys key rows).
Proof.
  unfold group_keys.
  apply (Permutation_NoDup (Permutation_sym (sort_stable_perm _ _))).
  apply NoDup_nodup.
Qed.

Lemma filter_eqb_NoDup (k : string) (l : list string) :
  NoDup l -> In k l -> length (filter (fun k' => String.eqb k k') l) = 1%nat.
Proof.
  induction 1 as [|x t Hx Ht IH]; [contradiction|].
  intros [->|Hin]; simpl.
  - rewrite String.eqb_refl. simpl. f_equal.
    assert (F : filter (fun k' => String.eqb k k') t = []).
    { clear IH Ht. induction t as [|y u IHu]; simpl; [reflexivity|].
      destruct (String.eqb_spec k y) as [->|N].
      - exfalso. apply Hx. left. reflexivity.
      - apply IHu. intro H. apply Hx. right. exact H. }
    rewrite F. reflexivity.
  - destruct (String.eqb_spec k x) as [->|N]; [contradiction|]. apply IH, Hin.
Qed.

Lemma filter_has_key_none {A : Type} (key : A -> option string) (r : A)
    (keys : list string) :
  key r = None -> filter (fun k => has_key key k r) keys = [].
Proof.
  intro K. induction keys as [|k ks IHk]; simpl; [reflexivity|].
  unfold has_key at 1. rewrite K. exact IHk.
Qed.

Lemma group_sizes_by_row {A : Type} (key : A -> option string)
    (keys : list string) (rs : list A) :
  fold_right (fun g acc => (length (snd g) + acc)%nat) 0%nat
    (map (fun k => (k, filter (has_key key k) rs)) keys)
  = fold_right (fun r acc =>
      (length (filter (fun k => has_key key k r) keys) + acc)%nat) 0%nat rs.
Proof.
  induction rs as [|r t IH]; simpl.
  - induction keys as [|k ks IHk]; simpl; [reflexivity | exact IHk].
  - rewrite <- IH. clear IH.
    induction keys as [|k ks IHk]; simpl; [reflexivity|].
    destruct (has_key key k r); simpl; rewrite IHk; lia.
Qed.

(** With keys that do not repeat and hold every key of the rows, each
    row that has a key falls under one key. *)
Lemma rows_by_key {A : Type} (key : A -> option string) (keys : list string)
    (rs : list A) :
  NoDup keys ->
  (forall r k, In r rs -> key r = Some k -> In k keys) ->
  fold_right (fun r acc =>
      (length (filter (fun k => has_key key k r) keys) + acc)%nat) 0%nat rs
  = length (filter (fun r => match key r with Some _ => true | None => false end)
              rs).
Proof.
  intros N. induction rs as [|r t IH]; intro I; simpl; [reflexivity|].
  rewrite IH by (intros z k Hz; apply I; right; exact Hz).
  destruct (key r) as [k0|] eqn:K.
  - assert (E : filter (fun k => has_key key k r) keys
                = filter (fun k' => String.eqb k0 k') keys).
    { apply filter_ext. intro k. unfold has_key. rewrite K. reflexivity. }
    rewrite E, filter_eqb_NoDup; [reflexivity | exact N |].
    apply (I r k0); [left; reflexivity | exact K].
  - rewrite (filter_has_key_none key r _ K). reflexivity.
Qed.

(** Counting the rows of every group counts every row that has a key. *)
Lemma groupby_sizes {A : Type} (key : A -> option string) (rows : list A) :
  fold_right (fun g acc => (length (snd g) + acc)%nat) 0%nat (groupby key rows)
  = length (filter (fun r => match key r with Some _ => true | None => false end)
              rows).
Proof.
  unfold groupby. rewrite group_sizes_by_row.
  apply rows_by_key; [apply group_keys_NoDup|].
  intros r k Hr K. apply group_keys_In. exists r. auto.
Qed.

(** X7: in the county table every county has one line, with at least one
    sample; the sample counts add up to the number of rows that hold a
    finite value of the category and a county. *)
Theorem X7_county_samples (category : string) (rows : list record) :
  NoDup (map cr_county (county_table category rows)) /\
  (forall r, In r (county_table category rows) -> (1 <= cr_count r)%nat) /\
  sum_of_counts (county_table category rows)
    = length (filter has_county (clean category rows)).
Proof.
  destruct (clean category rows) as [|p0 cd0] eqn:Ec.
  { rewrite (county_table_empty category rows Ec). simpl.
    repeat split; [constructor | contradiction]. }
  assert (N : clean category rows <> []) by (rewrite Ec; discriminate).
  rewrite <- Ec. rewrite (county_table_lines category rows N).
  split; [|split].
  - rewrite map_map. cbn [cr_county aggregate a_key].
    unfold groupby. rewrite map_map. cbn [fst]. rewrite map_id.
    apply group_keys_NoDup.
  - intros r Hin. apply in_map_iff in Hin. destruct Hin as ([k g] & <- & Hg).
    apply groupby_In in Hg. destruct Hg as [(p & Hp & Hk) ->].
    cbn [cr_count aggregate a_count snd]. rewrite length_map.
    assert (Hf : In p (filter (has_key fst k) (clean category rows))).
    { apply filter_In. split; [exact Hp | apply has_key_true, Hk]. }
    destruct (filter (has_key fst k) (clean category rows)); [contradiction|].
    simpl. lia.
  - etransitivity; [|exact (groupby_sizes fst (clean category rows))].
    unfold sum_of_counts.
    generalize (map a_mean (map aggregate (groupby fst (clean category rows)))).
    intro means.
    induction (groupby fst (clean category rows)) as [|g gs IH];
      [reflexivity|].
    cbn [map fold_right]. rewrite IH.
    cbn [cr_count aggregate a_count]. rewrite length_map. reflexivity.
Qed.

Lemma X7_county_samples_witness :
  sum_of_counts (county_table "总分" tied_counties)
  = length (filter has_county (clean "总分" tied_counties)).
Proof.
  exact (proj2 (proj2 (X7_county_samples "总分" tied_counties))).
Defined.

Lemma Qgtb_irrefl (x : Q) : Qgtb x x = false.
Proof. apply Qgtb_le. apply Qle_refl. Qed.

Lemma filter_length_lt {A : Type} (f g : A -> bool) (l : list A) (x : A) :
  (forall y, f y = true -> g y = true) ->
  In x l -> f x = false -> g x = true ->
  (length (filter f l) < length (filter g l))%nat.
Proof.
  intros I Hin Fx Gx. induction l as [|y t IH]; [contradiction|].
  assert (L : forall u : list A,
            (length (filter f u) <= length (filter g u))%nat).
  { induction u as [|z u IHu]; simpl; [lia|].
    destruct (f z) eqn:Fz.
    - rewrite (I z Fz). simpl. lia.
    - destruct (g z); simpl; lia. }
  destruct Hin as [->|Hin]; simpl.
  - rewrite Fx, Gx. simpl. specialize (L t). lia.
  - specialize (IH Hin). destruct (f y) eqn:Fy.
    + rewrite (I y Fy). simpl. lia.
    + destruct (g y); simpl; lia.
Qed.

Lemma filter_length_same {A : Type} (f g : A -> bool) (l : list A) :
  (forall y, f y = g y) -> length (filter f l) = length (filter g l).
Proof. intro E. rewrite (filter_ext f g E). reflexivity. Qed.

(** A list that is not empty has a line of largest mean. *)
Lemma largest_mean (table : list county_row) :
  table <> [] ->
  exists r, In r table /\ forall r', In r' table -> cr_mean r' <= cr_mean r.
Proof.
  induction table as [|x t IH]; [congruence|]. intros _.
  destruct t as [|y u].
  - exists x. split; [left; reflexivity|].
    intros r' [<-|[]]. apply Qle_refl.
  - destruct IH as (m & Hm & Mx); [discriminate|].
    destruct (Qlt_le_dec (cr_mean m) (cr_mean x)) as [L|L].
    + exists x. split; [left; reflexivity|].
      intros r' [<-|Hr']; [apply Qle_refl|].
      specialize (Mx r' Hr'). lra.
    + exists m. split; [right; exact Hm|].
      intros r' [<-|Hr']; [exact L | apply Mx, Hr'].
Qed.

(** X8: the ranks of the county table run from 1 to the number of
    counties, some county has rank 1, a county with a larger mean has a
    strictly smaller rank, and counties with equal means share a rank. *)
Theorem X8_rank_follows_the_means (category : string) (rows : list record) :
  let table := county_table category rows in
  (forall r, In r table -> (1 <= cr_rank r <= length table)%nat) /\
  (table <> [] -> exists r, In r table /\ cr_rank r = 1%nat) /\
  (forall r1 r2, In r1 table -> In r2 table ->
     cr_mean r2 < cr_mean r1 -> (cr_rank r1 < cr_rank r2)%nat) /\
  (forall r1 r2, In r1 table -> In r2 table ->
     cr_mean r1 == cr_mean r2 -> cr_rank r1 = cr_rank r2).
Proof.
  intro table.
  assert (R : forall r, In r table -> cr_rank r = S (larger_means table r)).
  { intros r Hr. apply (county_table_row category rows r Hr). }
  split; [|split; [|split]].
  - intros r Hr. rewrite (R r Hr). split; [lia|].
    unfold larger_means.
    assert (L : (length (filter (fun r' => Qgtb (cr_mean r') (cr_mean r)) table)
                 < length (filter (fun _ => true) table))%nat).
    { apply (filter_length_lt _ _ table r); auto. apply Qgtb_irrefl. }
    assert (T : filter (fun _ : county_row => true) table = table).
    { clear. induction table as [|x t IH]; simpl; [reflexivity|].
      rewrite IH. reflexivity. }
    rewrite T in L. lia.
  - intro N. destruct (largest_mean table N) as (m & Hm & Mx).
    exists m. split; [exact Hm|].
    rewrite (R m Hm), (larger_means_top table m Mx). reflexivity.
  - intros r1 r2 H1 H2 Lt. rewrite (R r1 H1), (R r2 H2).
    apply -> Nat.succ_lt_mono. unfold larger_means.
    apply (filter_length_lt _ _ table r1).
    + intros y Hy. apply Qgtb_lt in Hy. apply Qgtb_lt. lra.
    + exact H1.
    + apply Qgtb_irrefl.
    + apply Qgtb_lt. exact Lt.
  - intros r1 r2 H1 H2 E. rewrite (R r1 H1), (R r2 H2). f_equal.
    unfold larger_means. apply filter_length_same. intro y.
    destruct (Qgtb (cr_mean y) (cr_mean r1)) eqn:G1;
      destruct (Qgtb (cr_mean y) (cr_mean r2)) eqn:G2; try reflexivity.
    + apply Qgtb_lt in G1. apply Qgtb_le in G2. lra.
    + apply Qgtb_le in G1. apply Qgtb_lt in G2. lra.
Qed.

Lemma X8_rank_witness :
  exists r, In r (county_table "总分" tied_counties) /\ cr_rank r = 1%nat.
Proof.
  apply (proj1 (proj2 (X8_rank_follows_the_means "总分" tied_counties))).
  discriminate.
Defined.

(** *** Rounding keeps the order *)

Lemma rint_ge_floor (x : Q) : (Qfloor x <= rint x <= Qfloor x + 1)%Z.
Proof.
  unfold rint. destruct (Qcompare _ _); [destruct (Z.even _)| |]; lia.
Qed.

Lemma rint_monotone (x y : Q) : x <= y -> (rint x <= rint y)%Z.
Proof.
  intro L.
  assert (F : (Qfloor x <= Qfloor y)%Z) by (apply Qfloor_resp_le, L).
  destruct (Z.eq_dec (Qfloor x) (Qfloor y)) as [E|N].
  - unfold rint. rewrite <- E.
    destruct (Qcompare (x - inject_Z (Qfloor x)) (1 # 2)) eqn:Cx;
      destruct (Qcompare (y - inject_Z (Qfloor x)) (1 # 2)) eqn:Cy;
      try (destruct (Z.even (Qfloor x))); try lia; exfalso;
      repeat match goal with
      | H : Qcompare _ _ = Eq |- _ => apply Qeq_alt in H
      | H : Qcompare _ _ = Lt |- _ => apply Qlt_alt in H
      | H : Qcompare _ _ = Gt |- _ => apply Qgt_alt in H
      end; lra.
  - pose proof (rint_ge_floor x). pose proof (rint_ge_floor y). lia.
Qed.

Lemma round2_monotone (x y : Q) : x <= y -> round2 x <= round2 y.
Proof.
  intro L. unfold round2.
  assert (M : (rint (x * 100) <= rint (y * 100))%Z) by (apply rint_monotone; lra).
  rewrite Zle_Qle in M. apply Qmult_le_compat_r; [exact M|].
  apply Qlt_le_weak. reflexivity.
Qed.

Lemma round2_zero : round2 0 == 0.
Proof. reflexivity. Qed.

(** X9: when the overall mean of the category is positive, the
    deviation rate of a county is at least 0 if its mean is not below
    the overall mean and at most 0 if it is not above, and a county
    with a larger mean never has a smaller deviation rate. *)
Theorem X9_deviation_follows_the_means (category : string) (rows : list record) :
  0 < overall category rows ->
  let table := county_table category rows in
  (forall r, In r table ->
     (overall category rows <= cr_mean r -> 0 <= cr_deviation r) /\
     (cr_mean r <= overall category rows -> cr_deviation r <= 0)) /\
  (forall r1 r2, In r1 table -> In r2 table ->
     cr_mean r1 <= cr_mean r2 -> cr_deviation r1 <= cr_deviation r2).
Proof.
  intros P table.
  set (m := overall category rows) in *.
  assert (D : forall r, In r table ->
            cr_deviation r = round2 ((cr_mean r - m) / m * 100)).
  { intros r Hr.
    destruct (county_table_row category rows r Hr) as (_ & _ & _ & ->).
    fold m. unfold deviation_rate.
    destruct (Qeq_bool m 0) eqn:E; [|reflexivity].
    apply Qeq_bool_iff in E. lra. }
  assert (Q : forall u v, u <= v -> (u - m) / m * 100 <= (v - m) / m * 100).
  { intros u v L. apply Qmult_le_compat_r; [|lra].
    unfold Qdiv. apply Qmult_le_compat_r; [lra|].
    apply Qlt_le_weak, Qinv_lt_0_compat, P. }
  assert (Z0 : (m - m) / m * 100 == 0) by (field; lra).
  split.
  - intros r Hr. rewrite (D r Hr). split; intro L.
    + rewrite <- round2_zero. apply round2_monotone. rewrite <- Z0. apply Q, L.
    + rewrite <- round2_zero. apply round2_monotone. rewrite <- Z0. apply Q, L.
  - intros r1 r2 H1 H2 L. rewrite (D r1 H1), (D r2 H2).
    apply round2_monotone, Q, L.
Qed.

Lemma X9_deviation_witness :
  0 < overall "score" uneven_counties /\
  forall r1 r2, In r1 (county_table "score" uneven_counties) ->
    In r2 (county_table "score" uneven_counties) ->
    cr_mean r1 <= cr_mean r2 -> cr_deviation r1 <= cr_deviation r2.
Proof.
  assert (P : 0 < overall "score" uneven_counties) by reflexivity.
  split; [exact P|].
  exact (proj2 (X9_deviation_follows_the_means "score" uneven_counties P)).
Defined.

(** *** Administrative columns *)

Lemma fuzzy_step_keeps (found : admin_columns) (col : string) :
  (forall c, county_column found = Some c ->
             county_column (fuzzy_step found col) = Some c) /\
  (forall c, school_column found = Some c ->
             school_column (fuzzy_step found col) = Some c) /\
  (forall c, class_column found = Some c ->
             class_column (fuzzy_step found col) = Some c).
Proof.
  unfold fuzzy_step.
  destruct found as [[c1|] [c2|] [c3|]]; cbn [county_column school_column
    class_column is_none andb];
    repeat match goal with
           | |- context [if ?b then _ else _] => destruct b
           end; cbn [county_column school_column class_column];
    repeat split; intros c H; first [exact H | discriminate H].
Qed.

Lemma fold_fuzzy_keeps (columns : list string) (found : admin_columns) :
  (forall c, county_column found = Some c ->
             county_column (fold_left fuzzy_step columns found) = Some c) /\
  (forall c, school_column found = Some c ->
             school_column (fold_left fuzzy_step columns found) = Some c) /\
  (forall c, class_column found = Some c ->
             class_column (fold_left fuzzy_step columns found) = Some c).
Proof.
  revert found. induction columns as [|col t IH]; intro found; simpl.
  - auto.
  - destruct (IH (fuzzy_step found col)) as (I1 & I2 & I3).
    destruct (fuzzy_step_keeps found col) as (K1 & K2 & K3).
    repeat split; intros c H; auto.
Qed.

Lemma fold_fuzzy_county (columns : list string) (found : admin_columns) :
  county_column (fold_left fuzzy_step columns found)
  = match county_column found with
    | Some c => Some c
    | None => find county_like columns
    end.
Proof.
  revert found. induction columns as [|col t IH]; intro found; simpl.
  - destruct (county_column found); reflexivity.
  - rewrite IH. unfold fuzzy_step, county_like.
    destruct found as [[c1|] c2 c3];
      cbn [county_column school_column class_column is_none andb].
    + repeat match goal with
             | |- context [if ?b then _ else _] => destruct b
             end; reflexivity.
    + destruct (contains "区县" col); cbn [andb].
      * destruct (existsb _ exclude_keywords); reflexivity.
      * repeat match goal with
               | |- context [if ?b then _ else _] => destruct b
               end; reflexivity.
Qed.

Lemma fuzzy_step_well_found (columns : list string) (found : admin_columns)
    (col : string) :
  In col columns -> well_found columns found ->
  well_found columns (fuzzy_step found col).
Proof.
  intros Hin [S C]. unfold fuzzy_step.
  destruct (is_none (county_column found) && contains "区县" col).
  { destruct (negb _); split; auto. }
  destruct (is_none (school_column found) && contains "学校" col
            && negb (contains "行政班" col)) eqn:E1.
  { apply andb_true_iff in E1. destruct E1 as [E1 E3].
    apply andb_true_iff in E1. destruct E1 as [_ E2].
    apply negb_true_iff in E3.
    split; cbn [school_column class_column]; [|exact C].
    intros c H. injection H as <-. auto. }
  destruct (is_none (class_column found) && contains "行政班" col) eqn:E2.
  { apply andb_true_iff in E2. destruct E2 as [_ E2].
    split; cbn [school_column class_column]; [exact S|].
    intros c H. injection H as <-. auto. }
  split; auto.
Qed.

Lemma fold_fuzzy_well_found (columns : list string) (l : list string)
    (found : admin_columns) :
  incl l columns -> well_found columns found ->
  well_found columns (fold_left fuzzy_step l found).
Proof.
  revert found. induction l as [|col t IH]; intros found I W; simpl.
  - exact W.
  - apply IH.
    + intros x Hx. apply I. right. exact Hx.
    + apply fuzzy_step_well_found; [apply I; left; reflexivity | exact W].
Qed.

Lemma mem_In (s : string) (l : list string) : mem s l = true <-> In s l.
Proof.
  unfold mem. rewrite existsb_exists. split.
  - intros (x & Hx & E). apply String.eqb_eq in E. subst. exact Hx.
  - intro H. exists s. split; [exact H | apply String.eqb_refl].
Qed.

Lemma exact_match_well_found (columns : list string) :
  well_found columns (exact_match columns).
Proof.
  unfold exact_match. split; cbn [school_column class_column].
  - destruct (mem "学校" columns) eqn:M; [|discriminate].
    intros c H. injection H as <-. apply mem_In in M.
    split; [exact M|]. split; [reflexivity | left; reflexivity].
  - destruct (mem "行政班" columns) eqn:M; [|discriminate].
    intros c H. injection H as <-. apply mem_In in M.
    split; [exact M | reflexivity].
Qed.

(** X10: the administrative columns.  A column named exactly 区县, 学校
    or 行政班 is always the one taken.  Without a column named 区县 the
    county column is the first column whose name contains 区县 and none
    of 排, 名, 组合, 统计, 分析.  A school column is a column whose name
    contains 学校 and, unless it is 学校 itself, not 行政班; a class
    column is a column whose name contains 行政班. *)
Theorem X10_administrative_columns (columns : list string) :
  let found := _get_administrative_columns columns in
  county_column found
    = (if mem "区县" columns then Some "区县" else find county_like columns) /\
  (In "学校" columns -> school_column found = Some "学校") /\
  (In "行政班" columns -> class_column found = Some "行政班") /\
  (forall c, school_column found = Some c ->
     In c columns /\ contains "学校" c = true /\
     (c = "学校" \/ contains "行政班" c = false)) /\
  (forall c, class_column found = Some c ->
     In c columns /\ contains "行政班" c = true).
Proof.
  intro found. unfold found, _get_administrative_columns.
  pose proof (exact_match_well_found columns) as W.
  destruct (fold_fuzzy_keeps columns (exact_match columns)) as (_ & K2 & K3).
  destruct (found_count (exact_match columns) <? 3)%nat eqn:L.
  - split; [|split; [|split]].
    + rewrite fold_fuzzy_county. unfold exact_match. cbn [county_column].
      destruct (mem "区县" columns); reflexivity.
    + intro H. apply K2. unfold exact_match. cbn [school_column].
      apply mem_In in H. rewrite H. reflexivity.
    + intro H. apply K3. unfold exact_match. cbn [class_column].
      apply mem_In in H. rewrite H. reflexivity.
    + apply fold_fuzzy_well_found; [apply incl_refl | exact W].
  - split; [|split; [|split]].
    + unfold exact_match in *. cbn [county_column].
      destruct (mem "区县" columns); [reflexivity|].
      exfalso. apply Nat.ltb_ge in L. unfold found_count in L.
      cbn [county_column school_column class_column is_none] in L.
      destruct (mem "学校" columns), (mem "行政班" columns);
        cbn [is_none] in L; lia.
    + intro H. unfold exact_match. cbn [school_column].
      apply mem_In in H. rewrite H. reflexivity.
    + intro H. unfold exact_match. cbn [class_column].
      apply mem_In in H. rewrite H. reflexivity.
    + exact W.
Qed.

Lemma X10_administrative_columns_witness :
  school_column (_get_administrative_columns ["考号"; "所属学校"; "学校"])
  = Some "学校".
Proof.
  apply (proj1 (proj2 (X10_administrative_columns ["考号"; "所属学校"; "学校"]))).
  simpl. auto.
Defined.

(** *** County options *)

(** X11: the county options are offered without repetition, with label
    and value equal; a county is offered exactly when the county column
    was found and some row holds that county; and every county of a line
    of the county statistics is among the options. *)
Theorem X11_county_options (a : CascadeAnalyzer) :
  NoDup (get_county_options a) /\
  (forall label value, In (label, value) (get_county_options a) <->
     label = value /\ county_found a = true /\
     exists r, In r (data a) /\ county r = Some value) /\
  (forall categories line,
     In line (calculate_county_statistics a categories) ->
     In (cr_county line, cr_county line) (get_county_options a)).
Proof.
  assert (M : forall label value, In (label, value) (get_county_options a) <->
     label = value /\ county_found a = true /\
     exists r, In r (data a) /\ county r = Some value).
  { intros label value. unfold get_county_options.
    destruct (county_found a).
    - rewrite in_map_iff. split.
      + intros (c & E & Hc). injection E as <- <-.
        apply group_keys_In in Hc. auto.
      + intros (-> & _ & Hc). exists value. split; [reflexivity|].
        apply group_keys_In, Hc.
    - simpl. split; [contradiction | intros (_ & F & _); discriminate]. }
  split; [|split; [exact M|]].
  - unfold get_county_options. destruct (county_found a); [|constructor].
    pose proof (group_keys_NoDup county (data a)) as N.
    induction N as [|c l Hc N IH]; simpl; constructor; [|exact IH].
    intro H. apply in_map_iff in H. destruct H as (c' & E & Hc').
    injection E as -> _. exact (Hc Hc').
  - intros categories line Hin. apply M.
    unfold calculate_county_statistics in Hin.
    destruct (is_empty categories); [contradiction|].
    destruct (county_found a); [|contradiction]. cbn [negb] in Hin.
    split; [reflexivity|]. split; [reflexivity|].
    apply in_flat_map in Hin. destruct Hin as (category & _ & Hin).
    destruct (mem category (columns a)); [|contradiction].
    destruct (county_table_row category (data a) line Hin) as (N & _).
    unfold values_of_county in N.
    destruct (filter (has_key fst (cr_county line)) (clean category (data a)))
      as [|p ps] eqn:F; [contradiction N; reflexivity|].
    assert (Hp : In p (filter (has_key fst (cr_county line))
                         (clean category (data a)))).
    { rewrite F. left. reflexivity. }
    apply filter_In in Hp. destruct Hp as [Hp K].
    apply has_key_true in K.
    destruct (clean_In_record category (data a) p Hp) as (r & Hr & Er & _).
    exists r. split; [exact Hr | congruence].
Qed.

Lemma X11_county_options_witness :
  In ("乙", "乙") (get_county_options (mkCascade tied_counties ["总分"] true)).
Proof.
  apply (proj1 (proj2 (X11_county_options
                         (mkCascade tied_counties ["总分"] true)))).
  split; [reflexivity|]. split; [reflexivity|].
  exists (mkRecord (Some "乙") [("总分", Fin 85)]). simpl. auto.
Defined.

End CascadeMoreProperties.

Section NumericLists.
Import Stats.

Lemma Qlen_cons {A : Type} (x : A) (l : list A) : Qlen (x :: l) == Qlen l + 1.
Proof.
  unfold Qlen. cbn [length]. rewrite Nat2Z.inj_succ, <- Z.add_1_r, inject_Z_plus.
  reflexivity.
Qed.

Lemma Qlen_nonneg {A : Type} (l : list A) : 0 <= Qlen l.
Proof.
  unfold Qlen. change 0 with (inject_Z 0). rewrite <- Zle_Qle. lia.
Qed.

Lemma Qlen_pos {A : Type} (l : list A) : l <> [] -> 0 < Qlen l.
Proof.
  destruct l as [|x t]; [congruence|]. intros _.
  rewrite Qlen_cons. pose proof (Qlen_nonneg t). lra.
Qed.

Lemma Qsum_lower (lo : Q) (xs : list Q) :
  (forall x, In x xs -> lo <= x) -> lo * Qlen xs <= Qsum xs.
Proof.
  induction xs as [|x t IH]; intro H.
  - change (lo * 0 <= 0). lra.
  - rewrite Qlen_cons. cbn [Qsum fold_right].
    assert (L : lo <= x) by (apply H; left; reflexivity).
    assert (T : lo * Qlen t <= Qsum t).
    { apply IH. intros y Hy. apply H. right. exact Hy. }
    unfold Qsum in T. lra.
Qed.

Lemma Qsum_upper (hi : Q) (xs : list Q) :
  (forall x, In x xs -> x <= hi) -> Qsum xs <= hi * Qlen xs.
Proof.
  induction xs as [|x t IH]; intro H.
  - change (0 <= hi * 0). lra.
  - rewrite Qlen_cons. cbn [Qsum fold_right].
    assert (L : x <= hi) by (apply H; left; reflexivity).
    assert (T : Qsum t <= hi * Qlen t).
    { apply IH. intros y Hy. apply H. right. exact Hy. }
    unfold Qsum in T. lra.
Qed.

(** The mean of values that are not below [lo] is not below [lo]. *)
Lemma average_lower (lo : Q) (xs : list Q) :
  xs <> [] -> (forall x, In x xs -> lo <= x) -> lo <= average xs.
Proof.
  intros N H. unfold average. apply Qle_shift_div_l; [apply Qlen_pos, N|].
  apply Qsum_lower, H.
Qed.

Lemma average_upper (hi : Q) (xs : list Q) :
  xs <> [] -> (forall x, In x xs -> x <= hi) -> average xs <= hi.
Proof.
  intros N H. unfold average. apply Qle_shift_div_r; [apply Qlen_pos, N|].
  apply Qsum_upper, H.
Qed.

Lemma fold_Qmin_le (xs : list Q) (x : Q) :
  fold_left Qmin xs x <= x /\ forall y, In y xs -> fold_left Qmin xs x <= y.
Proof.
  revert x. induction xs as [|z t IH]; intro x; simpl.
  - split; [apply Qle_refl | contradiction].
  - destruct (IH (Qmin x z)) as [I1 I2].
    assert (M : Qmin x z <= x /\ Qmin x z <= z).
    { unfold Qmin. destruct (Qle_bool x z) eqn:E; q_facts; lra. }
    split; [lra|]. intros y [<-|Hy]; [lra | apply I2, Hy].
Qed.

Lemma fold_Qmin_In (xs : list Q) (x : Q) : In (fold_left Qmin xs x) (x :: xs).
Proof.
  revert x. induction xs as [|z t IH]; intro x; simpl.
  - left. reflexivity.
  - specialize (IH (Qmin x z)). unfold Qmin in *.
    destruct (Qle_bool x z); destruct IH as [E|H]; auto.
Qed.

Lemma fold_Qmax_ge (xs : list Q) (x : Q) :
  x <= fold_left Qmax xs x /\ forall y, In y xs -> y <= fold_left Qmax xs x.
Proof.
  revert x. induction xs as [|z t IH]; intro x; simpl.
  - split; [apply Qle_refl | contradiction].
  - destruct (IH (Qmax x z)) as [I1 I2].
    assert (M : x <= Qmax x z /\ z <= Qmax x z).
    { unfold Qmax. destruct (Qle_bool x z) eqn:E; q_facts; lra. }
    split; [lra|]. intros y [<-|Hy]; [lra | apply I2, Hy].
Qed.

Lemma fold_Qmax_In (xs : list Q) (x : Q) : In (fold_left Qmax xs x) (x :: xs).
Proof.
  revert x. induction xs as [|z t IH]; intro x; simpl.
  - left. reflexivity.
  - specialize (IH (Qmax x z)). unfold Qmax in *.
    destruct (Qle_bool x z); destruct IH as [E|H]; auto.
Qed.

(** A part over the whole, times 100, lies between 0 and 100. *)
Lemma rate_bounds (n m : nat) :
  (n <= m)%nat -> (0 < m)%nat ->
  0 <= inject_Z (Z.of_nat n) / inject_Z (Z.of_nat m) * 100 <= 100.
Proof.
  intros L P.
  assert (Pm : 0 < inject_Z (Z.of_nat m)).
  { change 0 with (inject_Z 0). rewrite <- Zlt_Qlt. lia. }
  assert (Pn : 0 <= inject_Z (Z.of_nat n)).
  { change 0 with (inject_Z 0). rewrite <- Zle_Qle. lia. }
  assert (Ln : inject_Z (Z.of_nat n) <= inject_Z (Z.of_nat m)).
  { rewrite <- Zle_Qle. lia. }
  assert (D0 : 0 <= inject_Z (Z.of_nat n) / inject_Z (Z.of_nat m)).
  { apply Qle_shift_div_l; [exact Pm | lra]. }
  assert (D1 : inject_Z (Z.of_nat n) / inject_Z (Z.of_nat m) <= 1).
  { apply Qle_shift_div_r; [exact Pm | lra]. }
  lra.
Qed.

End NumericLists.

Section GoalLineMoreProperties.
Import Stats GoalLine GoalLineMore.

Open Scope string_scope.

(** *** The hierarchy columns *)

Lemma class_loop_spec (columns : list string) (found : option string) :
  class_loop columns found
  = match find (contains "行政班") columns with
    | Some c => Some c
    | None =>
        match found with
        | Some f => Some f
        | None => find (contains "班级") columns
        end
    end.
Proof.
  revert found. induction columns as [|col rest IH]; intro found; simpl.
  - destruct found; reflexivity.
  - destruct (contains "行政班" col); [reflexivity|].
    destruct (contains "班级" col); cbn [andb].
    + destruct found as [f|]; rewrite IH; reflexivity.
    + rewrite IH. reflexivity.
Qed.

(** X12: the class column found by [find_hierarchy_columns] is the
    first column whose name contains 行政班, wherever it stands; only
    when no column contains 行政班 is it the first column whose name
    contains 班级.  The column found is a column of the frame. *)
Theorem X12_class_column_prefers_xingzhengban (columns : list string) :
  h_class (find_hierarchy_columns columns)
  = match find (contains "行政班") columns with
    | Some c => Some c
    | None => find (contains "班级") columns
    end /\
  (forall c, h_class (find_hierarchy_columns columns) = Some c ->
     In c columns /\ (contains "行政班" c = true \/ contains "班级" c = true)) /\
  (h_class (find_hierarchy_columns columns) = None <->
   forall c, In c columns ->
     contains "行政班" c = false /\ contains "班级" c = false).
Proof.
  assert (E : h_class (find_hierarchy_columns columns)
              = match find (contains "行政班") columns with
                | Some c => Some c
                | None => find (contains "班级") columns
                end).
  { unfold find_hierarchy_columns. cbn [h_class]. apply class_loop_spec. }
  split; [exact E|]. rewrite E. split.
  - intros c H. destruct (find (contains "行政班") columns) as [x|] eqn:F.
    + injection H as <-. apply find_some in F. destruct F. auto.
    + apply find_some in H. destruct H. auto.
  - split.
    + intros H c Hc.
      destruct (find (contains "行政班") columns) as [x|] eqn:F; [discriminate|].
      split.
      * apply (find_none _ _ F c Hc).
      * apply (find_none _ _ H c Hc).
    + intro H.
      destruct (find (contains "行政班") columns) as [x|] eqn:F.
      * apply find_some in F. destruct F as [Hx Cx].
        destruct (H x Hx) as [N _]. congruence.
      * destruct (find (contains "班级") columns) as [y|] eqn:G; [|reflexivity].
        apply find_some in G. destruct G as [Hy Cy].
        destruct (H y Hy) as [_ N]. congruence.
Qed.

Lemma X12_class_column_witness :
  h_class (find_hierarchy_columns ["班级"; "学校"; "行政班"]) = Some "行政班".
Proof.
  rewrite (proj1 (X12_class_column_prefers_xingzhengban ["班级"; "学校"; "行政班"])).
  reflexivity.
Defined.

(** *** Comparing several lines *)









(** *** The statistics of one group *)

Lemma reached_scores (t : Q) (group : list row) :
  length (valid (target_col (filter (reaches t) group)))
  = length (filter (reaches t) group) /\
  forall v, In v (valid (target_col (filter (reaches t) group))) -> t <= v.
Proof.
  induction group as [|r g [IH1 IH2]]; cbn [filter].
  - split; [reflexivity | contradiction].
  - destruct (reaches t r) eqn:E; [|split; assumption].
    unfold reaches in E. destruct (target r) as [v| |] eqn:T; try discriminate.
    unfold target_col in *. cbn [map]. rewrite T. cbn [valid length In].
    split; [rewrite IH1; reflexivity|].
    intros w [<-|Hw]; [apply Qle_bool_iff, E | apply IH2, Hw].
Qed.

(** The scores of those who reach the line. *)
Lemma reached_values (t v : Q) (group : list row) :
  In v (valid (target_col (filter (reaches t) group)))
  <-> exists r, In r group /\ target r = Number v /\ t <= v.
Proof.
  induction group as [|r g IH]; cbn [filter].
  - split; [contradiction | intros (r & [] & _)].
  - destruct (reaches t r) eqn:E.
    + unfold reaches in E. destruct (target r) as [w| |] eqn:T; try discriminate.
      apply Qle_bool_iff in E.
      unfold target_col in *. cbn [map]. rewrite T. cbn [valid In].
      rewrite IH. split.
      * intros [<-|(r' & Hr & Tr & L)].
        -- exists r. split; [left; reflexivity|]. split; [exact T | exact E].
        -- exists r'. split; [right; exact Hr|]. split; [exact Tr | exact L].
      * intros (r' & [<-|Hr] & Tr & L); [left; congruence|].
        right. exists r'. split; [exact Hr|]. split; [exact Tr | exact L].
    + rewrite IH. split.
      * intros (r' & Hr & Tr & L). exists r'.
        split; [right; exact Hr|]. split; [exact Tr | exact L].
      * intros (r' & [<-|Hr] & Tr & L);
          [|exists r'; split; [exact Hr|]; split; [exact Tr | exact L]].
        exfalso. unfold reaches in E. rewrite Tr in E.
        apply Qle_bool_iff in L. congruence.
Qed.

(** X14: the statistics of a group.  The number that reach the line is
    at most the size of the group and the reach rate lies between 0 and
    100.  When somebody reaches the line, the lowest and the highest
    score of those who reach it are scores of the group, the lowest not
    below the line, with the scores of all who reach the line between
    them, and the mean and the gap to the line are numbers.  When nobody
    reaches it, the mean, the highest and the lowest score are 0, the
    gap is minus the line and the gap in percent is -100. *)
Theorem X14_group_statistics (group : list row) (target_score : Q) :
  let gs := _calculate_group_line_stats group target_score in
  g_total_count gs = length group /\
  (g_reached_count gs <= g_total_count gs)%nat /\
  0 <= g_reach_rate gs <= 100 /\
  ((0 < g_reached_count gs)%nat ->
   exists lowest highest,
     g_min_score gs = Num lowest /\ g_max_score gs = Num highest /\
     target_score <= lowest /\ lowest <= highest /\
     (exists r, In r group /\ target r = Number lowest) /\
     (exists r, In r group /\ target r = Number highest) /\
     (forall r v, In r group -> target r = Number v -> target_score <= v ->
        lowest <= v <= highest) /\
     (exists avg, g_avg_score gs = Num avg) /\
     (exists gap, g_score_gap_to_line gs = Num gap)) /\
  (g_reached_count gs = 0%nat ->
   g_avg_score gs = Num 0 /\ g_max_score gs = Num 0 /\
   g_min_score gs = Num 0 /\
   g_score_gap_to_line gs = Num (- target_score) /\
   g_score_gap_pct gs = Num (-100)).
Proof.
  intro gs.
  assert (L : (length (filter (reaches target_score) group) <= length group)%nat)
    by apply List.filter_length_le.
  assert (C : g_reached_count gs = length (filter (reaches target_score) group))
    by apply group_reached_count.
  assert (T : g_total_count gs = length group).
  { unfold gs, _calculate_group_line_stats.
    destruct (0 <? length (filter (reaches target_score) group))%nat; reflexivity. }
  assert (R : g_reach_rate gs
              = if (0 <? length group)%nat
                then inject_Z (Z.of_nat (length (filter (reaches target_score) group)))
                     / inject_Z (Z.of_nat (length group)) * 100
                else 0).
  { unfold gs, _calculate_group_line_stats.
    destruct (0 <? length (filter (reaches target_score) group))%nat; reflexivity. }
  split; [exact T|].
  split; [rewrite C, T; exact L|]. split; [|split].
  - rewrite R. destruct (0 <? length group)%nat eqn:P.
    + apply rate_bounds; [exact L | apply Nat.ltb_lt, P].
    + lra.
  - rewrite C. intro P.
    destruct (reached_scores target_score group) as [Len Ge].
    pose proof (reached_values target_score) as RV.
    unfold gs, _calculate_group_line_stats.
    apply Nat.ltb_lt in P. rewrite P.
    cbn [g_min_score g_avg_score g_max_score g_score_gap_to_line].
    unfold mean, smin, smax.
    destruct (valid (target_col (filter (reaches target_score) group)))
      as [|x xs] eqn:V.
    { apply Nat.ltb_lt in P. simpl in Len. lia. }
    exists (fold_left Qmin xs x), (fold_left Qmax xs x).
    destruct (fold_Qmin_le xs x) as [m1 m2].
    destruct (fold_Qmax_ge xs x) as [M1 M2].
    split; [reflexivity|]. split; [reflexivity|].
    split; [apply Ge, fold_Qmin_In|].
    split; [lra|].
    split.
    { destruct (proj1 (RV (fold_left Qmin xs x) group)) as (r & Hr & Tr & _).
      - rewrite V. apply fold_Qmin_In.
      - exists r. auto. }
    split.
    { destruct (proj1 (RV (fold_left Qmax xs x) group)) as (r & Hr & Tr & _).
      - rewrite V. apply fold_Qmax_In.
      - exists r. auto. }
    split.
    { intros r v Hr Tr Lv.
      assert (I : In v (x :: xs)).
      { rewrite <- V. apply RV. exists r. auto. }
      destruct I as [<-|I]; split; auto. }
    split; eexists; reflexivity.
  - rewrite C. intro Z.
    unfold gs, _calculate_group_line_stats. rewrite Z.
    cbn [Nat.ltb Nat.leb]. repeat split; reflexivity.
Qed.

Lemma X14_group_statistics_witness :
  exists lowest highest,
    g_min_score (_calculate_group_line_stats (df two_on_default_lines) 450)
      = Num lowest /\
    g_max_score (_calculate_group_line_stats (df two_on_default_lines) 450)
      = Num highest /\
    450 <= lowest /\ lowest <= highest /\
    (exists r, In r (df two_on_default_lines) /\ target r = Number lowest) /\
    (exists r, In r (df two_on_default_lines) /\ target r = Number highest) /\
    (forall r v, In r (df two_on_default_lines) -> target r = Number v ->
       450 <= v -> lowest <= v <= highest) /\
    (exists avg,
       g_avg_score (_calculate_group_line_stats (df two_on_default_lines) 450)
         = Num avg) /\
    (exists gap,
       g_score_gap_to_line
         (_calculate_group_line_stats (df two_on_default_lines) 450)
         = Num gap).
Proof.
  apply (proj1 (proj2 (proj2 (proj2
           (X14_group_statistics (df two_on_default_lines) 450))))).
  simpl. lia.
Defined.

(** *** Groups and the whole *)

Lemma filter_comm {A : Type} (f g : A -> bool) (l : list A) :
  filter f (filter g l) = filter g (filter f l).
Proof.
  induction l as [|x t IH]; simpl; [reflexivity|].
  destruct (f x) eqn:F, (g x) eqn:G; simpl; rewrite ?F, ?G, IH; reflexivity.
Qed.

(** The overall counts of a result. *)
Lemma overall_counts (a : GoalCompletionAnalyzer) (line_type : string)
    (levels : option (list level)) (line : line_info) (res : completion) :
  lookup line_type (score_line_config a) = Some line ->
  analyze_score_line_completion a line_type levels = Returned res ->
  total_students (basic res) = length (clean (df a)) /\
  reached_students (basic res)
    = length (filter (reaches (value (min_score line))) (clean (df a))) /\
  line_score (basic res) = value (min_score line) /\
  reach_rate (basic res)
    = Qlen (filter (reaches (value (min_score line))) (clean (df a)))
      / inject_Z (Z.of_nat (length (clean (df a)))) * 100 /\
  clean (df a) <> [].
Proof.
  intros L H. unfold analyze_score_line_completion in H. rewrite L in H.
  destruct (Nat.eqb (length (clean (df a))) 0) eqn:E; [discriminate|].
  destruct (_analyze_score_distribution (clean (df a)) (min_score line));
    [discriminate|].
  injection H as <-. cbn [basic total_students reached_students line_score reach_rate].
  repeat split. intro N. rewrite N in E. discriminate.
Qed.

(** X15: at every level of the result of which some cleaned row holds
    a key, there is a group, the sizes of the groups add up to the number
    of cleaned rows that have a value in the column of the level, and
    the numbers that reach the line add up to the number of those rows
    that reach it.  So the groups never count more than the overall
    figures, and count the same when no cleaned row lacks the value. *)
Theorem X15_groups_add_up (a : GoalCompletionAnalyzer) (line_type : string)
    (levels : option (list level)) (line : line_info) (res : completion)
    (lv : level) (groups : list (string * group_stats)) :
  lookup line_type (score_line_config a) = Some line ->
  analyze_score_line_completion a line_type levels = Returned res ->
  In (lv, groups) (hierarchy_stats res) ->
  (exists r, In r (clean (df a)) /\ keyed lv r = true) ->
  groups <> [] /\
  sum_total groups = length (filter (keyed lv) (clean (df a))) /\
  sum_reached groups
    = length (filter (reaches (value (min_score line)))
                (filter (keyed lv) (clean (df a)))) /\
  (sum_total groups <= total_students (basic res))%nat /\
  (sum_reached groups <= reached_students (basic res))%nat /\
  ((forall r, In r (clean (df a)) -> keyed lv r = true) ->
   sum_total groups = total_students (basic res) /\
   sum_reached groups = reached_students (basic res)).
Proof.
  intros L H Hin (r0 & Hr0 & K0).
  destruct (overall_counts a line_type levels line res L H) as (T & R & _).
  rewrite (hierarchy_groups a line_type levels line res lv groups L H Hin).
  set (t := value (min_score line)) in *.
  set (rows := clean (df a)) in *.
  assert (S1 : sum_total
                 (map (fun g => (fst g, _calculate_group_line_stats (snd g) t))
                    (groupby (level_key lv) rows))
               = length (filter (keyed lv) rows)).
  { etransitivity; [|exact (groupby_sizes (level_key lv) rows)].
    unfold sum_total.
    induction (groupby (level_key lv) rows) as [|g gs IH]; [reflexivity|].
    cbn [map fold_right snd]. rewrite IH. f_equal.
    unfold _calculate_group_line_stats.
    destruct (0 <? length (filter (reaches t) (snd g)))%nat; reflexivity. }
  assert (S2 : sum_reached
                 (map (fun g => (fst g, _calculate_group_line_stats (snd g) t))
                    (groupby (level_key lv) rows))
               = length (filter (reaches t) (filter (keyed lv) rows))).
  { rewrite filter_comm.
    etransitivity;
      [|exact (rows_by_key (level_key lv) (group_keys (level_key lv) rows)
                 (filter (reaches t) rows) (group_keys_NoDup _ _)
                 (fun r k Hr K =>
                    proj2 (group_keys_In (level_key lv) k rows)
                      (ex_intro _ r (conj (proj1 (proj1 (filter_In _ _ _) Hr)) K))))].
    rewrite <- group_sizes_by_row.
    unfold sum_reached, groupby.
    induction (group_keys (level_key lv) rows) as [|k ks IH]; [reflexivity|].
    cbn [map fold_right snd]. rewrite IH. f_equal.
    rewrite group_reached_count. f_equal. apply filter_comm. }
  split.
  { intro E. rewrite E in S1. cbn in S1.
    assert (I : In r0 (filter (keyed lv) rows))
      by (apply filter_In; split; assumption).
    destruct (filter (keyed lv) rows); [contradiction | discriminate]. }
  rewrite S1, S2, T, R. fold rows. fold t.
  split; [reflexivity|]. split; [reflexivity|].
  split; [apply List.filter_length_le|].
  split.
  - rewrite filter_comm. apply List.filter_length_le.
  - intro K.
    assert (E : filter (keyed lv) rows = rows).
    { clear -K. induction rows as [|r rs IH]; simpl; [reflexivity|].
      rewrite (K r (or_introl eq_refl)), IH; [reflexivity|].
      intros x Hx. apply K. right. exact Hx. }
    rewrite E. split; reflexivity.
Qed.

Lemma X15_groups_add_up_witness :
  exists res groups,
    analyze_score_line_completion two_on_default_lines "undergraduate" None
      = Returned res /\
    In (School, groups) (hierarchy_stats res) /\
    sum_total groups = 1%nat /\ total_students (basic res) = 2%nat.
Proof.
  eexists. eexists. split; [reflexivity|]. split; [right; left; reflexivity|].
  split; [|reflexivity].
  rewrite (proj1 (proj2
             (X15_groups_add_up two_on_default_lines "undergraduate" None
                (mkLine "本科线" (Int 450)) _ School _
                eq_refl eq_refl (or_intror (or_introl eq_refl))
                (ex_intro _ (mkRow (Number 430) (Some "甲") (Some "一中") None)
                   (conj (or_introl eq_refl) eq_refl))))).
  reflexivity.
Defined.

(** *** Line scores that are floats *)









(** *** Goals by subject *)

Lemma set_item_Forall {V : Type} (P : V -> Prop) (k : string) (v : V)
    (d : list (string * V)) :
  P v -> Forall (fun p => P (snd p)) d ->
  Forall (fun p => P (snd p)) (set_item k v d).
Proof.
  intros Pv F. unfold set_item.
  destruct (existsb (fun p => String.eqb (fst p) k) d).
  - induction F as [|p t Hp Ft IH]; simpl; constructor; [|exact IH].
    destruct (String.eqb (fst p) k); [exact Pv | exact Hp].
  - apply Forall_app. split; [exact F|]. constructor; [exact Pv | constructor].
Qed.

(** What every entry of the subject results satisfies. *)
Lemma subject_results_sound (df : frame) (goals : list (string * Q))
    (acc : list (string * subject_result)) :
  let sound (res : subject_result) :=
    (0 < s_total_students res)%nat /\
    (s_reached_students res <= s_total_students res)%nat /\
    0 <= s_reach_rate res <= 100 in
  Forall (fun p => sound (snd p)) acc ->
  Forall (fun p => sound (snd p)) (fold_left (subject_step df) goals acc).
Proof.
  intro sound. revert acc.
  induction goals as [|[subject t] rest IH]; intros acc F; simpl; [exact F|].
  apply IH.
  destruct (lookup subject df) as [column|]; [|exact F].
  destruct (0 <? length (valid column))%nat eqn:P; [|exact F].
  apply Nat.ltb_lt in P.
  apply set_item_Forall; [|exact F].
  unfold sound. cbn [s_total_students s_reached_students s_reach_rate].
  pose proof (List.filter_length_le (fun v => Qle_bool t v) (valid column)) as Le.
  split; [exact P|]. split; [exact Le|].
  unfold Qlen. apply rate_bounds; assumption.
Qed.

Lemma maximum_bounds (xs : list Q) (lo hi : Q) :
  xs <> [] -> (forall x, In x xs -> lo <= x <= hi) ->
  lo <= minimum xs /\ minimum xs <= average xs /\
  average xs <= maximum xs /\ maximum xs <= hi.
Proof.
  destruct xs as [|x t]; [congruence|]. intros _ H.
  unfold minimum, maximum.
  destruct (fold_Qmin_le t x) as [m1 m2].
  destruct (fold_Qmax_ge t x) as [M1 M2].
  split; [apply (H _ (fold_Qmin_In t x))|].
  split; [apply average_lower; [discriminate|]; intros y [<-|Hy]; auto|].
  split; [apply average_upper; [discriminate|]; intros y [<-|Hy]; auto|].
  apply (H _ (fold_Qmax_In t x)).
Qed.

(** X17: goals by subject.  Every subject of the result has at least
    one score, no more students reaching the goal than students, and a
    reach rate between 0 and 100.  The overall figures are there exactly
    when some subject is; then the lowest and the highest reach rate
    are reach rates of subjects of the result, lie between 0 and 100
    and have the reach rate of every subject between them, and the
    ranking is the subjects of the result rearranged by reach rate,
    largest first. *)
Theorem X17_subject_goals (df : frame) (subject_goals : list (string * Q)) :
  let result := analyze_subject_goal_completion df subject_goals in
  (forall subject res, In (subject, res) (subjects result) ->
     (0 < s_total_students res)%nat /\
     (s_reached_students res <= s_total_students res)%nat /\
     0 <= s_reach_rate res <= 100) /\
  (overall_of result = None <-> subjects result = []) /\
  (forall o, overall_of result = Some o ->
     total_subjects o = length (subjects result) /\
     0 <= o_lowest_reach_rate o /\
     o_lowest_reach_rate o <= o_highest_reach_rate o /\
     o_highest_reach_rate o <= 100 /\
     (exists subject res, In (subject, res) (subjects result) /\
        s_reach_rate res = o_lowest_reach_rate o) /\
     (exists subject res, In (subject, res) (subjects result) /\
        s_reach_rate res = o_highest_reach_rate o) /\
     (forall subject res, In (subject, res) (subjects result) ->
        o_lowest_reach_rate o <= s_reach_rate res <= o_highest_reach_rate o) /\
     Permutation (subject_ranking o) (subjects result) /\
     StronglySorted (fun x y => s_reach_rate (snd y) <= s_reach_rate (snd x))
       (subject_ranking o)).
Proof.
  intro result.
  pose proof (subject_results_sound df subject_goals [] (Forall_nil _)) as S.
  cbv zeta in S. rewrite Forall_forall in S.
  unfold result, analyze_subject_goal_completion.
  set (rs := fold_left (subject_step df) subject_goals []) in *.
  destruct rs as [|p t] eqn:E; cbn [is_empty subjects overall_of].
  - split; [contradiction|]. split; [split; reflexivity | discriminate].
  - rewrite <- E. split; [|split].
    + intros subject res Hin. rewrite E in Hin. apply (S (subject, res) Hin).
    + split; [discriminate | rewrite E; discriminate].
    + intros o H. injection H as <-.
      cbn [total_subjects o_lowest_reach_rate avg_reach_rate
           o_highest_reach_rate subject_ranking].
      split; [reflexivity|].
      set (rates := map (fun p => s_reach_rate (snd p)) rs).
      assert (B : forall x, In x rates -> 0 <= x <= 100).
      { intros x Hx. apply in_map_iff in Hx. destruct Hx as (q & <- & Hq).
        rewrite E in Hq. apply (S q Hq). }
      assert (Er : rates = s_reach_rate (snd p)
                           :: map (fun p => s_reach_rate (snd p)) t).
      { unfold rates. rewrite E. reflexivity. }
      assert (Imin : In (minimum rates) rates).
      { rewrite Er. unfold minimum. apply fold_Qmin_In. }
      assert (Imax : In (maximum rates) rates).
      { rewrite Er. unfold maximum. apply fold_Qmax_In. }
      assert (Bnd : forall x, In x rates -> minimum rates <= x <= maximum rates).
      { rewrite Er. unfold minimum, maximum.
        destruct (fold_Qmin_le (map (fun p => s_reach_rate (snd p)) t)
                    (s_reach_rate (snd p))) as [m1 m2].
        destruct (fold_Qmax_ge (map (fun p => s_reach_rate (snd p)) t)
                    (s_reach_rate (snd p))) as [M1 M2].
        intros x [<-|Hx]; split; auto. }
      split; [apply (B _ Imin)|].
      split; [apply (Bnd _ Imax)|].
      split; [apply (B _ Imax)|].
      split.
      { apply in_map_iff in Imin. destruct Imin as ([subject res] & Eq & Hin).
        exists subject, res. split; [exact Hin | exact Eq]. }
      split.
      { apply in_map_iff in Imax. destruct Imax as ([subject res] & Eq & Hin).
        exists subject, res. split; [exact Hin | exact Eq]. }
      split.
      { intros subject res Hin. apply Bnd.
        apply in_map_iff. exists (subject, res). split; [reflexivity | exact Hin]. }
      split; [apply sort_stable_perm|].
      apply (sort_desc_sorted (fun p : string * subject_result =>
                                 s_reach_rate (snd p))).
Qed.

Lemma X17_subject_goals_witness :
  exists o,
    overall_of (analyze_subject_goal_completion two_subjects
                  [("语文", 100); ("数学", 90); ("物理", 60)]) = Some o /\
    o_lowest_reach_rate o <= o_highest_reach_rate o /\
    map fst (subject_ranking o) = ["数学"; "语文"].
Proof.
  eexists. split; [reflexivity|]. split; [|reflexivity].
  apply (proj2 (proj2 (X17_subject_goals two_subjects
                         [("语文", 100); ("数学", 90); ("物理", 60)])) _ eq_refl).
Defined.

End GoalLineMoreProperties.

Section DataProcessorMoreProperties.
Import Stats DataProcessor DataProcessorMore.

Open Scope string_scope.

(** *** The traditional total *)

Lemma flat_sum_none (r : row) (cols : list string) :
  fold_left (fun (acc : option Q) (col : string) =>
               match acc, cell_of r col with
               | Some s, Some v => Some (s + v)
               | _, _ => None
               end) cols None = None.
Proof. induction cols as [|c t IH]; [reflexivity | exact IH]. Qed.

Lemma flat_sum_from (cols : list string) (r : row) (s : Q) :
  (forallb (fun col => notna (cell_of r col)) cols = true ->
   exists t,
     fold_left (fun (acc : option Q) (col : string) =>
                  match acc, cell_of r col with
                  | Some s, Some v => Some (s + v)
                  | _, _ => None
                  end) cols (Some s) = Some t /\
     t == s + Qsum (valid (map (cell_of r) cols))) /\
  (forallb (fun col => notna (cell_of r col)) cols = false ->
   fold_left (fun (acc : option Q) (col : string) =>
                match acc, cell_of r col with
                | Some s, Some v => Some (s + v)
                | _, _ => None
                end) cols (Some s) = None).
Proof.
  revert s. induction cols as [|col rest IH]; intro s; cbn [fold_left forallb map].
  - split; [|discriminate]. intros _. exists s. split; [reflexivity|].
    cbn. lra.
  - destruct (cell_of r col) as [v|] eqn:C; cbn [notna andb valid].
    + destruct (IH (s + v)) as [I1 I2]. split; [|exact I2].
      intro F. destruct (I1 F) as (t & E & Et). exists t. split; [exact E|].
      cbn [Qsum fold_right]. unfold Qsum in Et. lra.
    + split; [discriminate|]. intros _. apply flat_sum_none.
Qed.

(** One row of the traditional mode. *)
Lemma traditional_row (cols : list string) (r : row) :
  (flat_sum cols r = None <-> exists col, In col cols /\ cell_of r col = None) /\
  (forall t, flat_sum cols r = Some t ->
     length (valid (map (cell_of r) cols)) = length cols /\
     (exact_row cols r -> t == Qsum (valid (map (cell_of r) cols)))).
Proof.
  assert (A : forallb (fun col => notna (cell_of r col)) cols = false <->
              exists col, In col cols /\ cell_of r col = None).
  { induction cols as [|c t IH]; cbn [forallb].
    - split; [discriminate | intros (col & [] & _)].
    - destruct (cell_of r c) eqn:C; cbn [notna andb].
      + rewrite IH. split.
        * intros (col & H & E). exists col. split; [right; exact H | exact E].
        * intros (col & [<-|H] & E); [congruence | exists col; auto].
      + split; [|reflexivity]. intros _. exists c. split; [left; reflexivity | exact C]. }
  assert (L : forallb (fun col => notna (cell_of r col)) cols = true ->
              length (valid (map (cell_of r) cols)) = length cols).
  { clear A. induction cols as [|c t IH]; cbn [forallb map]; [reflexivity|].
    destruct (cell_of r c); cbn [notna andb valid length]; [|discriminate].
    intro H. rewrite IH; [reflexivity | exact H]. }
  unfold flat_sum. destruct (flat_sum_from cols r 0) as [I1 I2].
  destruct (forallb (fun col => notna (cell_of r col)) cols) eqn:F.
  - destruct (I1 eq_refl) as (t & E & Et). rewrite E. split.
    + split; [discriminate|]. intro H. apply A in H. discriminate.
    + intros t' H. injection H as <-.
      split; [apply L; reflexivity | intros _; lra].
  - rewrite (I2 eq_refl). split.
    + split; [intros _; apply A; reflexivity | reflexivity].
    + discriminate.
Qed.

(** X18: the traditional mode, which is every mode but "new_gaokao",
    gives each row the sum of its numeric subject columns without
    skipping nulls: the total of a row is null as soon as one subject
    column of the row is null, and only then; a total means that every
    subject column of the row holds a number, and on a row of exact
    scores it is their sum. *)
Theorem X18_traditional_total (cols : list string) (r : row) :
  (flat_sum cols r = None <-> exists col, In col cols /\ cell_of r col = None) /\
  (forall t, flat_sum cols r = Some t ->
     length (valid (map (cell_of r) cols)) = length cols /\
     (exact_row cols r -> t == Qsum (valid (map (cell_of r) cols)))) /\
  (forall parse df exam_mode,
     empty df = false -> numeric_subject_columns parse df <> [] ->
     exam_mode <> "new_gaokao" ->
     calculate_total_score parse df exam_mode
     = Returned (Some (map (flat_sum (numeric_subject_columns parse df))
                         (iterrows parse df)))).
Proof.
  destruct (traditional_row cols r) as [A B].
  split; [exact A|]. split; [exact B|].
  intros parse df exam_mode E N M. unfold calculate_total_score. rewrite E.
  destruct (is_empty (subject_columns df)) eqn:S.
  { exfalso. apply N. unfold numeric_subject_columns.
    destruct (subject_columns df); [reflexivity | discriminate]. }
  destruct (is_empty (numeric_subject_columns parse df)) eqn:C.
  { exfalso. apply N.
    destruct (numeric_subject_columns parse df); [reflexivity | discriminate]. }
  destruct (String.eqb_spec exam_mode "new_gaokao"); [contradiction | reflexivity].
Qed.

Lemma X18_traditional_total_witness :
  flat_sum ["语文"; "数学"] [("语文", Some 100); ("数学", None)] = None /\
  exact_row ["语文"; "数学"] [("语文", Some 100); ("数学", Some (181 # 2))] /\
  (exists t,
     flat_sum ["语文"; "数学"] [("语文", Some 100); ("数学", Some (181 # 2))]
       = Some t /\
     t == 100 + ((181 # 2) + 0)) /\
  calculate_total_score digits exam_frame "traditional"
  = Returned (Some [None; None]).
Proof.
  split.
  { apply (proj1 (X18_traditional_total ["语文"; "数学"]
                    [("语文", Some 100); ("数学", None)])).
    exists "数学". split; [right; left; reflexivity | reflexivity]. }
  assert (X : exact_row ["语文"; "数学"]
                [("语文", Some 100); ("数学", Some (181 # 2))]).
  { intros col v [<-|[<-|[]]] E; injection E as <-.
    - exists 400%Z. split; [lia | reflexivity].
    - exists 362%Z. split; [lia | reflexivity]. }
  split; [exact X|]. split.
  { eexists. split; [reflexivity|].
    apply (proj2 (proj1 (proj2 (X18_traditional_total ["语文"; "数学"]
                           [("语文", Some 100); ("数学", Some (181 # 2))]))
                    _ eq_refl) X). }
  rewrite (proj2 (proj2 (X18_traditional_total [] [])) digits exam_frame
             "traditional" eq_refl); [reflexivity | discriminate | discriminate].
Defined.

(** *** Outliers by the interquartile range *)

Lemma iqr_step_sound (df : list row) (col : string) :
  incl (iqr_step df col) df /\
  (length (iqr_step df col) <= length df)%nat /\
  forall r, In r (iqr_step df col) -> cell_of r col <> None.
Proof.
  unfold iqr_step.
  destruct (quantile (1 # 4) (column col df)) as [q1| |];
    try (repeat split; [intros x [] | simpl; lia | intros r []]).
  destruct (quantile (3 # 4) (column col df)) as [q3| |];
    try (repeat split; [intros x [] | simpl; lia | intros r []]).
  split; [apply incl_filter|]. split; [apply List.filter_length_le|].
  intros r Hr. apply filter_In in Hr. destruct Hr as [_ W].
  unfold within in W. destruct (cell_of r col); [discriminate | discriminate W].
Qed.

Lemma fold_iqr_incl (cols : list string) (df : list row) :
  incl (fold_left iqr_step cols df) df /\
  (length (fold_left iqr_step cols df) <= length df)%nat.
Proof.
  revert df. induction cols as [|c t IH]; intro df; simpl.
  - split; [apply incl_refl | lia].
  - destruct (IH (iqr_step df c)) as [I L].
    destruct (iqr_step_sound df c) as (I' & L' & _).
    split; [intros x Hx; apply I', I, Hx | lia].
Qed.

(** All values equal to [v]: every quantile is [v]. *)
Lemma quantile_constant (p v : Q) (s : series) :
  valid s <> [] -> (forall x, In x (valid s) -> x = v) ->
  0 <= p <= 1 ->
  exists q, quantile p s = Num q /\ q == v.
Proof.
  intros N C P. unfold quantile.
  set (xs := sort_stable (fun y x => Qgtb x y) (valid s)).
  assert (Cx : forall x, In x xs -> x = v).
  { intros x Hx. apply C.
    apply (proj1 (sort_stable_In (fun y x : Q => Qgtb x y) x (valid s))), Hx. }
  assert (Lx : length xs = length (valid s)) by apply sort_stable_length.
  assert (Nx : xs <> []).
  { intro E. rewrite E in Lx. destruct (valid s); [congruence | discriminate]. }
  destruct xs as [|x0 xt] eqn:E; [congruence|]. rewrite <- E in *.
  eexists. split; [reflexivity|].
  assert (H0 : 0 <= (Qlen xs - 1) * p).
  { pose proof (Qlen_cons x0 xt) as Q. pose proof (Qlen_nonneg xt) as Q'.
    rewrite <- E in Q. apply Qmult_le_0_compat; lra. }
  assert (H1 : (Qlen xs - 1) * p <= Qlen xs - 1).
  { pose proof (Qlen_cons x0 xt) as Q. pose proof (Qlen_nonneg xt) as Q'.
    rewrite <- E in Q. nra. }
  set (h := (Qlen xs - 1) * p) in *.
  assert (B : nth (Z.to_nat (Qfloor h)) xs 0 = v).
  { apply Cx, nth_In.
    assert (F : (Qfloor h <= Qfloor (Qlen xs - 1))%Z) by (apply Qfloor_resp_le, H1).
    assert (G : (0 <= Qfloor h)%Z).
    { change 0%Z with (Qfloor 0). apply Qfloor_resp_le, H0. }
    assert (K : Qfloor (Qlen xs - 1) = (Z.of_nat (length xs) - 1)%Z).
    { unfold Qlen.
      setoid_replace (inject_Z (Z.of_nat (length xs)) - 1)
        with (inject_Z (Z.of_nat (length xs) - 1)).
      - apply Qfloor_Z.
      - unfold Zminus. rewrite inject_Z_plus. reflexivity. }
    rewrite K in F. lia. }
  rewrite B.
  assert (A : nth (S (Z.to_nat (Qfloor h))) xs v = v).
  { destruct (nth_in_or_default (S (Z.to_nat (Qfloor h))) xs v) as [I|D];
      [apply Cx, I | exact D]. }
  rewrite A. ring.
Qed.

Lemma filter_all {A : Type} (f : A -> bool) (l : list A) :
  (forall x, In x l -> f x = true) -> filter f l = l.
Proof.
  induction l as [|x t IH]; intro H; simpl; [reflexivity|].
  rewrite (H x (or_introl eq_refl)), IH; [reflexivity|].
  intros y Hy. apply H. right. exact Hy.
Qed.

Lemma iqr_step_constant (df : list row) (col : string) (v : Q) :
  (forall r, In r df -> cell_of r col = Some v) -> iqr_step df col = df.
Proof.
  intro C. destruct df as [|r0 rest] eqn:E.
  { unfold iqr_step. simpl. reflexivity. }
  rewrite <- E in *.
  assert (V : valid (column col df) = map (fun _ => v) df).
  { clear E. unfold column. induction df as [|r t IH]; simpl; [reflexivity|].
    rewrite (C r (or_introl eq_refl)). cbn [valid]. rewrite IH; [reflexivity|].
    intros x Hx. apply C. right. exact Hx. }
  assert (N : valid (column col df) <> []) by (rewrite V, E; discriminate).
  assert (K : forall x, In x (valid (column col df)) -> x = v).
  { intros x Hx. rewrite V in Hx. apply in_map_iff in Hx.
    destruct Hx as (_ & <- & _). reflexivity. }
  destruct (quantile_constant (1 # 4) v (column col df) N K) as (q1 & E1 & V1);
    [lra|].
  destruct (quantile_constant (3 # 4) v (column col df) N K) as (q3 & E3 & V3);
    [lra|].
  unfold iqr_step. rewrite E1, E3. apply filter_all.
  intros r Hr. unfold within. rewrite (C r Hr).
  apply andb_true_iff. split; apply Qle_bool_iff; lra.
Qed.

(** X19: removing outliers by the interquartile range.  The rows that
    are left are rows of the frame, none more than before; each of them
    holds a number in every numeric column, so a row with a missing
    value in a numeric column is always removed; and a frame in which
    every numeric column holds one and the same number in all rows is
    returned as it is. *)
Theorem X19_iqr_outliers (numeric_cols : list string) (df : list row) :
  incl (_remove_outliers_iqr numeric_cols df) df /\
  (length (_remove_outliers_iqr numeric_cols df) <= length df)%nat /\
  (forall r col, In r (_remove_outliers_iqr numeric_cols df) ->
     In col numeric_cols -> cell_of r col <> None) /\
  ((forall col, In col numeric_cols ->
      exists v, forall r, In r df -> cell_of r col = Some v) ->
   _remove_outliers_iqr numeric_cols df = df).
Proof.
  unfold _remove_outliers_iqr.
  split; [apply fold_iqr_incl|]. split; [apply fold_iqr_incl|]. split.
  - revert df. induction numeric_cols as [|c t IH]; intros df r col Hr Hc.
    + contradiction.
    + cbn [fold_left] in Hr. destruct Hc as [<-|Hc].
      * apply (proj2 (proj2 (iqr_step_sound df c))).
        apply (proj1 (fold_iqr_incl t (iqr_step df c))), Hr.
      * apply (IH (iqr_step df c) r col Hr Hc).
  - revert df. induction numeric_cols as [|c t IH]; intros df H; cbn [fold_left].
    + reflexivity.
    + destruct (H c (or_introl eq_refl)) as [v Hv].
      rewrite (iqr_step_constant df c v Hv).
      apply IH. intros col Hc. apply H. right. exact Hc.
Qed.

Lemma X19_iqr_outliers_witness :
  _remove_outliers_iqr ["语文"] three_students = three_students.
Proof.
  apply (proj2 (proj2 (proj2 (X19_iqr_outliers ["语文"] three_students)))).
  intros col [<-|[]]. exists 100.
  intros r [<-|[<-|[<-|[]]]]; reflexivity.
Defined.

End DataProcessorMoreProperties.

Section StatsProperties.
Import Stats.

Lemma all_na_valid (s : series) : forallb isna s = true <-> valid s = [].
Proof.
  induction s as [|[q|] t IH]; simpl.
  - split; reflexivity.
  - split; discriminate.
  - exact IH.
Qed.

Lemma valid_length_le (s : series) : (length (valid s) <= length s)%nat.
Proof. induction s as [|[q|] t IH]; simpl; lia. Qed.

(** X20: the safe statistics.  [safe_mean] always gives a number.
    [safe_std] gives NaN exactly for a column of two or more cells of
    which one alone is not NaN; for a column of fewer than two cells or
    without any value it gives 0; otherwise it gives the standard
    deviation of the values. *)
Theorem X20_safe_statistics (s : series) :
  (exists q, safe_mean s = Num q) /\
  (safe_std s = NaN <-> (2 <= length s)%nat /\ length (valid s) = 1%nat) /\
  ((length s < 2)%nat \/ valid s = [] -> safe_std s = Num 0) /\
  ((2 <= length (valid s))%nat -> safe_std s = Root (variance (valid s))).
Proof.
  assert (E : empty_or_all_na s = true <-> valid s = []).
  { unfold empty_or_all_na. destruct s as [|c t]; [split; reflexivity|].
    apply all_na_valid. }
  pose proof (valid_length_le s) as Le.
  split; [|split; [|split]].
  - unfold safe_mean, mean. destruct (empty_or_all_na s).
    + exists 0. reflexivity.
    + destruct (valid s) as [|x xs].
      * exfalso. assert (T : false = true) by (apply E; reflexivity).
        discriminate.
      * eexists. reflexivity.
  - unfold safe_std, std. destruct (empty_or_all_na s); cbn [orb].
    + rewrite (proj1 E eq_refl).
      split; [discriminate | simpl; intros [_ H]; lia].
    + assert (V : valid s <> []).
      { intro V. apply E in V. discriminate. }
      destruct (length s <? 2)%nat eqn:L.
      * apply Nat.ltb_lt in L. split; [discriminate | lia].
      * apply Nat.ltb_ge in L.
        destruct (length (valid s) <? 2)%nat eqn:L2.
        -- apply Nat.ltb_lt in L2. split; [|reflexivity]. intros _.
           split; [exact L|]. destruct (valid s); [congruence | simpl in *; lia].
        -- apply Nat.ltb_ge in L2. split; [discriminate | lia].
  - intros H. unfold safe_std. destruct (empty_or_all_na s); [reflexivity|].
    cbn [orb]. destruct H as [H|H].
    + apply Nat.ltb_lt in H. rewrite H. reflexivity.
    + apply E in H. discriminate.
  - intro H. unfold safe_std, std.
    destruct (empty_or_all_na s).
    { rewrite (proj1 E eq_refl) in H. simpl in H. lia. }
    cbn [orb].
    assert (L : (length s <? 2)%nat = false) by (apply Nat.ltb_ge; lia).
    assert (L2 : (length (valid s) <? 2)%nat = false) by (apply Nat.ltb_ge; lia).
    rewrite L, L2. reflexivity.
Qed.

Lemma X20_safe_statistics_witness : safe_std [Some 80; None; None] = NaN.
Proof.
  apply (proj1 (proj2 (X20_safe_statistics [Some 80; None; None]))).
  simpl. lia.
Defined.

End StatsProperties.

Section CascadeCategoriesProperties.
Import CascadeCategories.

Open Scope string_scope.

Lemma insert_asc_sorted (x : string) (l : list string) :
  StronglySorted (fun a b => (sort_key a <= sort_key b)%nat) l ->
  StronglySorted (fun a b => (sort_key a <= sort_key b)%nat)
    (insert_stable (fun y x => (sort_key y <? sort_key x)%nat) x l).
Proof.
  induction 1 as [|y t St IH Hy]; simpl.
  - constructor; [constructor | constructor].
  - destruct (sort_key y <? sort_key x)%nat eqn:E.
    + apply Nat.ltb_lt in E. constructor; [exact IH|].
      rewrite Forall_forall in *. intros z Hz.
      apply (Permutation_in _ (insert_stable_perm _ x t)) in Hz.
      destruct Hz as [<-|Hz]; [lia | apply Hy, Hz].
    + apply Nat.ltb_ge in E. constructor; [constructor; assumption|].
      rewrite Forall_forall in *. intros z [<-|Hz]; [exact E|].
      specialize (Hy z Hz). lia.
Qed.

Lemma sort_asc_sorted (l : list string) :
  StronglySorted (fun a b => (sort_key a <= sort_key b)%nat)
    (sort_stable (fun y x => (sort_key y <? sort_key x)%nat) l).
Proof.
  induction l as [|x t IH]; cbn [sort_stable fold_right].
  - constructor.
  - apply insert_asc_sorted, IH.
Qed.

(** X21: the categories on offer are the columns that pass the test of
    a score column, each as often as it occurs, in the order of their
    sort keys; so no category contains 排 or 等级 or the name of an
    administrative column. *)
Theorem X21_available_categories (columns : list string) :
  Permutation (_get_available_categories columns) (filter is_category columns) /\
  StronglySorted (fun a b => (sort_key a <= sort_key b)%nat)
    (_get_available_categories columns) /\
  (forall c, In c (_get_available_categories columns) <->
     In c columns /\ is_category c = true) /\
  (forall c pattern, In c (_get_available_categories columns) ->
     In pattern exclude_patterns -> contains pattern c = false).
Proof.
  unfold _get_available_categories.
  assert (M : forall c,
            In c (sort_stable (fun y x => (sort_key y <? sort_key x)%nat)
                    (filter is_category columns)) <->
            In c columns /\ is_category c = true).
  { intro c. rewrite sort_stable_In. apply filter_In. }
  split; [apply sort_stable_perm|]. split; [|split; [exact M|]].
  - apply sort_asc_sorted.
  - intros c pattern Hc Hp. apply M in Hc. destruct Hc as [_ Hc].
    unfold is_category in Hc. apply andb_true_iff in Hc. destruct Hc as [_ Hc].
    apply negb_true_iff in Hc.
    destruct (contains pattern c) eqn:C; [|reflexivity].
    assert (T : existsb (fun pattern0 => contains pattern0 c) exclude_patterns = true).
    { apply existsb_exists. exists pattern. auto. }
    congruence.
Qed.

Lemma X21_available_categories_witness :
  In "语文" (_get_available_categories ["姓名"; "化学"; "语文排名"; "语文"]).
Proof.
  apply (proj1 (proj2 (proj2 (X21_available_categories
                                ["姓名"; "化学"; "语文排名"; "语文"])))).
  split; [simpl; auto | reflexivity].
Defined.

End CascadeCategoriesProperties.

Section ZScoreProperties.
Import Stats DataProcessor DataProcessorMore.

Open Scope string_scope.

(** *** Sums of squares *)








(** *** One column *)








End ZScoreProperties.

Section MinMaxProperties.
Import Stats DataProcessor DataProcessorMore.

Open Scope string_scope.

















End MinMaxProperties.
